(** * THE HOLD: loop asset generator (generate-loops.py)

    A shallow embedding of [src/public/audio/loops/generate-loops.py] and the
    properties its specification states about it.

    Modelling conventions.
    - A sample is an exact rational ([Q]); numpy's float64 rounding is not
      modelled.  The inputs on which a statement of the specification is
      shown to fail are dyadic, so that the float computation is exact on
      them too.
    - A numpy array that is mutated in place, passed to or returned from a
      function of the program is an object of the store [arrays], named by a
      reference; two names may denote the same object.  Arrays that are
      built and consumed inside one function without being mutated
      ([fade_in], [t], masks, the operands of an expression) are values.
    - A Python exception is the outcome [Raise]; the store keeps whatever
      was written before the exception was raised.
    - [np.sin], [np.arcsin] and [np.pi] are parameters of the development.
    - The process-global random generator is the position [rng_pos] in a
      sequence [rng : nat -> Q] of raw variates of [0, 1).
    - Of the file system the store [files] keeps the complete wave
      containers, by name; a file that was opened and left without a
      container is not in it.  Directories are not tracked: the file
      system is taken to let every directory be created and every file be
      opened for writing, unless the name itself forbids it (an empty
      directory part, a last component that denotes a directory).
    - The cast of a float to a 16-bit integer, which C leaves open outside
      the range of the target, is the one numpy performs on x86-64. *)

From Stdlib Require Import ZArith QArith Qround Qabs Qminmax Lia Lqa String Ascii.
From stdpp Require Import base list strings gmap.

Local Open Scope Q_scope.

(** ** Python outcomes *)

Inductive exn : Type :=
  | ValueError          (* numpy: shapes do not broadcast, empty reduction, negative count *)
  | IndexError          (* waveforms[0] on an empty list, mask of the wrong length *)
  | ZeroDivisionError   (* 1.0 / len(waveforms) with no waveform *)
  | FileNotFoundError   (* os.makedirs('') *)
  | IsADirectoryError   (* open() of a name that denotes a directory *)
  | WaveError           (* wave.Error: a frame rate that is not positive or rounds to 0 *)
  | StructError         (* struct.error: a header field that does not fit its slot *)
  | DanglingRef.        (* a reference outside the store: no Python program builds one *)

Inductive outcome (A : Type) : Type :=
  | Ok (a : A)
  | Raise (e : exn).
Arguments Ok {A} a.
Arguments Raise {A} e.

(** ** Python and numpy on values *)

Module Py.

(** [int(x)] of a float: truncation toward zero. *)
Definition int (x : Q) : Z := Z.quot (Qnum x) (Z.pos (Qden x)).

(** [len(l)] as a Python integer. *)
Definition len {A} (l : list A) : Z := Z.of_nat (length l).

(** A slice [a[start:stop]] with step 1; [None] is an omitted bound. *)
Record slice : Type := Slice { start : option Z; stop : option Z }.

(** How Python clamps a slice bound [i] against a length. *)
Definition clamp (i : Z) (n : nat) : nat :=
  if (i <? 0)%Z then Z.to_nat (Z.max (Z.of_nat n + i) 0)
  else Z.to_nat (Z.min i (Z.of_nat n)).

(** [slice.indices(n)]: the selected positions are [lo, lo + cnt). *)
Definition lo (s : slice) (n : nat) : nat :=
  match start s with None => 0%nat | Some i => clamp i n end.
Definition hi (s : slice) (n : nat) : nat :=
  match stop s with None => n | Some i => clamp i n end.
Definition cnt (s : slice) (n : nat) : nat := (hi s n - lo s n)%nat.

Definition getslice {A} (s : slice) (l : list A) : list A :=
  take (cnt s (length l)) (drop (lo s (length l)) l).

(** Writing [new], of the length of the slice, back over the slice. *)
Definition putslice {A} (s : slice) (l new : list A) : list A :=
  take (lo s (length l)) l ++ new ++ drop (lo s (length l) + cnt s (length l)) l.

(** [round(x)] to an integer: to the nearest, a tie to the even one. *)
Definition round (x : Q) : Z :=
  let f := Qfloor x in
  match Qcompare (x - inject_Z f) (1 # 2) with
  | Lt => f
  | Gt => (f + 1)%Z
  | Eq => if Z.even f then f else (f + 1)%Z
  end.

(** [os.path.dirname(p)] is empty exactly when [p] has no separator. *)
Fixpoint has_dirname (p : string) : bool :=
  match p with
  | EmptyString => false
  | String c p' => if Ascii.eqb c "/"%char then true else has_dirname p'
  end.

(** [os.path.basename(p)]: what follows the last separator. *)
Fixpoint basename (p : string) : string :=
  match p with
  | EmptyString => EmptyString
  | String c p' => if has_dirname p' then basename p'
                   else if Ascii.eqb c "/"%char then p' else p
  end.

(** A name whose last component is empty, [.] or [..] denotes a
    directory whatever the file system holds. *)
Definition names_directory (p : string) : bool :=
  String.eqb (basename p) "" || String.eqb (basename p) "."
  || String.eqb (basename p) "..".

End Py.

Module Np.

(** [np.linspace(start, stop, num, endpoint)]: [num] samples
    [start + k * step] with [step = (stop - start) / div], where [div] is
    [num - 1] with the end point and [num] without; with the end point
    and more than one sample the last sample is set to [stop].  A
    negative [num] is a [ValueError]. *)
Definition linspace_div (num : nat) (endpoint : bool) : nat :=
  if endpoint then (num - 1)%nat else num.

Definition linspace_step (start stop : Q) (num : nat) (endpoint : bool) : Q :=
  match linspace_div num endpoint with
  | O => stop - start
  | S _ as div => (stop - start) / inject_Z (Z.of_nat div)
  end.

Definition linspace_at (start stop : Q) (num : nat) (endpoint : bool) (k : nat) : Q :=
  if endpoint && (1 <? num)%nat && (k =? num - 1)%nat then stop
  else inject_Z (Z.of_nat k) * linspace_step start stop num endpoint + start.

Definition linspace (start stop : Q) (num : Z) (endpoint : bool) : outcome (list Q) :=
  if (num <? 0)%Z then Raise ValueError
  else Ok (map (linspace_at start stop (Z.to_nat num) endpoint) (seq 0 (Z.to_nat num))).

Definition zeros_like (a : list Q) : list Q := replicate (length a) 0.
Definition ones_like (a : list Q) : list Q := replicate (length a) 1.

Definition abs (a : list Q) : list Q := map Qabs a.

(** [np.max]: the reduction has no identity, an empty array is an error. *)
Definition max (a : list Q) : outcome Q :=
  match a with
  | [] => Raise ValueError
  | x :: a' => Ok (foldl Qmax x a')
  end.

(** [np.sum] of a boolean array. *)
Definition sum (mask : list bool) : Z := Z.of_nat (length (filter (fun b => b = true) mask)).

(** Broadcasting a one-dimensional operand to the shape of the array it
    is written into ([a op= b], [a[s] = b]): equal lengths, or one
    element repeated; anything else is a [ValueError]. *)
Definition broadcast_to (n : nat) (b : list Q) : outcome (list Q) :=
  if (length b =? n)%nat then Ok b
  else match b with
       | [x] => Ok (replicate n x)
       | _ => Raise ValueError
       end.

(** The new samples of [a] after [a[s] *= b], [a[s] = b] and [a += b]. *)
Definition imul_slice (s : Py.slice) (b a : list Q) : outcome (list Q) :=
  match broadcast_to (length (Py.getslice s a)) b with
  | Ok b' => Ok (Py.putslice s a (zip_with Qmult (Py.getslice s a) b'))
  | Raise e => Raise e
  end.

Definition assign_slice (s : Py.slice) (b a : list Q) : outcome (list Q) :=
  match broadcast_to (length (Py.getslice s a)) b with
  | Ok b' => Ok (Py.putslice s a b')
  | Raise e => Raise e
  end.

Definition iadd (b a : list Q) : outcome (list Q) :=
  match broadcast_to (length a) b with
  | Ok b' => Ok (zip_with Qplus a b')
  | Raise e => Raise e
  end.

(** Broadcasting the two operands of [a op b] against each other. *)
Definition broadcast2 (f : Q -> Q -> Q) (a b : list Q) : outcome (list Q) :=
  if (length a =? length b)%nat then Ok (zip_with f a b)
  else match a, b with
       | [x], _ => Ok (map (f x) b)
       | _, [y] => Ok (map (fun x => f x y) a)
       | _, _ => Raise ValueError
       end.

(** [a[mask] = vals]: the positions where the mask holds receive the
    values in order.  The mask has the length of the array
    ([IndexError] otherwise) and there are as many values as selected
    positions, or one value ([ValueError] otherwise). *)
Fixpoint mask_fill (a : list Q) (mask : list bool) (vals : list Q) : list Q :=
  match a, mask with
  | x :: a', true :: mask' =>
      match vals with
      | v :: vals' => v :: mask_fill a' mask' vals'
      | [] => x :: mask_fill a' mask' []
      end
  | x :: a', false :: mask' => x :: mask_fill a' mask' vals
  | _, _ => a
  end.

Definition mask_assign (mask : list bool) (vals a : list Q) : outcome (list Q) :=
  if negb (length mask =? length a)%nat then Raise IndexError
  else match broadcast_to (Z.to_nat (sum mask)) vals with
       | Ok vals' => Ok (mask_fill a mask vals')
       | Raise e => Raise e
       end.

(** The low 16 bits of an integer, read as a two's complement number. *)
Definition wrap16 (z : Z) : Z := ((z + 32768) mod 65536 - 32768)%Z.

(** [a.astype(np.int16)] on one float, as the C cast of numpy does it on
    x86-64: the fraction is dropped; a value that fits a signed 32-bit
    integer keeps its low 16 bits (in the range of int16 this is
    truncation toward zero, outside it the value wraps); a value that does
    not fit 32 bits gives the integer [0x80000000], whose low 16 bits are
    0. *)
Definition cast_int16 (x : Q) : Z :=
  let z := Py.int x in
  if (-2147483648 <=? z)%Z && (z <=? 2147483647)%Z then wrap16 z else 0%Z.
Definition astype_int16 (a : list Q) : list Z := map cast_int16 a.

(** [a.tobytes()] of an int16 array: two bytes per sample, low byte
    first; a byte is a number of [0, 256). *)
Definition int16_bytes (z : Z) : list Z :=
  [Z.land z 255; Z.land (Z.shiftr z 8) 255].
Definition tobytes (a : list Z) : list Z := flat_map int16_bytes a.

End Np.

(** ** The machine: array store, random generator, files *)

(** A reference names an array object by its rank of creation. *)
Abbreviation ref := nat (only parsing).

(** What [wave] holds of a file once it is closed. *)
Record wav_file : Type := WavFile {
  nchannels : Z;
  sampwidth : Z;
  framerate : Z;
  frames : list Z
}.

Record machine : Type := Machine {
  arrays : list (list Q);
  rng_pos : nat;
  files : gmap string wav_file
}.

Definition set_arrays (m : machine) (a : list (list Q)) : machine :=
  {| arrays := a; rng_pos := rng_pos m; files := files m |}.
Definition set_rng_pos (m : machine) (p : nat) : machine :=
  {| arrays := arrays m; rng_pos := p; files := files m |}.
Definition set_files (m : machine) (f : gmap string wav_file) : machine :=
  {| arrays := arrays m; rng_pos := rng_pos m; files := f |}.

Definition M (A : Type) : Type := machine -> outcome A * machine.

Definition ret {A} (a : A) : M A := fun m => (Ok a, m).
Definition raise {A} (e : exn) : M A := fun m => (Raise e, m).
Definition bind {A B} (c : M A) (k : A -> M B) : M B :=
  fun m => match c m with
           | (Ok a, m') => k a m'
           | (Raise e, m') => (Raise e, m')
           end.
Definition lift {A} (o : outcome A) : M A := fun m => (o, m).

Declare Scope py_scope.
Delimit Scope py_scope with py.
Notation "x <- c ;; k" := (bind c (fun x => k))
  (at level 100, c at next level, right associativity) : py_scope.
Notation "c ;; k" := (bind c (fun _ => k))
  (at level 100, right associativity) : py_scope.
Local Open Scope py_scope.

(** A new array object. *)
Definition alloc (v : list Q) : M ref :=
  fun m => (Ok (length (arrays m)), set_arrays m (arrays m ++ [v])).

(** The samples an array object holds now. *)
Definition load (r : ref) : M (list Q) :=
  fun m => match arrays m !! r with
           | Some v => (Ok v, m)
           | None => (Raise DanglingRef, m)
           end.

(** Overwriting the samples of an array object. *)
Definition store (r : ref) (v : list Q) : M unit :=
  fun m => (Ok tt, set_arrays m (<[r := v]> (arrays m))).

(** [for x in l: body(x)]. *)
Fixpoint for_each {A} (l : list A) (body : A -> M unit) : M unit :=
  match l with
  | [] => ret tt
  | x :: l' => body x ;; for_each l' body
  end.

(** [for x in l: acc = body(x, acc)], for a loop that grows local lists. *)
Fixpoint for_fold {A S} (l : list A) (body : A -> S -> M S) (acc : S) : M S :=
  match l with
  | [] => ret acc
  | x :: l' => acc' <- body x acc ;; for_fold l' body acc'
  end.

(** An operation in place: the object [a] receives new samples computed
    from its old ones, unless the computation raises. *)
Definition update (a : ref) (f : list Q -> outcome (list Q)) : M unit :=
  v <- load a ;;
  v' <- lift (f v) ;;
  store a v'.

(** [a[s] *= b] *)
Definition imul_slice (a : ref) (s : Py.slice) (b : list Q) : M unit :=
  update a (Np.imul_slice s b).

(** [a[s] = b] *)
Definition assign_slice (a : ref) (s : Py.slice) (b : list Q) : M unit :=
  update a (Np.assign_slice s b).

(** [a[mask] = b] *)
Definition assign_mask (a : ref) (mask : list bool) (b : list Q) : M unit :=
  update a (Np.mask_assign mask b).

(** [a += b] *)
Definition iadd (a : ref) (b : list Q) : M unit :=
  update a (Np.iadd b).

(** [a *= c] with a scalar [c] *)
Definition imul_scalar (a : ref) (c : Q) : M unit :=
  update a (fun v => Ok (map (fun x => x * c) v)).

(** [np.random.random()] and [np.random.uniform(low, high)]: the next raw
    variate [u], and [low + (high - low) * u]. *)
Definition random (rng : nat -> Q) : M Q :=
  fun m => (Ok (rng (rng_pos m)), set_rng_pos m (S (rng_pos m))).
Definition uniform (rng : nat -> Q) (low high : Q) : M Q :=
  u <- random rng ;;
  ret (low + (high - low) * u).

(** [os.makedirs(os.path.dirname(filename), exist_ok=True)]: the empty
    directory name is refused.  Directories are not tracked otherwise:
    the file system is taken to let every other directory be created. *)
Definition makedirs_dirname (filename : string) : M unit :=
  if Py.has_dirname filename then ret tt else raise FileNotFoundError.

(** [open(filename, 'wb')], as [wave.open] calls it: a name that denotes
    a directory is refused; otherwise the file is created, or emptied if
    it was there, and holds no wave container until one is written. *)
Definition open_wb (filename : string) : M unit :=
  if Py.names_directory filename then raise IsADirectoryError
  else fun m => (Ok tt, set_files m (delete filename (files m))).

(** The fields that [wave] packs into the header with
    [struct.pack('<L4s4sLHHLLHH4s', ...)]: the length of the form, the
    number of channels, the frame rate, the byte rate, the block size and
    the bits per sample, in unsigned slots of 32 or 16 bits. *)
Definition header_fits (channels width framerate : Z) (data : list Z) : bool :=
  (36 + Z.of_nat (length data) <? 4294967296)%Z
  && (channels <? 65536)%Z
  && (framerate <? 4294967296)%Z
  && (channels * framerate * width <? 4294967296)%Z
  && (channels * width <? 65536)%Z
  && (width * 8 <? 65536)%Z.

(** [with wave.open(filename, 'w') as f:] followed by [setnchannels],
    [setsampwidth], [setframerate] and [writeframes].  [setnchannels]
    wants at least one channel and [setsampwidth] a width of 1 to 4;
    [setframerate] refuses a rate that is not positive and keeps
    [int(round(rate))]; [writeframes] refuses a frame rate of 0 and then
    packs the header.  An exception leaves the opened file without a
    container; a file is recorded once its container is complete. *)
Definition wave_write (filename : string) (channels width : Z) (rate : Q)
    (data : list Z) : M unit :=
  open_wb filename ;;
  (if (channels <? 1)%Z then raise WaveError else ret tt) ;;
  (if (width <? 1)%Z || (4 <? width)%Z then raise WaveError else ret tt) ;;
  (if Qle_bool rate 0 then raise WaveError else ret tt) ;;
  let framerate := Py.round rate in
  (if (framerate =? 0)%Z then raise WaveError else ret tt) ;;
  (if header_fits channels width framerate data then ret tt else raise StructError) ;;
  fun m =>
    (Ok tt,
     set_files m (<[filename := {| nchannels := channels; sampwidth := width;
                                   framerate := framerate; frames := data |}]>
                    (files m))).

(** What a 16-bit PCM decoder reads back from the frames. *)
Fixpoint decode_int16 (bytes : list Z) : list Z :=
  match bytes with
  | b0 :: b1 :: bytes' =>
      Np.wrap16 (Z.lor b0 (Z.shiftl b1 8)) :: decode_int16 bytes'
  | _ => []
  end.

(** ** The program *)

Definition SAMPLE_RATE : Q := 48000.
Definition BITS_PER_SAMPLE : Z := 16.
Definition MAX_AMP : Q := 32767.

Definition BASE_FREQ : Q := 432.
Definition MINOR_RATIOS : list Q := [1; 1.2; 1.5; 2; 2.4; 3].

Definition Qltb (x y : Q) : bool := negb (Qle_bool y x).

Section Program.

Variables (np_sin np_arcsin : Q -> Q) (np_pi : Q).

Definition generate_sine_wave (freq duration sample_rate : Q) : M ref :=
  t <- lift (Np.linspace 0 duration (Py.int (sample_rate * duration)) false) ;;
  alloc (map (fun x => np_sin (2 * np_pi * freq * x)) t).

Definition generate_triangle_wave (freq duration sample_rate : Q) : M ref :=
  t <- lift (Np.linspace 0 duration (Py.int (sample_rate * duration)) false) ;;
  alloc (map (fun x => 2 * np_arcsin (np_sin (2 * np_pi * freq * x)) / np_pi) t).

Definition apply_fade (waveform : ref) (fade_duration sample_rate : Q) : M ref :=
  let fade_samples := Py.int (fade_duration * sample_rate) in
  (* Fade in *)
  fade_in <- lift (Np.linspace 0 1 fade_samples true) ;;
  imul_slice waveform (Py.Slice None (Some fade_samples)) fade_in ;;
  (* Fade out *)
  fade_out <- lift (Np.linspace 1 0 fade_samples true) ;;
  imul_slice waveform (Py.Slice (Some (- fade_samples)%Z) None) fade_out ;;
  ret waveform.

Definition apply_envelope (waveform : ref) (attack release sample_rate : Q) : M ref :=
  let attack_samples := Py.int (attack * sample_rate) in
  let release_samples := Py.int (release * sample_rate) in
  w <- load waveform ;;
  envelope <- alloc (Np.ones_like w) ;;
  (* Attack *)
  (if (0 <? attack_samples)%Z then
     ramp <- lift (Np.linspace 0 1 attack_samples true) ;;
     assign_slice envelope (Py.Slice None (Some attack_samples)) ramp
   else ret tt) ;;
  (* Release *)
  (if (0 <? release_samples)%Z then
     ramp <- lift (Np.linspace 1 0 release_samples true) ;;
     assign_slice envelope (Py.Slice (Some (- release_samples)%Z) None) ramp
   else ret tt) ;;
  w <- load waveform ;;
  e <- load envelope ;;
  product <- lift (Np.broadcast2 Qmult w e) ;;
  alloc product.

Definition mix_waveforms (waveforms : list ref) (gains : option (list Q)) : M ref :=
  gains <- match gains with
           | None =>
               if (Py.len waveforms =? 0)%Z then raise ZeroDivisionError
               else ret (replicate (length waveforms) (1 / inject_Z (Py.len waveforms)))
           | Some gains => ret gains
           end ;;
  first <- match waveforms with
           | [] => raise IndexError
           | r :: _ => load r
           end ;;
  mixed <- alloc (Np.zeros_like first) ;;
  for_each (zip waveforms gains)
    (fun '(wave, gain) => w <- load wave ;; iadd mixed (map (fun x => x * gain) w)) ;;
  ret mixed.

Definition normalize_audio (waveform : ref) (headroom : Q) : M ref :=
  w <- load waveform ;;
  peak <- lift (Np.max (Np.abs w)) ;;
  if Qltb 0 peak then alloc (map (fun x => x / peak * headroom) w)
  else ret waveform.

Definition save_wav (waveform : ref) (filename : string) (sample_rate : Q) : M unit :=
  w <- load waveform ;;
  (* Convert to 16-bit integers *)
  let waveform_int := Np.astype_int16 (map (fun x => x * MAX_AMP) w) in
  (* Ensure directory exists *)
  makedirs_dirname filename ;;
  (* Write WAV file *)
  wave_write filename 1 2 sample_rate (Np.tobytes waveform_int).

Definition generate_drone_loop (rng : nat -> Q) (duration : Q) : M ref :=
  (* Base frequency (octave below 432) *)
  let base := BASE_FREQ / 2 in
  (* Create harmonics *)
  hg <- for_fold (imap (fun i ratio => (i, ratio)) (take 4 MINOR_RATIOS))
          (fun '(i, ratio) '(harmonics, gains) =>
             let freq := base * ratio in
             (* Slight detune for richness *)
             u <- random rng ;;
             let detune := (u - 0.5) * 2 in
             wave <- generate_sine_wave (freq + detune) duration SAMPLE_RATE ;;
             (* Higher harmonics are quieter *)
             let gain := 1 / inject_Z (Z.of_nat i + 1) in
             ret (harmonics ++ [wave], gains ++ [gain]))
          ([], []) ;;
  let '(harmonics, gains) := hg in
  (* Mix harmonics *)
  mixed <- mix_waveforms harmonics (Some gains) ;;
  (* Apply subtle envelope for seamless loop *)
  mixed <- apply_fade mixed 0.5 SAMPLE_RATE ;;
  (* Normalize *)
  mixed <- normalize_audio mixed 0.7 ;;
  ret mixed.

(** One turn of the loop of [generate_texture_loop]. *)
Definition texture_tone (rng : nat -> Q) (duration : Q) (tones : list ref)
    : M (list ref) :=
  (* Random frequency in range *)
  freq <- uniform rng 200 800 ;;
  (* Random duration for each tone *)
  tone_duration <- uniform rng 1 3 ;;
  tone_start <- uniform rng 0 (duration - tone_duration) ;;
  (* Generate tone *)
  tone <- generate_sine_wave freq duration SAMPLE_RATE ;;
  (* Apply envelope to create grain-like effect *)
  tone <- apply_envelope tone 0.3 0.3 SAMPLE_RATE ;;
  (* Random pan position (simulated by amplitude) *)
  pan <- uniform rng 0.5 1 ;;
  imul_scalar tone pan ;;
  ret (tones ++ [tone]).

Definition generate_texture_loop (rng : nat -> Q) (duration : Q) : M ref :=
  (* Multiple overlapping tones *)
  let num_tones := 5%nat in
  tones <- for_fold (seq 0 num_tones) (fun _ => texture_tone rng duration) [] ;;
  (* Mix tones *)
  mixed <- mix_waveforms tones None ;;
  (* Apply fade for seamless loop *)
  mixed <- apply_fade mixed 0.3 SAMPLE_RATE ;;
  (* Normalize *)
  mixed <- normalize_audio mixed 0.5 ;;
  ret mixed.

(** The time grid and the three-phase shape of [generate_breath_loop]. *)
Definition breath_grid (duration : Q) : outcome (list Q) :=
  Np.linspace 0 duration (Py.int (SAMPLE_RATE * duration)) false.
Definition inhale_mask (t : list Q) : list bool := map (fun x => Qltb x 4) t.
Definition exhale_mask (t : list Q) : list bool :=
  map (fun x => Qle_bool 4 x && Qltb x 10) t.

Definition generate_breath_loop (duration : Q) : M ref :=
  let base_freq := 216 in
  (* Create the breath modulation *)
  t <- lift (breath_grid duration) ;;
  breath_shape <- alloc (Np.zeros_like t) ;;
  (* Inhale phase *)
  rise <- lift (Np.linspace 0 0.5 (Np.sum (inhale_mask t)) true) ;;
  assign_mask breath_shape (inhale_mask t) rise ;;
  (* Exhale phase *)
  fall <- lift (Np.linspace 0.5 0 (Np.sum (exhale_mask t)) true) ;;
  assign_mask breath_shape (exhale_mask t) fall ;;
  (* Pause phase - already zeros *)
  (* Generate carrier wave *)
  carrier <- generate_sine_wave base_freq duration SAMPLE_RATE ;;
  (* Modulate with breath shape *)
  c <- load carrier ;;
  b <- load breath_shape ;;
  product <- lift (Np.broadcast2 Qmult c b) ;;
  modulated <- alloc product ;;
  (* Apply fade for seamless loop *)
  modulated <- apply_fade modulated 1 SAMPLE_RATE ;;
  (* Normalize *)
  modulated <- normalize_audio modulated 0.4 ;;
  ret modulated.

Definition generate_pad_loop (duration : Q) : M ref :=
  (* Richer pad with triangle waves *)
  let base := BASE_FREQ / 4 in
  (* Fundamental *)
  w1 <- generate_triangle_wave base duration SAMPLE_RATE ;;
  (* Octave *)
  w2 <- generate_sine_wave (base * 2) duration SAMPLE_RATE ;;
  (* Fifth *)
  w3 <- generate_sine_wave (base * 1.5) duration SAMPLE_RATE ;;
  (* Mix *)
  mixed <- mix_waveforms [w1; w2; w3] (Some [0.5; 0.3; 0.2]) ;;
  (* Apply long fade for very smooth loop *)
  mixed <- apply_fade mixed 1.5 SAMPLE_RATE ;;
  (* Normalize *)
  mixed <- normalize_audio mixed 0.6 ;;
  ret mixed.

End Program.

(** ** Vocabulary of the statements *)

(** The machine after [r] received the samples [v], and after a new array
    [v] was created. *)
Definition put_array (m : machine) (r : ref) (v : list Q) : machine :=
  set_arrays m (<[r := v]> (arrays m)).
Definition push_array (m : machine) (v : list Q) : machine :=
  set_arrays m (arrays m ++ [v]).

(** The two in-place steps of [apply_fade] on the samples of the buffer. *)
Definition fade_in_step (fade_samples : Z) (a : list Q) : outcome (list Q) :=
  match Np.linspace 0 1 fade_samples true with
  | Ok fade_in => Np.imul_slice (Py.Slice None (Some fade_samples)) fade_in a
  | Raise e => Raise e
  end.
Definition fade_out_step (fade_samples : Z) (a : list Q) : outcome (list Q) :=
  match Np.linspace 1 0 fade_samples true with
  | Ok fade_out => Np.imul_slice (Py.Slice (Some (- fade_samples)%Z) None) fade_out a
  | Raise e => Raise e
  end.

(** The two conditional writes of [apply_envelope] on the samples of the
    envelope. *)
Definition attack_step (attack_samples : Z) (e : list Q) : outcome (list Q) :=
  if (0 <? attack_samples)%Z then
    match Np.linspace 0 1 attack_samples true with
    | Ok ramp => Np.assign_slice (Py.Slice None (Some attack_samples)) ramp e
    | Raise x => Raise x
    end
  else Ok e.
Definition release_step (release_samples : Z) (e : list Q) : outcome (list Q) :=
  if (0 <? release_samples)%Z then
    match Np.linspace 1 0 release_samples true with
    | Ok ramp => Np.assign_slice (Py.Slice (Some (- release_samples)%Z) None) ramp e
    | Raise x => Raise x
    end
  else Ok e.

(** No array object of [m] has another length in [m']. *)
Definition same_shapes (m m' : machine) : Prop :=
  forall r v, arrays m !! r = Some v ->
              exists v', arrays m' !! r = Some v' /\ length v' = length v.

(** From [m], the computation [c] resizes no array object, and the buffer
    it returns, when it returns one, has [n] samples. *)
Definition keeps_length (c : M ref) (m : machine) (n : nat) : Prop :=
  same_shapes m (snd (c m)) /\
  forall r', fst (c m) = Ok r' ->
             exists v, arrays (snd (c m)) !! r' = Some v /\ length v = n.

(** A machine that holds the arrays [a] and nothing else. *)
Definition fresh_machine (a : list (list Q)) : machine :=
  {| arrays := a; rng_pos := 0; files := ∅ |}.

(** The sum over the voices of [gain_k * buffer_k[i]]. *)
Fixpoint weighted_sum (gains : list Q) (bufs : list (list Q)) (i : nat) : Q :=
  match gains, bufs with
  | g :: gains', b :: bufs' => g * nth i b 0 + weighted_sum gains' bufs' i
  | _, _ => 0
  end.

(** The samples of [mixed] after the loop of [mix_waveforms] over voices
    of its length, from the samples [acc]. *)
Definition mix_value (acc : list Q) (voices : list (list Q * Q)) : list Q :=
  foldl (fun acc '(w, g) => zip_with Qplus acc (map (fun x => x * g) w)) acc voices.

(** Clipping to the range of a signed 16-bit sample. *)
Definition clip16 (z : Z) : Z := Z.max (-32768) (Z.min 32767 z).

(** A sample whose fixed-point value fits a signed 16-bit integer. *)
Definition fits_int16 (x : Q) : Prop := -32768 <= x * MAX_AMP <= 32767.

(** A computation that draws no variate, and one that draws [n] of them
    when it returns. *)
Definition keeps_rng {A} (c : M A) : Prop :=
  forall m, rng_pos (snd (c m)) = rng_pos m.
Definition advances_rng {A} (n : nat) (c : M A) : Prop :=
  forall m a m', c m = (Ok a, m') -> rng_pos m' = (n + rng_pos m)%nat.

(** The buffer [v] has a sample at index [i], and it is zero. *)
Definition is_zero_at (v : list Q) (i : nat) : Prop :=
  exists x, v !! i = Some x /\ x == 0.

(** A name of at most 255 bytes, all of them ASCII and none of them
    NUL: a name that every POSIX file system takes. *)
Definition portable_name (p : string) : bool :=
  (String.length p <=? 255)%nat
  && forallb (fun c => (0 <? nat_of_ascii c)%nat && (nat_of_ascii c <? 128)%nat)
       (list_ascii_of_string p).

(** A name [save_wav] can write to: portable, with a directory part,
    and a last component that names a file. *)
Definition writable_name (p : string) : bool :=
  portable_name p && Py.has_dirname p && negb (Py.names_directory p).

(** What the file holds for the sample [x], with [p] the product
    [x * 32767] with its fraction dropped: [p] when it fits 16 bits, the
    16-bit number congruent to [p] modulo [2^16] when it fits 32 bits, and
    0 beyond. *)
Definition stored_sample (x : Q) (z : Z) : Prop :=
  let p := Py.int (x * 32767) in
  (-32768 <= z <= 32767)%Z /\
  ((-32768 <= p <= 32767)%Z -> z = p) /\
  ((-2147483648 <= p <= 2147483647)%Z -> ((z - p) mod 65536 = 0)%Z) /\
  (~ (-2147483648 <= p <= 2147483647)%Z -> z = 0%Z).

(** ** The driver *)

Module OsPath.

(** [p.startswith('/')] and [p.endswith('/')]. *)
Definition starts_with_sep (p : string) : bool :=
  match p with
  | String c _ => Ascii.eqb c "/"%char
  | EmptyString => false
  end.
Fixpoint ends_with_sep (p : string) : bool :=
  match p with
  | EmptyString => false
  | String c EmptyString => Ascii.eqb c "/"%char
  | String _ p' => ends_with_sep p'
  end.

(** [os.path.join(a, b)] on POSIX paths. *)
Definition join (a b : string) : string :=
  if starts_with_sep b then b
  else match a with
       | EmptyString => b
       | _ => if ends_with_sep a then String.append a b
              else String.append a (String "/"%char b)
       end.

End OsPath.

Section Driver.

Variables (np_sin np_arcsin : Q -> Q) (np_pi : Q).

(** [main()], from the directory [output_dir] of the script
    ([os.path.dirname(os.path.abspath(__file__))]); what it prints is left
    out. *)
Definition main (rng : nat -> Q) (output_dir : string) : M unit :=
  (* Generate drone loop *)
  drone <- generate_drone_loop np_sin np_pi rng 6 ;;
  save_wav drone (OsPath.join output_dir "drone-base.wav") SAMPLE_RATE ;;
  (* Generate texture loop *)
  texture <- generate_texture_loop np_sin np_pi rng 4 ;;
  save_wav texture (OsPath.join output_dir "texture-grains.wav") SAMPLE_RATE ;;
  (* Generate breath loop *)
  breath <- generate_breath_loop np_sin np_pi 11 ;;
  save_wav breath (OsPath.join output_dir "breath-cycle.wav") SAMPLE_RATE ;;
  (* Generate pad loop *)
  pad <- generate_pad_loop np_sin np_arcsin np_pi 8 ;;
  save_wav pad (OsPath.join output_dir "pad-warm.wav") SAMPLE_RATE.

End Driver.

(** ** Vocabulary of the further statements *)

(** The values of the two ramps of [num] samples, [np.linspace(0, 1, num)]
    and [np.linspace(1, 0, num)], at index [k]. *)
Definition ramp_up (num k : nat) : Q :=
  if (num <=? 1)%nat then 0
  else inject_Z (Z.of_nat k) / inject_Z (Z.of_nat (num - 1)).
Definition ramp_down (num k : nat) : Q := 1 - ramp_up num k.

(** The factor [apply_fade] puts on sample [i] of a buffer of [len]
    samples when it fades [n <= len] samples at each end: the two ramps
    multiply where the regions overlap. *)
Definition fade_gain (n len i : nat) : Q :=
  (if (i <? n)%nat then ramp_up n i else 1) *
  (if (len - n <=? i)%nat then ramp_down n (i - (len - n)) else 1).

(** The value of the envelope of [apply_envelope] at index [i]: the
    release ramp where it applies, else the attack ramp, else 1. *)
Definition envelope_gain (attack_n release_n len i : nat) : Q :=
  if (0 <? release_n)%nat && (len - release_n <=? i)%nat
  then ramp_down release_n (i - (len - release_n))
  else if (0 <? attack_n)%nat && (i <? attack_n)%nat then ramp_up attack_n i
  else 1.

(** Every sample of the buffer is at most [B] in absolute value. *)
Definition bounded_by (B : Q) (v : list Q) : Prop :=
  Forall (fun y => Qabs y <= B) v.


(** A computation that writes no file. *)
Definition keeps_files {A} (c : M A) : Prop :=
  forall m, files (snd (c m)) = files m.

(** Every array object of [m] is in [m'] with the samples it had. *)
Definition extends (m m' : machine) : Prop :=
  forall r v, arrays m !! r = Some v -> arrays m' !! r = Some v.

(** The common end of the four generators: the fade, the normalisation
    and the return of the normalised buffer. *)
Definition fade_and_normalize (fade_duration headroom : Q) (mixed : ref) : M ref :=
  mixed <- apply_fade mixed fade_duration SAMPLE_RATE ;;
  mixed <- normalize_audio mixed headroom ;;
  ret mixed.

(** A finished loop: [N] samples within [-h, h] that start and end at
    zero. *)
Definition loop_buffer (h : Q) (N : nat) (v : list Q) : Prop :=
  length v = N /\ bounded_by h v /\ is_zero_at v 0 /\ is_zero_at v (N - 1).

(** A file that holds a finished loop as mono 16-bit PCM at 48000 Hz. *)
Definition loop_file (h : Q) (N : nat) (f : wav_file) : Prop :=
  nchannels f = 1%Z /\ sampwidth f = 2%Z /\ framerate f = 48000%Z /\
  length (frames f) = (2 * N)%nat /\
  exists v, loop_buffer h N v /\
            decode_int16 (frames f) = map (fun x => Py.int (x * 32767)) v.


(** * Properties *)

(** ** Slices *)

Section Slices.
Local Close Scope Q_scope.
Context {A : Type}.
Implicit Types (s : Py.slice) (l new : list A) (i n : nat).

Lemma clamp_le z n : Py.clamp z n <= n.
Proof. unfold Py.clamp. destruct (Z.ltb_spec z 0); lia. Qed.

Lemma lo_le s n : Py.lo s n <= n.
Proof. unfold Py.lo. destruct (Py.start s); [apply clamp_le | lia]. Qed.

Lemma hi_le s n : Py.hi s n <= n.
Proof. unfold Py.hi. destruct (Py.stop s); [apply clamp_le | lia]. Qed.

Lemma lo_cnt_le s n : Py.lo s n + Py.cnt s n <= n.
Proof. unfold Py.cnt. pose proof (lo_le s n). pose proof (hi_le s n). lia. Qed.

Lemma length_getslice s l : length (Py.getslice s l) = Py.cnt s (length l).
Proof.
  unfold Py.getslice. rewrite length_take, length_drop.
  pose proof (lo_cnt_le s (length l)). lia.
Qed.

Lemma lookup_getslice s l j :
  j < Py.cnt s (length l) -> Py.getslice s l !! j = l !! (Py.lo s (length l) + j).
Proof.
  intros Hj. unfold Py.getslice.
  rewrite lookup_take_lt by lia. apply lookup_drop.
Qed.

Lemma length_putslice s l new :
  length new = Py.cnt s (length l) -> length (Py.putslice s l new) = length l.
Proof.
  intros Hn. unfold Py.putslice.
  rewrite !length_app, length_take, length_drop.
  pose proof (lo_cnt_le s (length l)). lia.
Qed.

Lemma lookup_putslice_before s l new i :
  i < Py.lo s (length l) -> Py.putslice s l new !! i = l !! i.
Proof.
  intros Hi. unfold Py.putslice. pose proof (lo_le s (length l)).
  rewrite lookup_app_l by (rewrite length_take; lia).
  apply lookup_take_lt. lia.
Qed.

Lemma lookup_putslice_inside s l new i :
  Py.lo s (length l) <= i < Py.lo s (length l) + length new ->
  Py.putslice s l new !! i = new !! (i - Py.lo s (length l)).
Proof.
  intros Hi. unfold Py.putslice. pose proof (lo_le s (length l)).
  rewrite lookup_app_r by (rewrite length_take; lia).
  rewrite length_take, Nat.min_l by lia.
  apply lookup_app_l. lia.
Qed.

Lemma lookup_putslice_after s l new i :
  length new = Py.cnt s (length l) ->
  Py.lo s (length l) + Py.cnt s (length l) <= i ->
  Py.putslice s l new !! i = l !! i.
Proof.
  intros Hn Hi. unfold Py.putslice. pose proof (lo_le s (length l)).
  rewrite lookup_app_r by (rewrite length_take; lia).
  rewrite length_take, Nat.min_l by lia.
  rewrite lookup_app_r by lia.
  rewrite lookup_drop. f_equal. lia.
Qed.

(** [a[:k]] with [0 <= k] selects the first [min k n] positions. *)
Lemma head_slice (k : Z) n :
  (0 <= k)%Z ->
  Py.lo (Py.Slice None (Some k)) n = 0 /\
  Py.cnt (Py.Slice None (Some k)) n = Nat.min (Z.to_nat k) n.
Proof.
  intros Hk. unfold Py.cnt, Py.lo, Py.hi, Py.clamp. simpl.
  destruct (Z.ltb_spec k 0); lia.
Qed.

(** [a[-k:]] with [0 < k] selects the last [min k n] positions. *)
Lemma tail_slice (k : Z) n :
  (0 < k)%Z ->
  Py.lo (Py.Slice (Some (- k)%Z) None) n = n - Nat.min (Z.to_nat k) n /\
  Py.cnt (Py.Slice (Some (- k)%Z) None) n = Nat.min (Z.to_nat k) n.
Proof.
  intros Hk. unfold Py.cnt, Py.lo, Py.hi, Py.clamp. simpl.
  destruct (Z.ltb_spec (- k) 0); lia.
Qed.

(** [a[-0:]] is [a[0:]]: the whole array. *)
Lemma tail_slice_zero n :
  Py.lo (Py.Slice (Some (- 0)%Z) None) n = 0 /\
  Py.cnt (Py.Slice (Some (- 0)%Z) None) n = n.
Proof. unfold Py.cnt, Py.lo, Py.hi, Py.clamp. simpl. lia. Qed.

End Slices.

(** ** Running the machine *)

Section Machine.
Local Close Scope Q_scope.

Lemma bind_ok {A B} (c : M A) (k : A -> M B) m a m' :
  c m = (Ok a, m') -> bind c k m = k a m'.
Proof. unfold bind. intros ->. reflexivity. Qed.

Lemma load_run r m v : arrays m !! r = Some v -> load r m = (Ok v, m).
Proof. unfold load. intros ->. reflexivity. Qed.

Lemma update_run r f m v :
  arrays m !! r = Some v ->
  update r f m =
    match f v with
    | Ok v' => (Ok tt, put_array m r v')
    | Raise e => (Raise e, m)
    end.
Proof.
  intros Hr. unfold update.
  rewrite (bind_ok _ _ _ _ _ (load_run _ _ _ Hr)).
  unfold bind, lift, store. destruct (f v); reflexivity.
Qed.

Lemma lookup_alloc (a : list (list Q)) v :
  (a ++ [v]) !! length a = Some v.
Proof. rewrite lookup_app_r by lia. rewrite Nat.sub_diag. reflexivity. Qed.

Lemma lookup_alloc_old (a : list (list Q)) v r w :
  a !! r = Some w -> (a ++ [v]) !! r = Some w.
Proof. intros H. rewrite lookup_app_l; [done | by eapply lookup_lt_Some]. Qed.

Lemma lookup_store (a : list (list Q)) r v w :
  a !! r = Some w -> <[r := v]> a !! r = Some v.
Proof. intros H. apply list_lookup_insert_eq. by eapply lookup_lt_Some. Qed.

Lemma insert_alloc (a : list (list Q)) v v' :
  <[length a := v']> (a ++ [v]) = a ++ [v'].
Proof. rewrite insert_app_r_alt by lia. by rewrite Nat.sub_diag. Qed.

Lemma put_array_same m r w : arrays m !! r = Some w -> put_array m r w = m.
Proof.
  intros H. unfold put_array, set_arrays. rewrite list_insert_id by done.
  by destruct m.
Qed.

Lemma lookup_put_array m r w v :
  arrays m !! r = Some w -> arrays (put_array m r v) !! r = Some v.
Proof. intros H. simpl. by eapply lookup_store. Qed.

Lemma put_array_twice m r v v' : put_array (put_array m r v) r v' = put_array m r v'.
Proof. unfold put_array, set_arrays. simpl. by rewrite list_insert_insert_eq. Qed.

Lemma push_then_put m v v' :
  put_array (push_array m v) (length (arrays m)) v' = push_array m v'.
Proof. unfold put_array, push_array, set_arrays. simpl. by rewrite insert_alloc. Qed.

Lemma bind_lift_ok {A B} (a : A) (k : A -> M B) m : bind (lift (Ok a)) k m = k a m.
Proof. reflexivity. Qed.

Lemma bind_ret_unit {B} (k : unit -> M B) m : bind (ret tt) k m = k tt m.
Proof. reflexivity. Qed.

Lemma bind_alloc {B} v (k : nat -> M B) m :
  bind (alloc v) k m = k (length (arrays m)) (push_array m v).
Proof. reflexivity. Qed.

Lemma bind_load {B} r v (k : list Q -> M B) m :
  arrays m !! r = Some v -> bind (load r) k m = k v m.
Proof. intros H. by rewrite (bind_ok _ _ _ _ _ (load_run _ _ _ H)). Qed.

Lemma bind_update_ok {B} r f v v' (k : unit -> M B) m :
  arrays m !! r = Some v -> f v = Ok v' ->
  bind (update r f) k m = k tt (put_array m r v').
Proof.
  intros Hr Hf. apply bind_ok. by rewrite (update_run _ _ _ _ Hr), Hf.
Qed.

Lemma lookup_push m v : arrays (push_array m v) !! length (arrays m) = Some v.
Proof. apply lookup_alloc. Qed.

Lemma lookup_push_old m v r w :
  arrays m !! r = Some w -> arrays (push_array m v) !! r = Some w.
Proof. apply lookup_alloc_old. Qed.

Lemma length_push m v : length (arrays (push_array m v)) = S (length (arrays m)).
Proof. simpl. rewrite length_app. simpl. lia. Qed.

End Machine.

(** ** numpy on values *)

Section Numpy.

Lemma linspace_ok start stop num endpoint :
  (0 <= num)%Z ->
  Np.linspace start stop num endpoint =
    Ok (map (Np.linspace_at start stop (Z.to_nat num) endpoint) (seq 0 (Z.to_nat num))).
Proof. intros H. unfold Np.linspace. destruct (Z.ltb_spec num 0); [lia | done]. Qed.

Lemma linspace_negative start stop num endpoint :
  (num < 0)%Z -> Np.linspace start stop num endpoint = Raise ValueError.
Proof. intros H. unfold Np.linspace. destruct (Z.ltb_spec num 0); [done | lia]. Qed.

Lemma linspace_length start stop num endpoint t :
  Np.linspace start stop num endpoint = Ok t -> length t = Z.to_nat num.
Proof.
  unfold Np.linspace. destruct (Z.ltb_spec num 0); [done |].
  intros [= <-]. by rewrite length_map, length_seq.
Qed.

Lemma linspace_nonneg start stop num endpoint t :
  Np.linspace start stop num endpoint = Ok t -> (0 <= num)%Z.
Proof. unfold Np.linspace. destruct (Z.ltb_spec num 0); [done | lia]. Qed.

Lemma inject_nat_nonzero n : (0 < n)%nat -> ~ inject_Z (Z.of_nat n) == 0.
Proof. intros Hn H. unfold Qeq in H. simpl in H. lia. Qed.

Lemma inject_nat_pos n : (0 < n)%nat -> 0 < inject_Z (Z.of_nat n).
Proof. intros Hn. unfold Qlt. simpl. lia. Qed.

(** The first sample of a ramp is its start. *)
Lemma linspace_at_first start stop num endpoint :
  Np.linspace_at start stop num endpoint 0 == start.
Proof.
  unfold Np.linspace_at.
  destruct (endpoint && (1 <? num)%nat && (0 =? num - 1)%nat) eqn:E.
  - apply andb_prop in E as [E1 E2]. apply andb_prop in E1 as [_ E1].
    apply Nat.ltb_lt in E1. apply Nat.eqb_eq in E2. lia.
  - change (inject_Z (Z.of_nat 0)) with 0. ring.
Qed.

(** Without the end point, sample [k] of [num] is at [k/num] of the way. *)
Lemma linspace_at_open start stop num k :
  (0 < num)%nat ->
  Np.linspace_at start stop num false k ==
    start + inject_Z (Z.of_nat k) * (stop - start) / inject_Z (Z.of_nat num).
Proof.
  intros Hn. unfold Np.linspace_at, Np.linspace_step, Np.linspace_div. simpl.
  destruct num as [|n]; [lia |].
  field. apply inject_nat_nonzero. lia.
Qed.

End Numpy.

Section InPlace.
Implicit Types (a b : list Q) (s : Py.slice) (i n : nat).

Lemma broadcast_to_length n b b' :
  Np.broadcast_to n b = Ok b' -> length b' = n.
Proof.
  unfold Np.broadcast_to. destruct (Nat.eqb_spec (length b) n).
  - by intros [= <-].
  - destruct b as [|x [|y b]]; try done. intros [= <-]. apply length_replicate.
Qed.

Lemma broadcast_to_same n b : length b = n -> Np.broadcast_to n b = Ok b.
Proof. intros H. unfold Np.broadcast_to. by rewrite H, Nat.eqb_refl. Qed.

Lemma broadcast_to_empty n b' : Np.broadcast_to n [] = Ok b' -> n = 0%nat.
Proof. unfold Np.broadcast_to. simpl. by destruct n. Qed.

Lemma imul_slice_length s b a a' :
  Np.imul_slice s b a = Ok a' -> length a' = length a.
Proof.
  unfold Np.imul_slice.
  destruct (Np.broadcast_to _ b) as [b'|] eqn:Hb; [|done]. intros [= <-].
  apply broadcast_to_length in Hb. rewrite length_getslice in Hb.
  apply length_putslice. rewrite length_zip_with, length_getslice. lia.
Qed.

(** Outside the slice nothing is written. *)
Lemma imul_slice_outside s b a a' i :
  Np.imul_slice s b a = Ok a' ->
  (i < Py.lo s (length a) \/ Py.lo s (length a) + Py.cnt s (length a) <= i)%nat ->
  a' !! i = a !! i.
Proof.
  unfold Np.imul_slice.
  destruct (Np.broadcast_to _ b) as [b'|] eqn:Hb; [|done]. intros [= <-] Hi.
  apply broadcast_to_length in Hb. rewrite length_getslice in Hb.
  destruct Hi as [Hi|Hi].
  - by apply lookup_putslice_before.
  - apply lookup_putslice_after; [|done].
    rewrite length_zip_with, length_getslice. lia.
Qed.

(** Inside the slice a sample is multiplied by the matching factor. *)
Lemma imul_slice_inside s b a a' i x c :
  Np.imul_slice s b a = Ok a' ->
  length b = Py.cnt s (length a) ->
  (Py.lo s (length a) <= i)%nat ->
  a !! i = Some x ->
  b !! (i - Py.lo s (length a))%nat = Some c ->
  a' !! i = Some (x * c).
Proof.
  unfold Np.imul_slice. intros Ha Hlen Hlo Hx Hc.
  rewrite broadcast_to_same in Ha by (by rewrite length_getslice).
  injection Ha as <-.
  assert (i - Py.lo s (length a) < Py.cnt s (length a))%nat as Hin
    by (rewrite <- Hlen; by eapply lookup_lt_Some).
  rewrite lookup_putslice_inside
    by (rewrite length_zip_with, length_getslice; lia).
  rewrite lookup_zip_with, lookup_getslice by done.
  replace (Py.lo s (length a) + (i - Py.lo s (length a)))%nat with i by lia.
  by rewrite Hx, Hc.
Qed.

(** Every sample of the result is the old sample, or the old sample
    times a factor. *)
Lemma imul_slice_scaled s b a a' i x :
  Np.imul_slice s b a = Ok a' ->
  a !! i = Some x ->
  a' !! i = Some x \/ exists c, a' !! i = Some (x * c).
Proof.
  intros Ha Hx.
  destruct (decide (i < Py.lo s (length a)
                    \/ Py.lo s (length a) + Py.cnt s (length a) <= i)%nat) as [Ho|Hi].
  - left. by rewrite (imul_slice_outside _ _ _ _ _ Ha Ho).
  - right. revert Ha. unfold Np.imul_slice.
    destruct (Np.broadcast_to _ b) as [b'|] eqn:Hb; [|done]. intros [= <-].
    apply broadcast_to_length in Hb. rewrite length_getslice in Hb.
    destruct (lookup_lt_is_Some_2 b' (i - Py.lo s (length a))) as [c Hc]; [lia |].
    exists c.
    rewrite lookup_putslice_inside
      by (rewrite length_zip_with, length_getslice; lia).
    rewrite lookup_zip_with, lookup_getslice by lia.
    replace (Py.lo s (length a) + (i - Py.lo s (length a)))%nat with i by lia.
    by rewrite Hx, Hc.
Qed.

End InPlace.

(** ** [int()] and [floor] *)

Section IntFloor.

Lemma int_nonneg q : 0 <= q -> Py.int q = Qfloor q.
Proof.
  destruct q as [n d]. unfold Qle, Py.int, Qfloor. simpl. intros H.
  apply Z.quot_div_nonneg; lia.
Qed.

Lemma int_of_negative q : q < 0 -> (Py.int q <= 0)%Z.
Proof.
  destruct q as [n d]. unfold Qlt, Py.int. simpl. intros H.
  replace n with (- (- n))%Z by lia. rewrite Z.quot_opp_l by lia.
  pose proof (Z.quot_pos (- n) (Z.pos d)). lia.
Qed.

Lemma floor_of_negative q : q < 0 -> (Qfloor q < 0)%Z.
Proof.
  intros H. rewrite Zlt_Qlt. eapply Qle_lt_trans; [apply Qfloor_le | exact H].
Qed.

Lemma floor_le_int q : (Qfloor q <= Py.int q)%Z.
Proof.
  destruct (Qlt_le_dec q 0) as [H|H].
  - destruct q as [n d]. unfold Qlt, Py.int, Qfloor in *. simpl in *.
    replace n with (- (- n))%Z at 2 by lia. rewrite Z.quot_opp_l by lia.
    rewrite Z.quot_div_nonneg by lia.
    pose proof (Z.div_mod n (Z.pos d)). pose proof (Z.mod_pos_bound n (Z.pos d)).
    pose proof (Z.div_mod (- n) (Z.pos d)). pose proof (Z.mod_pos_bound (- n) (Z.pos d)).
    nia.
  - rewrite int_nonneg by done. lia.
Qed.

End IntFloor.

(** ** The fade *)

Section Fade.
Implicit Types (a : list Q) (i : nat) (fs : Z).

Lemma fade_in_step_length fs a a' : fade_in_step fs a = Ok a' -> length a' = length a.
Proof.
  unfold fade_in_step. destruct (Np.linspace 0 1 fs true); [|done].
  apply imul_slice_length.
Qed.

Lemma fade_out_step_length fs a a' : fade_out_step fs a = Ok a' -> length a' = length a.
Proof.
  unfold fade_out_step. destruct (Np.linspace 1 0 fs true); [|done].
  apply imul_slice_length.
Qed.

(** The fade in leaves every sample after the first [fs] as it was. *)
Lemma fade_in_step_frame fs a a' i :
  fade_in_step fs a = Ok a' -> (Z.to_nat fs <= i)%nat -> a' !! i = a !! i.
Proof.
  unfold fade_in_step. destruct (Np.linspace 0 1 fs true) as [b|] eqn:Hb; [|done].
  intros Ha Hi. apply linspace_nonneg in Hb.
  destruct (head_slice fs (length a) Hb) as [Hlo Hcnt].
  eapply imul_slice_outside; [done |]. right. rewrite Hlo, Hcnt. lia.
Qed.

(** The fade out leaves every sample before the last [fs] as it was. *)
Lemma fade_out_step_frame fs a a' i :
  fade_out_step fs a = Ok a' -> (i + Z.to_nat fs < length a)%nat -> a' !! i = a !! i.
Proof.
  unfold fade_out_step. destruct (Np.linspace 1 0 fs true) as [b|] eqn:Hb; [|done].
  intros Ha Hi. pose proof (linspace_length _ _ _ _ _ Hb) as Hlen.
  apply linspace_nonneg in Hb.
  destruct (decide (fs = 0)%Z) as [->|Hne].
  - apply nil_length_inv in Hlen as ->. revert Ha. unfold Np.imul_slice.
    destruct (Np.broadcast_to _ []) as [b'|] eqn:Hb'; [|done]. intros _.
    apply broadcast_to_empty in Hb'. rewrite length_getslice in Hb'.
    destruct (tail_slice_zero (length a)) as [_ Hcnt]. lia.
  - destruct (tail_slice fs (length a) ltac:(lia)) as [Hlo Hcnt].
    eapply imul_slice_outside; [done |]. left. rewrite Hlo. lia.
Qed.

(** With no sample to fade, the fade in does nothing and the fade out
    multiplies the whole buffer by an empty ramp. *)
Lemma fade_in_step_zero a : fade_in_step 0 a = Ok a.
Proof.
  unfold fade_in_step, Np.imul_slice. change (Np.linspace 0 1 0 true) with (Ok (@nil Q)).
  rewrite length_getslice. unfold Py.putslice.
  destruct (head_slice 0 (length a) ltac:(lia)) as [-> ->]. simpl.
  by rewrite zip_with_nil_r.
Qed.

Lemma fade_out_step_zero a :
  fade_out_step 0 a = match a with [] => Ok [] | _ :: _ => Raise ValueError end.
Proof.
  unfold fade_out_step, Np.imul_slice. change (Np.linspace 1 0 0 true) with (Ok (@nil Q)).
  rewrite length_getslice.
  destruct (tail_slice_zero (length a)) as [_ ->]. change (- 0)%Z with 0%Z.
  destruct a as [|x a]; reflexivity.
Qed.

Lemma fade_in_step_ok fs a :
  (0 <= fs)%Z -> (Z.to_nat fs <= length a)%nat -> exists a', fade_in_step fs a = Ok a'.
Proof.
  intros Hfs Hlen. unfold fade_in_step, Np.imul_slice. rewrite linspace_ok by done.
  rewrite broadcast_to_same; [by eexists |].
  rewrite length_map, length_seq, length_getslice.
  destruct (head_slice fs (length a) Hfs) as [_ ->]. lia.
Qed.

Lemma fade_out_step_ok fs a :
  (0 < fs)%Z -> (Z.to_nat fs <= length a)%nat -> exists a', fade_out_step fs a = Ok a'.
Proof.
  intros Hfs Hlen. unfold fade_out_step, Np.imul_slice. rewrite linspace_ok by lia.
  rewrite broadcast_to_same; [by eexists |].
  rewrite length_map, length_seq, length_getslice.
  destruct (tail_slice fs (length a) Hfs) as [_ ->]. lia.
Qed.

Lemma fade_in_step_scaled fs a a' i x :
  fade_in_step fs a = Ok a' -> a !! i = Some x ->
  a' !! i = Some x \/ exists c, a' !! i = Some (x * c).
Proof.
  unfold fade_in_step. destruct (Np.linspace 0 1 fs true); [|done].
  apply imul_slice_scaled.
Qed.

Lemma fade_out_step_scaled fs a a' i x :
  fade_out_step fs a = Ok a' -> a !! i = Some x ->
  a' !! i = Some x \/ exists c, a' !! i = Some (x * c).
Proof.
  unfold fade_out_step. destruct (Np.linspace 1 0 fs true); [|done].
  apply imul_slice_scaled.
Qed.

(** What [apply_fade] does to the machine, step by step. *)
Lemma apply_fade_run r fade_duration sample_rate m a :
  arrays m !! r = Some a ->
  apply_fade r fade_duration sample_rate m =
    match fade_in_step (Py.int (fade_duration * sample_rate)) a with
    | Raise e => (Raise e, m)
    | Ok a1 =>
        match fade_out_step (Py.int (fade_duration * sample_rate)) a1 with
        | Raise e => (Raise e, put_array m r a1)
        | Ok a2 => (Ok r, put_array m r a2)
        end
    end.
Proof.
  intros Hr. unfold apply_fade, fade_in_step, fade_out_step, imul_slice.
  set (fs := Py.int (fade_duration * sample_rate)).
  destruct (Np.linspace 0 1 fs true) as [fade_in|e]; [|reflexivity].
  unfold bind at 1. unfold lift at 1.
  unfold bind at 1. rewrite (update_run _ _ _ _ Hr).
  destruct (Np.imul_slice _ fade_in a) as [a1|e]; [|reflexivity].
  destruct (Np.linspace 1 0 fs true) as [fade_out|e]; [|reflexivity].
  unfold bind at 1. unfold lift at 1.
  unfold bind at 1.
  rewrite (update_run _ _ _ a1) by (by eapply lookup_put_array).
  destruct (Np.imul_slice _ fade_out a1) as [a2|e]; [|reflexivity].
  unfold ret. by rewrite put_array_twice.
Qed.

End Fade.

Section FadeClaims.

(** With a count of zero the fade raises on every buffer that has a
    sample, and the buffer is as it was. *)
Lemma apply_fade_int_zero r fade_duration sample_rate m w :
  arrays m !! r = Some w -> w <> [] ->
  Py.int (fade_duration * sample_rate) = 0%Z ->
  apply_fade r fade_duration sample_rate m = (Raise ValueError, m).
Proof.
  intros Hr Hw Hfs. rewrite (apply_fade_run _ _ _ _ _ Hr), Hfs.
  rewrite fade_in_step_zero, fade_out_step_zero.
  destruct w; [done |]. by rewrite put_array_same.
Qed.

(** C5: when the two fade regions fit in the buffer
    ([2 * fade_samples <= len], [fade_samples = floor(fade_duration *
    sample_rate)]), the caller's buffer after [apply_fade] has its
    length and holds the original sample at every index outside the first
    and the last [fade_samples] positions; this holds however the call
    ends, and the call returns the buffer when [fade_samples] is
    positive. *)
Theorem apply_fade_frame r fade_duration sample_rate m w :
  arrays m !! r = Some w ->
  let fade_samples := Qfloor (fade_duration * sample_rate) in
  (2 * fade_samples <= Z.of_nat (length w))%Z ->
  exists w',
    arrays (snd (apply_fade r fade_duration sample_rate m)) !! r = Some w' /\
    length w' = length w /\
    (forall i : nat,
        (fade_samples <= Z.of_nat i < Z.of_nat (length w) - fade_samples)%Z ->
        w' !! i = w !! i) /\
    ((0 < fade_samples)%Z ->
     fst (apply_fade r fade_duration sample_rate m) = Ok r).
Proof.
  intros Hr F Hfit.
  pose proof (floor_le_int (fade_duration * sample_rate)) as Hle. fold F in Hle.
  set (fs := Py.int (fade_duration * sample_rate)) in *.
  assert (fs <= 0 \/ (0 < fs /\ fs = F))%Z as [Hfs|[Hfs HF]].
  { destruct (Qlt_le_dec (fade_duration * sample_rate) 0) as [Hq|Hq].
    - left. by apply int_of_negative.
    - pose proof (int_nonneg _ Hq). unfold fs, F. lia. }
  - (* nothing is faded: the buffer is not written *)
    assert (snd (apply_fade r fade_duration sample_rate m) = m) as ->.
    { rewrite (apply_fade_run _ _ _ _ _ Hr). fold fs.
      destruct (decide (fs = 0)%Z) as [->|Hne].
      - rewrite fade_in_step_zero, fade_out_step_zero.
        destruct w; simpl; by rewrite put_array_same.
      - unfold fade_in_step. by rewrite linspace_negative by lia. }
    exists w. repeat split; [done | lia].
  - (* both ramps are applied *)
    assert (Z.to_nat fs <= length w)%nat as Hlen by lia.
    rewrite (apply_fade_run _ _ _ _ _ Hr). fold fs.
    destruct (fade_in_step_ok fs w ltac:(lia) Hlen) as [a1 H1]. rewrite H1.
    pose proof (fade_in_step_length _ _ _ H1) as Hl1.
    destruct (fade_out_step_ok fs a1 Hfs ltac:(lia)) as [a2 H2]. rewrite H2.
    pose proof (fade_out_step_length _ _ _ H2) as Hl2.
    exists a2. split; [by eapply lookup_put_array |].
    split; [lia |]. split; [|done].
    intros i Hi.
    rewrite (fade_out_step_frame _ _ _ _ H2) by lia.
    apply (fade_in_step_frame _ _ _ _ H1). lia.
Qed.

Lemma apply_fade_frame_witness :
  let m := fresh_machine [[1; 2; 3; 4; 5; 6]] in
  exists w',
    arrays (snd (apply_fade 0%nat (1 # 2) 4 m)) !! 0%nat = Some w' /\
    length w' = 6%nat /\
    (forall i : nat, (2 <= Z.of_nat i < 6 - 2)%Z -> w' !! i = [1; 2; 3; 4; 5; 6]%Q !! i) /\
    ((0 < 2)%Z -> fst (apply_fade 0%nat (1 # 2) 4 m) = Ok 0%nat).
Proof.
  intros m.
  apply (apply_fade_frame 0%nat (1 # 2) 4 m [1; 2; 3; 4; 5; 6]%Q); by vm_compute.
Defined.

(** C10: on a non-empty buffer, a fade duration with
    [floor(fade_duration * sample_rate) = 0] makes [apply_fade] raise
    the shape error of numpy ([ValueError]) instead of doing nothing:
    [waveform[-0:]] is the whole buffer and the ramp is empty.  The buffer
    is left as it was. *)
Theorem apply_fade_zero_samples_raises r fade_duration sample_rate m w :
  arrays m !! r = Some w -> w <> [] ->
  Qfloor (fade_duration * sample_rate) = 0%Z ->
  apply_fade r fade_duration sample_rate m = (Raise ValueError, m).
Proof.
  intros Hr Hw Hfloor. apply (apply_fade_int_zero _ _ _ _ _ Hr Hw).
  destruct (Qlt_le_dec (fade_duration * sample_rate) 0) as [Hq|Hq].
  - apply floor_of_negative in Hq. lia.
  - by rewrite int_nonneg.
Qed.

Lemma apply_fade_zero_samples_raises_witness :
  let m := fresh_machine [[1; 2; 3]] in
  apply_fade 0%nat (1 # 8) 4 m = (Raise ValueError, m).
Proof.
  intros m.
  apply (apply_fade_zero_samples_raises 0%nat (1 # 8) 4 m [1; 2; 3]%Q); by vm_compute.
Defined.

End FadeClaims.

(** ** The envelope *)

Section Envelope.
Implicit Types (e w : list Q) (i : nat).

Lemma assign_slice_length s b a a' :
  Np.assign_slice s b a = Ok a' -> length a' = length a.
Proof.
  unfold Np.assign_slice.
  destruct (Np.broadcast_to _ b) as [b'|] eqn:Hb; [|done]. intros [= <-].
  apply broadcast_to_length in Hb. rewrite length_getslice in Hb.
  by apply length_putslice.
Qed.

Lemma attack_step_length n e e' : attack_step n e = Ok e' -> length e' = length e.
Proof.
  unfold attack_step. destruct (0 <? n)%Z; [|by intros [= <-]].
  destruct (Np.linspace 0 1 n true); [|done]. apply assign_slice_length.
Qed.

Lemma release_step_length n e e' : release_step n e = Ok e' -> length e' = length e.
Proof.
  unfold release_step. destruct (0 <? n)%Z; [|by intros [= <-]].
  destruct (Np.linspace 1 0 n true); [|done]. apply assign_slice_length.
Qed.

Lemma broadcast2_same f (a b : list Q) :
  length a = length b -> Np.broadcast2 f a b = Ok (zip_with f a b).
Proof. intros H. unfold Np.broadcast2. by rewrite H, Nat.eqb_refl. Qed.

(** What [apply_envelope] does to the machine: the envelope is a new
    object, the product another one; the argument is only read. *)
Lemma apply_envelope_run r attack release sample_rate m w :
  arrays m !! r = Some w ->
  apply_envelope r attack release sample_rate m =
    match attack_step (Py.int (attack * sample_rate)) (Np.ones_like w) with
    | Raise x => (Raise x, push_array m (Np.ones_like w))
    | Ok e1 =>
        match release_step (Py.int (release * sample_rate)) e1 with
        | Raise x => (Raise x, push_array m e1)
        | Ok e2 =>
            (Ok (S (length (arrays m))),
             push_array (push_array m e2) (zip_with Qmult w e2))
        end
    end.
Proof.
  intros Hr. unfold apply_envelope, assign_slice.
  set (n1 := Py.int (attack * sample_rate)).
  set (n2 := Py.int (release * sample_rate)).
  rewrite (bind_ok _ _ _ _ _ (load_run _ _ _ Hr)).
  unfold bind at 1. unfold alloc at 1.
  set (m1 := set_arrays m (arrays m ++ [Np.ones_like w])).
  assert (arrays m1 !! length (arrays m) = Some (Np.ones_like w)) as He
    by apply lookup_alloc.
  assert (forall e1, put_array m1 (length (arrays m)) e1 = push_array m e1) as Hput.
  { intros e1. unfold put_array, push_array, m1, set_arrays. simpl.
    by rewrite insert_alloc. }
  (* attack *)
  assert (forall k : unit -> M ref,
    bind (if (0 <? n1)%Z
          then bind (lift (Np.linspace 0 1 n1 true))
                 (fun ramp => update (length (arrays m))
                    (Np.assign_slice (Py.Slice None (Some n1)) ramp))
          else ret tt) k m1 =
    match attack_step n1 (Np.ones_like w) with
    | Raise x => (Raise x, m1)
    | Ok e1 => k tt (push_array m e1)
    end) as Hattack.
  { intros k. unfold attack_step. destruct (0 <? n1)%Z.
    - destruct (Np.linspace 0 1 n1 true) as [ramp|x]; [|reflexivity].
      unfold bind at 1. unfold bind at 1. unfold lift at 1.
      rewrite (update_run _ _ _ _ He).
      destruct (Np.assign_slice _ ramp _); [|reflexivity].
      by rewrite Hput.
    - unfold bind, ret. fold (push_array m (Np.ones_like w)).
      reflexivity. }
  rewrite Hattack. clear Hattack.
  destruct (attack_step n1 (Np.ones_like w)) as [e1|x] eqn:H1; [|reflexivity].
  (* release *)
  assert (forall k : unit -> M ref,
    bind (if (0 <? n2)%Z
          then bind (lift (Np.linspace 1 0 n2 true))
                 (fun ramp => update (length (arrays m))
                    (Np.assign_slice (Py.Slice (Some (- n2)%Z) None) ramp))
          else ret tt) k (push_array m e1) =
    match release_step n2 e1 with
    | Raise x => (Raise x, push_array m e1)
    | Ok e2 => k tt (push_array m e2)
    end) as Hrelease.
  { intros k. unfold release_step. destruct (0 <? n2)%Z.
    - destruct (Np.linspace 1 0 n2 true) as [ramp|x]; [|reflexivity].
      unfold bind at 1. unfold bind at 1. unfold lift at 1.
      rewrite (update_run _ _ _ e1) by apply lookup_alloc.
      destruct (Np.assign_slice _ ramp _); [|reflexivity].
      by rewrite push_then_put.
    - reflexivity. }
  rewrite Hrelease. clear Hrelease.
  destruct (release_step n2 e1) as [e2|x] eqn:H2; [|reflexivity].
  rewrite (bind_ok _ _ _ w (push_array m e2))
    by (apply load_run; simpl; by apply lookup_alloc_old).
  rewrite (bind_ok _ _ _ e2 (push_array m e2))
    by (apply load_run; simpl; apply lookup_alloc).
  rewrite broadcast2_same.
  - unfold bind, lift, alloc, push_array, set_arrays. simpl.
    by rewrite length_app, Nat.add_1_r.
  - apply release_step_length in H2. apply attack_step_length in H1.
    unfold Np.ones_like in H1. rewrite length_replicate in H1. lia.
Qed.

Lemma assign_slice_same s b a :
  length b = Py.cnt s (length a) ->
  Np.assign_slice s b a = Ok (Py.putslice s a b).
Proof.
  intros H. unfold Np.assign_slice.
  by rewrite broadcast_to_same by (by rewrite length_getslice).
Qed.

Lemma attack_step_ok n e :
  (Z.to_nat n <= length e)%nat -> exists e', attack_step n e = Ok e'.
Proof.
  intros Hlen. unfold attack_step.
  destruct (Z.ltb_spec 0 n); [|by eexists]. rewrite linspace_ok by lia.
  rewrite assign_slice_same; [by eexists |].
  rewrite length_map, length_seq.
  destruct (head_slice n (length e) ltac:(lia)) as [_ ->]. lia.
Qed.

Lemma release_step_ok n e :
  (Z.to_nat n <= length e)%nat -> exists e', release_step n e = Ok e'.
Proof.
  intros Hlen. unfold release_step.
  destruct (Z.ltb_spec 0 n) as [Hn|]; [|by eexists]. rewrite linspace_ok by lia.
  rewrite assign_slice_same; [by eexists |].
  rewrite length_map, length_seq.
  destruct (tail_slice n (length e) Hn) as [_ ->]. lia.
Qed.

(** [apply_envelope] returns when both ramps fit in the buffer. *)
Lemma apply_envelope_ok r attack release sample_rate m w :
  arrays m !! r = Some w ->
  (Z.to_nat (Py.int (attack * sample_rate)) <= length w)%nat ->
  (Z.to_nat (Py.int (release * sample_rate)) <= length w)%nat ->
  exists e,
    length e = length w /\
    apply_envelope r attack release sample_rate m =
      (Ok (S (length (arrays m))),
       push_array (push_array m e) (zip_with Qmult w e)).
Proof.
  intros Hr Ha Hrl. rewrite (apply_envelope_run _ _ _ _ _ _ Hr).
  destruct (attack_step_ok (Py.int (attack * sample_rate)) (Np.ones_like w))
    as [e1 H1].
  { unfold Np.ones_like. by rewrite length_replicate. }
  pose proof (attack_step_length _ _ _ H1) as Hl1.
  unfold Np.ones_like in Hl1. rewrite length_replicate in Hl1.
  destruct (release_step_ok (Py.int (release * sample_rate)) e1 ltac:(lia))
    as [e2 H2].
  pose proof (release_step_length _ _ _ H2) as Hl2.
  rewrite H1, H2. exists e2. split; [lia | done].
Qed.

End Envelope.

(** ** Peak and normalisation *)

Section Normalize.
Implicit Types (a w : list Q) (x p : Q).

Lemma Qltb_lt x y : Qltb x y = true <-> x < y.
Proof.
  unfold Qltb. rewrite negb_true_iff. split.
  - intros H. apply Qnot_le_lt. intros Hle. apply Qle_bool_iff in Hle. congruence.
  - intros H. destruct (Qle_bool y x) eqn:E; [|done].
    apply Qle_bool_iff in E. lra.
Qed.

Lemma Qltb_ge x y : Qltb x y = false <-> y <= x.
Proof.
  unfold Qltb. rewrite negb_false_iff. apply Qle_bool_iff.
Qed.

Lemma foldl_Qmax_ge a x : x <= foldl Qmax x a.
Proof.
  revert x. induction a as [|y a IH]; intros x; simpl; [lra |].
  eapply Qle_trans; [apply (Q.le_max_l x y) | apply IH].
Qed.

Lemma foldl_Qmax_upper a x y : In y a -> y <= foldl Qmax x a.
Proof.
  revert x. induction a as [|z a IH]; intros x; simpl; [done |].
  intros [->|Hin].
  - eapply Qle_trans; [apply (Q.le_max_r x y) | apply foldl_Qmax_ge].
  - by apply IH.
Qed.

Lemma foldl_Qmax_attained a x :
  foldl Qmax x a == x \/ exists y, In y a /\ foldl Qmax x a == y.
Proof.
  revert x. induction a as [|z a IH]; intros x; simpl; [by left |].
  destruct (IH (Qmax x z)) as [H|[y [Hin H]]].
  - destruct (Q.max_dec x z) as [E|E].
    + left. by rewrite H.
    + right. exists z. split; [by left |]. by rewrite H.
  - right. exists y. by split; [right |].
Qed.

(** [np.max] is an upper bound of the samples and is one of them. *)
Lemma max_upper a p x : Np.max a = Ok p -> In x a -> x <= p.
Proof.
  destruct a as [|y a]; [done |]. simpl. intros [= <-] [->|Hin].
  - apply foldl_Qmax_ge.
  - by apply foldl_Qmax_upper.
Qed.

Lemma max_attained a p : Np.max a = Ok p -> exists y, In y a /\ p == y.
Proof.
  destruct a as [|x a]; [done |]. simpl. intros [= <-].
  destruct (foldl_Qmax_attained a x) as [H|[y [Hin H]]].
  - exists x. by split; [left |].
  - exists y. by split; [right |].
Qed.

Lemma max_ok a : a <> [] -> exists p, Np.max a = Ok p.
Proof. destruct a; [done |]. by eexists. Qed.

Lemma normalize_audio_run r headroom m w :
  arrays m !! r = Some w ->
  normalize_audio r headroom m =
    match Np.max (Np.abs w) with
    | Raise e => (Raise e, m)
    | Ok peak =>
        if Qltb 0 peak
        then (Ok (length (arrays m)),
              push_array m (map (fun x => x / peak * headroom) w))
        else (Ok r, m)
    end.
Proof.
  intros Hr. unfold normalize_audio.
  rewrite (bind_ok _ _ _ _ _ (load_run _ _ _ Hr)).
  unfold bind, lift. destruct (Np.max (Np.abs w)) as [peak|e]; [|done].
  by destruct (Qltb 0 peak).
Qed.

(** The peak of a buffer with a sample that is not zero is positive;
    the peak of a silent buffer is zero. *)
Lemma peak_positive w p :
  Np.max (Np.abs w) = Ok p -> Exists (fun x => ~ x == 0) w -> 0 < p.
Proof.
  intros Hp Hex. apply Exists_exists in Hex as [x [Hin Hx]].
  apply list_elem_of_In in Hin.
  assert (Qabs x <= p) as Hle
    by (apply (max_upper _ _ _ Hp); unfold Np.abs; by apply in_map).
  assert (0 < Qabs x); [|lra].
  destruct (Qlt_le_dec 0 (Qabs x)) as [|Hle0]; [done |].
  exfalso. apply Hx. pose proof (Qabs_nonneg x).
  assert (Qabs x == 0) as H0 by lra.
  destruct (Qlt_le_dec x 0) as [Hn|Hn].
  - rewrite Qabs_neg in H0 by lra. lra.
  - rewrite Qabs_pos in H0 by lra. lra.
Qed.

Lemma peak_silent w p :
  Np.max (Np.abs w) = Ok p -> Forall (fun x => x == 0) w -> p == 0.
Proof.
  intros Hp Hall. destruct (max_attained _ _ Hp) as [y [Hin Hy]].
  unfold Np.abs in Hin. apply in_map_iff in Hin as [x [<- Hin]].
  rewrite Forall_forall in Hall. apply list_elem_of_In in Hin.
  rewrite Hy, (Hall x Hin). reflexivity.
Qed.

(** The peak of the scaled buffer. *)
Lemma scaled_peak w p headroom q :
  Np.max (Np.abs w) = Ok p -> 0 < p ->
  Np.max (Np.abs (map (fun x => x / p * headroom) w)) = Ok q ->
  q == Qabs headroom.
Proof.
  intros Hp Hpos Hq.
  assert (forall x, Qabs (x / p * headroom) == Qabs x / p * Qabs headroom) as Habs.
  { intros x. rewrite Qabs_Qmult. unfold Qdiv. rewrite Qabs_Qmult, Qabs_Qinv.
    by rewrite (Qabs_pos p) by lra. }
  apply Qle_antisym.
  - destruct (max_attained _ _ Hq) as [y [Hin Hy]].
    unfold Np.abs in Hin. rewrite map_map in Hin.
    apply in_map_iff in Hin as [x [<- Hin]]. rewrite Hy, Habs.
    assert (Qabs x <= p) as Hle
      by (apply (max_upper _ _ _ Hp); unfold Np.abs; by apply in_map).
    pose proof (Qabs_nonneg headroom).
    assert (Qabs x / p <= 1) as H1.
    { apply Qle_shift_div_r; [done | lra]. }
    assert (Qabs x / p * Qabs headroom <= 1 * Qabs headroom) as H2
      by (apply Qmult_le_compat_r; done).
    lra.
  - destruct (max_attained _ _ Hp) as [y [Hin Hy]].
    unfold Np.abs in Hin. apply in_map_iff in Hin as [x [<- Hin]].
    assert (Qabs (x / p * headroom) <= q) as Hle.
    { apply (max_upper _ _ _ Hq). unfold Np.abs. rewrite map_map.
      apply (in_map (fun x => Qabs (x / p * headroom))). done. }
    rewrite Habs in Hle. rewrite <- Hy in Hle.
    assert (p / p * Qabs headroom == Qabs headroom) as E by (field; lra).
    lra.
Qed.

End Normalize.

Section NormalizeClaims.

(** C1, as the code has it: on a buffer with a sample that is not
    zero, [normalize_audio] returns a new buffer of the same length whose
    largest absolute sample is exactly [|headroom|], hence [headroom] when
    [headroom] is not negative; on a silent buffer that is not empty it
    returns the buffer it was given, untouched. *)
Theorem normalize_audio_peak r headroom m w :
  arrays m !! r = Some w -> w <> [] ->
  (Exists (fun x => ~ x == 0) w ->
   exists v p,
     normalize_audio r headroom m = (Ok (length (arrays m)), push_array m v) /\
     length v = length w /\
     Np.max (Np.abs v) = Ok p /\
     p == Qabs headroom /\
     (0 <= headroom -> p == headroom)) /\
  (Forall (fun x => x == 0) w -> normalize_audio r headroom m = (Ok r, m)).
Proof.
  intros Hr Hw. rewrite (normalize_audio_run _ _ _ _ Hr).
  destruct (max_ok (Np.abs w)) as [peak Hpeak].
  { unfold Np.abs. by destruct w. }
  rewrite Hpeak. split.
  - intros Hex. pose proof (peak_positive _ _ Hpeak Hex) as Hpos.
    rewrite (proj2 (Qltb_lt 0 peak) Hpos).
    set (v := map (fun x => x / peak * headroom) w).
    destruct (max_ok (Np.abs v)) as [p Hp].
    { unfold Np.abs, v. by destruct w. }
    pose proof (scaled_peak _ _ _ _ Hpeak Hpos Hp) as Heq.
    exists v, p. split; [done |]. split; [apply length_map |].
    split; [done |]. split; [done |].
    intros Hh. by rewrite Heq, Qabs_pos.
  - intros Hall. pose proof (peak_silent _ _ Hpeak Hall) as H0.
    assert (Qltb 0 peak = false) as -> by (apply Qltb_ge; lra). done.
Qed.

Lemma normalize_audio_peak_witness :
  let m := fresh_machine [[1 # 2; - (1)]; [0; 0]] in
  (exists v p,
     normalize_audio 0%nat (1 # 2) m = (Ok 2%nat, push_array m v) /\
     length v = 2%nat /\ Np.max (Np.abs v) = Ok p /\ p == 1 # 2) /\
  normalize_audio 1%nat (1 # 2) m = (Ok 1%nat, m).
Proof.
  intros m. split.
  - destruct (normalize_audio_peak 0%nat (1 # 2) m [1 # 2; - (1)] eq_refl ltac:(done))
      as [H _].
    destruct H as (v & p & H1 & H2 & H3 & _ & H4).
    { apply Exists_cons_hd. vm_compute. discriminate. }
    exists v, p. repeat split; try done. apply H4. vm_compute. discriminate.
  - destruct (normalize_audio_peak 1%nat (1 # 2) m [0; 0] eq_refl ltac:(done))
      as [_ H].
    apply H. by repeat constructor.
Defined.

(** C1 fails as stated for a negative headroom (the peak of the result
    is [1/2], not [-1/2]) and for the empty buffer, which is silent and
    on which [np.max] raises. *)
Lemma normalize_audio_negative_headroom :
  let m := fresh_machine [[1 # 2; - (1)]; []] in
  (exists v p,
     normalize_audio 0%nat (- (1 # 2)) m = (Ok 2%nat, push_array m v) /\
     Np.max (Np.abs v) = Ok p /\ ~ p == - (1 # 2)) /\
  normalize_audio 1%nat (1 # 2) m = (Raise ValueError, m).
Proof.
  intros m. split; [|reflexivity].
  eexists _, _. split; [reflexivity |]. split; [reflexivity |].
  vm_compute. discriminate.
Qed.

End NormalizeClaims.

Section ShapingClaims.

(** C6, as the code has it: [apply_fade] works in place (it returns
    the reference it was given, creates no array, and the caller's buffer
    holds the faded samples); [apply_envelope] does not (it returns a new
    array holding the product of the buffer and the envelope, and the
    caller's buffer keeps its samples, however the call ends). *)
Theorem shaping_in_place r m w fade_duration attack release sample_rate :
  arrays m !! r = Some w ->
  (forall r' m',
      apply_fade r fade_duration sample_rate m = (Ok r', m') ->
      r' = r /\ length (arrays m') = length (arrays m) /\
      exists a1 a2,
        fade_in_step (Py.int (fade_duration * sample_rate)) w = Ok a1 /\
        fade_out_step (Py.int (fade_duration * sample_rate)) a1 = Ok a2 /\
        arrays m' !! r = Some a2) /\
  arrays (snd (apply_envelope r attack release sample_rate m)) !! r = Some w /\
  (forall r' m',
      apply_envelope r attack release sample_rate m = (Ok r', m') ->
      r' <> r /\ arrays m !! r' = None /\
      exists e1 e2,
        attack_step (Py.int (attack * sample_rate)) (Np.ones_like w) = Ok e1 /\
        release_step (Py.int (release * sample_rate)) e1 = Ok e2 /\
        arrays m' !! r' = Some (zip_with Qmult w e2)).
Proof.
  intros Hr. pose proof (lookup_lt_Some _ _ _ Hr) as Hlt. split; [|split].
  - intros r' m'. rewrite (apply_fade_run _ _ _ _ _ Hr).
    destruct (fade_in_step _ w) as [a1|] eqn:H1; [|done].
    destruct (fade_out_step _ a1) as [a2|] eqn:H2; [|done].
    intros [= <- <-]. split; [done |]. split.
    + simpl. apply length_insert.
    + exists a1, a2. repeat split; try done. by eapply lookup_put_array.
  - rewrite (apply_envelope_run _ _ _ _ _ _ Hr).
    destruct (attack_step _ _) as [e1|]; [|by apply lookup_alloc_old].
    destruct (release_step _ e1) as [e2|]; [|by apply lookup_alloc_old].
    simpl. by do 2 apply lookup_alloc_old.
  - intros r' m'. rewrite (apply_envelope_run _ _ _ _ _ _ Hr).
    destruct (attack_step _ _) as [e1|] eqn:H1; [|done].
    destruct (release_step _ e1) as [e2|] eqn:H2; [|done].
    intros [= <- <-]. split; [lia |]. split.
    + apply lookup_ge_None. lia.
    + exists e1, e2. repeat split; try done. simpl.
      replace (S (length (arrays m))) with (length (arrays m ++ [e2]))
        by (rewrite length_app; simpl; lia).
      apply lookup_alloc.
Qed.

Lemma shaping_in_place_witness :
  let m := fresh_machine [[1; 1; 1; 1]] in
  (exists a, apply_fade 0%nat (1 # 4) 4 m = (Ok 0%nat, put_array m 0%nat a)) /\
  arrays (snd (apply_envelope 0%nat (1 # 4) (1 # 4) 4 m)) !! 0%nat = Some [1; 1; 1; 1] /\
  (exists m', apply_envelope 0%nat (1 # 4) (1 # 4) 4 m = (Ok 2%nat, m')).
Proof.
  intros m.
  destruct (shaping_in_place 0%nat m [1; 1; 1; 1] (1 # 4) (1 # 4) (1 # 4) 4 eq_refl)
    as (_ & H & _).
  split; [by eexists |]. split; [exact H | by eexists].
Defined.

(** C6 fails as stated for [apply_envelope]: after the call the
    caller's buffer still holds its samples and the enveloped samples are
    in another array. *)
Lemma apply_envelope_not_in_place :
  let m := fresh_machine [[1; 1; 1; 1]] in
  exists r' m',
    apply_envelope 0%nat (1 # 4) (1 # 4) 4 m = (Ok r', m') /\
    r' <> 0%nat /\
    arrays m' !! 0%nat = Some [1; 1; 1; 1] /\
    arrays m' !! r' = Some [0; 1; 1; 1].
Proof.
  intros m. eexists _, _. split; [reflexivity |]. by vm_compute.
Qed.

End ShapingClaims.

(** ** The mix *)

Section Mix.
Implicit Types (acc w : list Q) (bufs : list (list Q)) (gains : list Q).

Lemma mix_loop_run mixed (voices : list (ref * Q)) (vals : list (list Q * Q)) m acc :
  arrays m !! mixed = Some acc ->
  Forall2 (fun rg wg => rg.2 = wg.2 /\ rg.1 <> mixed /\
                        arrays m !! rg.1 = Some wg.1 /\
                        length wg.1 = length acc) voices vals ->
  for_each voices
    (fun '(wave, gain) => w <- load wave ;; iadd mixed (map (fun x => x * gain) w)) m
  = (Ok tt, put_array m mixed (mix_value acc vals)).
Proof.
  intros Hm Hall. revert vals m acc Hm Hall.
  induction voices as [|[r g] voices IH]; intros vals m acc Hm Hall.
  - apply Forall2_nil_inv_l in Hall as ->. simpl. unfold ret.
    by rewrite put_array_same.
  - apply Forall2_cons_inv_l in Hall as ([w g'] & vals' & (Hg & Hne & Hr & Hlen) & Hall & ->).
    simpl in *. subst g'.
    unfold bind at 1. rewrite (bind_ok _ _ _ _ _ (load_run _ _ _ Hr)).
    unfold iadd. rewrite (update_run _ _ _ _ Hm). unfold Np.iadd.
    rewrite broadcast_to_same by (rewrite length_map; lia).
    rewrite (IH vals' _ (zip_with Qplus acc (map (fun x => x * g) w))).
    + rewrite put_array_twice. reflexivity.
    + by eapply lookup_put_array.
    + eapply Forall2_impl; [exact Hall |].
      intros [r' g1] [w' g2] (? & ? & ? & ?). simpl in *.
      repeat split; try done.
      * by rewrite list_lookup_insert_ne.
      * rewrite length_zip_with, length_map. lia.
Qed.

Lemma length_mix_value bufs gains acc :
  Forall (fun b => length b = length acc) bufs ->
  length (mix_value acc (zip bufs gains)) = length acc.
Proof.
  revert gains acc. induction bufs as [|b bufs IH]; intros gains acc Hall; [done |].
  destruct gains as [|g gains]; [done |].
  apply Forall_cons in Hall as [Hb Hall]. unfold mix_value in *. simpl.
  assert (length (zip_with Qplus acc (map (fun x => x * g) b)) = length acc) as Hl
    by (rewrite length_zip_with, length_map; lia).
  rewrite IH; [done |]. by rewrite Hl.
Qed.

Lemma nth_zip_with_plus acc w g i :
  (i < length acc)%nat -> length w = length acc ->
  nth i (zip_with Qplus acc (map (fun x => x * g) w)) 0 = nth i acc 0 + nth i w 0 * g.
Proof.
  intros Hi Hlen.
  destruct (lookup_lt_is_Some_2 acc i Hi) as [x Hx].
  destruct (lookup_lt_is_Some_2 w i ltac:(lia)) as [y Hy].
  rewrite !nth_lookup, lookup_zip_with, list_lookup_fmap, Hx, Hy. done.
Qed.

(** Sample [i] of the mix is the weighted sum of the samples [i]. *)
Lemma mix_value_nth bufs gains acc i :
  Forall (fun b => length b = length acc) bufs -> (i < length acc)%nat ->
  nth i (mix_value acc (zip bufs gains)) 0 == nth i acc 0 + weighted_sum gains bufs i.
Proof.
  revert gains acc. induction bufs as [|b bufs IH]; intros gains acc Hall Hi.
  - destruct gains; simpl; ring.
  - destruct gains as [|g gains]; [simpl; ring |].
    apply Forall_cons in Hall as [Hb Hall]. unfold mix_value in *. simpl.
    assert (length (zip_with Qplus acc (map (fun x => x * g) b)) = length acc) as Hl
      by (rewrite length_zip_with, length_map; lia).
    rewrite IH by (by rewrite Hl).
    rewrite nth_zip_with_plus by done. ring.
Qed.

Lemma nth_zeros n i : nth i (replicate n 0) 0 = 0.
Proof. rewrite nth_lookup. destruct (replicate n 0 !! i) eqn:E; [|done].
       by apply lookup_replicate in E as [-> _]. Qed.

Lemma mix_voices m mixed n refs bufs gains :
  (length (arrays m) <= mixed)%nat ->
  Forall2 (fun r b => arrays m !! r = Some b) refs bufs ->
  Forall (fun b => length b = n) bufs ->
  forall v,
  Forall2 (fun rg wg => rg.2 = wg.2 /\ rg.1 <> mixed /\
                        arrays (push_array m v) !! rg.1 = Some wg.1 /\
                        length wg.1 = n) (zip refs gains) (zip bufs gains).
Proof.
  intros Hmixed Hrefs. revert gains.
  induction Hrefs as [|r b refs bufs Hr Hrefs IH]; intros gains Hall v; [constructor |].
  destruct gains as [|g gains]; [constructor |].
  apply Forall_cons in Hall as [Hb Hall]. simpl. constructor; [|by apply IH].
  simpl. pose proof (lookup_lt_Some _ _ _ Hr).
  repeat split; [lia | by apply lookup_alloc_old | done].
Qed.

(** What [mix_waveforms] does on voices of one length: the mix is a
    new array, the voices are only read. *)
Lemma mix_waveforms_run m refs bufs n gains_arg gains :
  refs <> [] ->
  Forall2 (fun r b => arrays m !! r = Some b) refs bufs ->
  Forall (fun b => length b = n) bufs ->
  gains = match gains_arg with
          | None => replicate (length refs) (1 / inject_Z (Py.len refs))
          | Some g => g
          end ->
  mix_waveforms refs gains_arg m =
    (Ok (length (arrays m)),
     push_array m (mix_value (replicate n 0) (zip bufs gains))).
Proof.
  intros Hne Hrefs Hall Hgains. unfold mix_waveforms.
  assert (bind (match gains_arg with
                | None => if (Py.len refs =? 0)%Z then raise ZeroDivisionError
                          else ret (replicate (length refs) (1 / inject_Z (Py.len refs)))
                | Some g => ret g
                end) = fun k => k gains) as ->.
  { subst gains. destruct gains_arg; [done |].
    destruct refs; [done |]. reflexivity. }
  destruct Hrefs as [|r b refs bufs Hr Hrefs]; [done |].
  rewrite (bind_ok _ _ _ _ _ (load_run _ _ _ Hr)).
  apply Forall_cons in Hall as Hall'. destruct Hall' as [Hb _].
  unfold bind at 1. unfold alloc at 1. fold (push_array m (Np.zeros_like b)).
  unfold bind at 1.
  rewrite (mix_loop_run _ _ (zip (b :: bufs) gains) _ (Np.zeros_like b)).
  - unfold ret, Np.zeros_like. rewrite Hb. by rewrite push_then_put.
  - apply lookup_alloc.
  - unfold Np.zeros_like at 2. rewrite length_replicate, Hb.
    apply mix_voices; [lia | by constructor | done].
Qed.

(** C4: for a non-empty list of buffers of one length and a gain per
    buffer, [mix_waveforms] returns a new buffer of that length whose
    sample at every index [i] is the sum over the voices of
    [gain_k * buffer_k[i]]; without gains every voice has the weight
    [1/N]. *)
Theorem mix_waveforms_weighted_sum m refs bufs n :
  refs <> [] ->
  Forall2 (fun r b => arrays m !! r = Some b) refs bufs ->
  Forall (fun b => length b = n) bufs ->
  (forall gains,
      length gains = length refs ->
      exists v,
        mix_waveforms refs (Some gains) m = (Ok (length (arrays m)), push_array m v) /\
        length v = n /\
        forall i, (i < n)%nat -> nth i v 0 == weighted_sum gains bufs i) /\
  (exists v,
      mix_waveforms refs None m = (Ok (length (arrays m)), push_array m v) /\
      length v = n /\
      forall i, (i < n)%nat ->
        nth i v 0 ==
        weighted_sum (replicate (length refs) (1 / inject_Z (Z.of_nat (length refs))))
          bufs i).
Proof.
  intros Hne Hrefs Hall.
  assert (Forall (fun b => length b = length (replicate n 0)) bufs) as Hall'
    by (by rewrite length_replicate).
  assert (forall gains_arg gains,
    gains = match gains_arg with
            | None => replicate (length refs) (1 / inject_Z (Py.len refs))
            | Some g => g
            end ->
    exists v,
      mix_waveforms refs gains_arg m = (Ok (length (arrays m)), push_array m v) /\
      length v = n /\
      forall i, (i < n)%nat -> nth i v 0 == weighted_sum gains bufs i) as Hboth.
  { intros gains_arg gains Hg.
    exists (mix_value (replicate n 0) (zip bufs gains)).
    split; [by eapply mix_waveforms_run |].
    split; [by rewrite length_mix_value, length_replicate |].
    intros i Hi. rewrite mix_value_nth by (by rewrite ?length_replicate).
    rewrite nth_zeros. ring. }
  split.
  - intros gains _. by apply (Hboth (Some gains)).
  - by apply (Hboth None).
Qed.

Lemma mix_waveforms_weighted_sum_witness :
  let m := fresh_machine [[1; 2]; [3; 4]] in
  (exists v,
      mix_waveforms [0; 1]%nat (Some [2; 3]) m = (Ok 2%nat, push_array m v) /\
      length v = 2%nat /\
      forall i, (i < 2)%nat -> nth i v 0 == weighted_sum [2; 3] [[1; 2]; [3; 4]] i) /\
  (exists v,
      mix_waveforms [0; 1]%nat None m = (Ok 2%nat, push_array m v) /\
      length v = 2%nat /\
      forall i, (i < 2)%nat ->
        nth i v 0 == weighted_sum [1 / 2; 1 / 2] [[1; 2]; [3; 4]] i).
Proof.
  intros m.
  destruct (mix_waveforms_weighted_sum m [0; 1]%nat [[1; 2]; [3; 4]] 2)
    as [H1 H2]; [done | by repeat constructor | by repeat constructor |].
  split; [by apply (H1 [2; 3]) | exact H2].
Defined.

End Mix.

(** ** Lengths *)

Section Shapes.

Lemma same_shapes_refl m : same_shapes m m.
Proof. intros r v Hr. by exists v. Qed.

Lemma same_shapes_trans m1 m2 m3 :
  same_shapes m1 m2 -> same_shapes m2 m3 -> same_shapes m1 m3.
Proof.
  intros H12 H23 r v Hr. destruct (H12 r v Hr) as (v2 & Hr2 & Hl2).
  destruct (H23 r v2 Hr2) as (v3 & Hr3 & Hl3). exists v3. split; [done | lia].
Qed.

Lemma same_shapes_push m v : same_shapes m (push_array m v).
Proof. intros r w Hr. exists w. split; [by apply lookup_alloc_old | done]. Qed.

Lemma same_shapes_put m r w v :
  arrays m !! r = Some w -> length v = length w -> same_shapes m (put_array m r v).
Proof.
  intros Hr Hlen r0 w0 Hr0. destruct (decide (r0 = r)) as [->|Hne].
  - exists v. split; [by eapply lookup_put_array |].
    assert (w0 = w) as -> by congruence. done.
  - exists w0. split; [|done]. simpl. by rewrite list_lookup_insert_ne.
Qed.

Lemma apply_fade_keeps_length r fade_duration sample_rate m w :
  arrays m !! r = Some w ->
  keeps_length (apply_fade r fade_duration sample_rate) m (length w).
Proof.
  intros Hr. unfold keeps_length. rewrite (apply_fade_run _ _ _ _ _ Hr).
  destruct (fade_in_step _ w) as [a1|] eqn:H1; [|split; [apply same_shapes_refl | done]].
  pose proof (fade_in_step_length _ _ _ H1) as Hl1.
  destruct (fade_out_step _ a1) as [a2|] eqn:H2.
  - pose proof (fade_out_step_length _ _ _ H2) as Hl2. simpl. split.
    + eapply same_shapes_put; [done | lia].
    + intros r' [= <-]. exists a2. split; [by eapply lookup_store | lia].
  - split; [by eapply same_shapes_put | done].
Qed.

Lemma apply_envelope_keeps_length r attack release sample_rate m w :
  arrays m !! r = Some w ->
  keeps_length (apply_envelope r attack release sample_rate) m (length w).
Proof.
  intros Hr. unfold keeps_length. rewrite (apply_envelope_run _ _ _ _ _ _ Hr).
  destruct (attack_step _ _) as [e1|] eqn:H1; [|split; [apply same_shapes_push | done]].
  destruct (release_step _ e1) as [e2|] eqn:H2; [|split; [apply same_shapes_push | done]].
  apply attack_step_length in H1. apply release_step_length in H2.
  unfold Np.ones_like in H1. rewrite length_replicate in H1.
  split.
  - eapply same_shapes_trans; apply same_shapes_push.
  - intros r' [= <-]. exists (zip_with Qmult w e2). split.
    + simpl. replace (S (length (arrays m))) with (length (arrays m ++ [e2]))
        by (rewrite length_app; simpl; lia).
      apply lookup_alloc.
    + rewrite length_zip_with. lia.
Qed.

Lemma normalize_audio_keeps_length r headroom m w :
  arrays m !! r = Some w ->
  keeps_length (normalize_audio r headroom) m (length w).
Proof.
  intros Hr. unfold keeps_length. rewrite (normalize_audio_run _ _ _ _ Hr).
  destruct (Np.max (Np.abs w)) as [peak|]; [|split; [apply same_shapes_refl | done]].
  destruct (Qltb 0 peak); simpl; split.
  - apply same_shapes_push.
  - intros r' [= <-]. eexists. split; [apply lookup_alloc | apply length_map].
  - apply same_shapes_refl.
  - intros r' [= <-]. by exists w.
Qed.

Lemma buffers_of_refs (m : machine) (n : nat) (refs : list ref) :
  Forall (fun r0 => exists b, arrays m !! r0 = Some b /\ length b = n) refs ->
  exists bufs, Forall2 (fun r0 b => arrays m !! r0 = Some b) refs bufs /\
               Forall (fun b => length b = n) bufs.
Proof.
  induction 1 as [|r0 refs (b & Hb & Hl) _ (bufs & H2 & H1)].
  - exists []. by split; constructor.
  - exists (b :: bufs). by split; constructor.
Qed.

Lemma mix_waveforms_keeps_length refs gains m n :
  refs <> [] ->
  Forall (fun r0 => exists b, arrays m !! r0 = Some b /\ length b = n) refs ->
  keeps_length (mix_waveforms refs gains) m n /\
  fst (mix_waveforms refs gains m) = Ok (length (arrays m)).
Proof.
  intros Hne Hrefs. unfold keeps_length.
  destruct (buffers_of_refs _ _ _ Hrefs) as (bufs & H2 & H1).
  rewrite (mix_waveforms_run m refs bufs n gains _ Hne H2 H1 eq_refl).
  simpl. split; [|done]. split; [apply same_shapes_push |].
  intros r' [= <-]. eexists. split; [apply lookup_alloc |].
  rewrite length_mix_value; by rewrite length_replicate.
Qed.

(** The shaping and normalising operations return when their ramps fit
    in the buffer and the buffer has a sample. *)
Lemma apply_fade_returns r fade_duration sample_rate m w :
  arrays m !! r = Some w ->
  (0 < Py.int (fade_duration * sample_rate))%Z ->
  (Z.to_nat (Py.int (fade_duration * sample_rate)) <= length w)%nat ->
  fst (apply_fade r fade_duration sample_rate m) = Ok r.
Proof.
  intros Hr Hfs Hlen. rewrite (apply_fade_run _ _ _ _ _ Hr).
  set (fs := Py.int (fade_duration * sample_rate)) in *.
  destruct (fade_in_step_ok fs w ltac:(lia) Hlen) as [a1 H1]. rewrite H1.
  pose proof (fade_in_step_length _ _ _ H1) as Hl1.
  destruct (fade_out_step_ok fs a1 Hfs ltac:(lia)) as [a2 H2]. by rewrite H2.
Qed.

Lemma apply_envelope_returns r attack release sample_rate m w :
  arrays m !! r = Some w ->
  (Z.to_nat (Py.int (attack * sample_rate)) <= length w)%nat ->
  (Z.to_nat (Py.int (release * sample_rate)) <= length w)%nat ->
  fst (apply_envelope r attack release sample_rate m) = Ok (S (length (arrays m))).
Proof.
  intros Hr Ha Hrl.
  destruct (apply_envelope_ok _ _ _ _ _ _ Hr Ha Hrl) as (e & _ & ->). done.
Qed.

Lemma normalize_audio_returns r headroom m w :
  arrays m !! r = Some w -> w <> [] ->
  exists r', fst (normalize_audio r headroom m) = Ok r'.
Proof.
  intros Hr Hw. rewrite (normalize_audio_run _ _ _ _ Hr).
  destruct (max_ok (Np.abs w)) as [peak ->]; [unfold Np.abs; by destruct w |].
  destruct (Qltb 0 peak); by eexists.
Qed.

(** C9: no operation resizes a buffer.  From a machine where [r] is a
    buffer [w]: [apply_fade], [apply_envelope] and [normalize_audio] leave
    every array of the machine with its length, however they end, and the
    buffer they return has the length of [w]; [mix_waveforms] on a
    non-empty list of buffers of the length of [w] returns a buffer of that
    length and leaves every array with its length.  The three operations
    on one buffer do return when their ramps fit in it and it has a
    sample. *)
Theorem buffer_length_invariant m r w :
  arrays m !! r = Some w ->
  (forall fade_duration sample_rate,
      keeps_length (apply_fade r fade_duration sample_rate) m (length w)) /\
  (forall attack release sample_rate,
      keeps_length (apply_envelope r attack release sample_rate) m (length w)) /\
  (forall headroom,
      keeps_length (normalize_audio r headroom) m (length w)) /\
  (forall refs gains,
      refs <> [] ->
      Forall (fun r0 => exists b, arrays m !! r0 = Some b /\ length b = length w) refs ->
      keeps_length (mix_waveforms refs gains) m (length w) /\
      fst (mix_waveforms refs gains m) = Ok (length (arrays m))) /\
  (forall fade_duration sample_rate,
      (0 < Py.int (fade_duration * sample_rate))%Z ->
      (Z.to_nat (Py.int (fade_duration * sample_rate)) <= length w)%nat ->
      fst (apply_fade r fade_duration sample_rate m) = Ok r) /\
  (forall attack release sample_rate,
      (Z.to_nat (Py.int (attack * sample_rate)) <= length w)%nat ->
      (Z.to_nat (Py.int (release * sample_rate)) <= length w)%nat ->
      fst (apply_envelope r attack release sample_rate m) = Ok (S (length (arrays m)))) /\
  (forall headroom,
      w <> [] -> exists r', fst (normalize_audio r headroom m) = Ok r').
Proof.
  intros Hr. split; [|split; [|split; [|split; [|split; [|split]]]]].
  - intros. by apply apply_fade_keeps_length.
  - intros. by apply apply_envelope_keeps_length.
  - intros. by apply normalize_audio_keeps_length.
  - intros. by apply mix_waveforms_keeps_length.
  - intros. by eapply apply_fade_returns.
  - intros. by eapply apply_envelope_returns.
  - intros. by eapply normalize_audio_returns.
Qed.

Lemma buffer_length_invariant_witness :
  let m := fresh_machine [[1; 1; 1; 1]; [0; 1; 2; 3]] in
  keeps_length (apply_fade 0%nat (1 # 2) 4) m 4 /\
  keeps_length (apply_envelope 0%nat (1 # 2) (1 # 2) 4) m 4 /\
  keeps_length (normalize_audio 0%nat (1 # 2)) m 4 /\
  keeps_length (mix_waveforms [0; 1]%nat None) m 4 /\
  fst (apply_fade 0%nat (1 # 2) 4 m) = Ok 0%nat /\
  fst (apply_envelope 0%nat (1 # 2) (1 # 2) 4 m) = Ok 3%nat.
Proof.
  intros m.
  destruct (buffer_length_invariant m 0%nat [1; 1; 1; 1] eq_refl)
    as (Hf & He & Hn & Hm & Hfr & Her & _).
  split; [apply Hf |]. split; [apply He |]. split; [apply Hn |].
  split; [|split].
  - apply Hm; [done |]. repeat constructor; eexists; by split.
  - apply Hfr; vm_compute; [done | lia].
  - apply Her; vm_compute; lia.
Defined.

End Shapes.

(** ** Serialisation *)

Section Serialisation.

Lemma wrap16_in_range z : (-32768 <= z <= 32767)%Z -> Np.wrap16 z = z.
Proof. intros H. unfold Np.wrap16. rewrite Z.mod_small; lia. Qed.

Lemma wrap16_range z : (-32768 <= Np.wrap16 z <= 32767)%Z.
Proof. unfold Np.wrap16. pose proof (Z.mod_pos_bound (z + 32768) 65536). lia. Qed.

Lemma wrap16_mod z : Np.wrap16 (z mod 65536) = Np.wrap16 z.
Proof.
  unfold Np.wrap16. f_equal.
  rewrite Zplus_mod_idemp_l. reflexivity.
Qed.

(** The two bytes of a sample, put together again, are the sample
    modulo [2^16]. *)
Lemma bytes_join z :
  Z.lor (Z.land z 255) (Z.shiftl (Z.land (Z.shiftr z 8) 255) 8) = (z mod 65536)%Z.
Proof.
  change 65536%Z with (2 ^ 16)%Z. rewrite <- Z.land_ones by lia.
  change 255%Z with (Z.ones 8).
  apply Z.bits_inj'. intros n Hn.
  rewrite Z.lor_spec, !Z.land_spec.
  destruct (Z.lt_ge_cases n 8) as [Hlt|Hge].
  - rewrite Z.shiftl_spec_low by lia.
    rewrite !Z.ones_spec_low by lia. by rewrite orb_false_r.
  - rewrite Z.shiftl_spec by lia. rewrite Z.land_spec, Z.shiftr_spec by lia.
    replace (n - 8 + 8)%Z with n by lia.
    rewrite (Z.ones_spec_high 8 n) by lia. rewrite andb_false_r. simpl.
    destruct (Z.lt_ge_cases n 16).
    + rewrite !Z.ones_spec_low by lia. reflexivity.
    + rewrite !Z.ones_spec_high by lia. reflexivity.
Qed.

(** Decoding the bytes of an int16 array gives the array back. *)
Lemma decode_tobytes zs :
  Forall (fun z => (-32768 <= z <= 32767)%Z) zs ->
  decode_int16 (Np.tobytes zs) = zs.
Proof.
  induction 1 as [|z zs Hz _ IH]; [done |].
  simpl. rewrite bytes_join, wrap16_mod, wrap16_in_range by done.
  by rewrite IH.
Qed.

Lemma astype_int16_range a :
  Forall (fun z => (-32768 <= z <= 32767)%Z) (Np.astype_int16 a).
Proof.
  unfold Np.astype_int16. apply Forall_forall. intros z Hz.
  apply list_elem_of_fmap in Hz as (x & -> & _). unfold Np.cast_int16.
  destruct (_ && _); [apply wrap16_range | lia].
Qed.

(** [int()] of a number of the int16 range stays in the range. *)
Lemma int_in_range q :
  -32768 <= q <= 32767 -> (-32768 <= Py.int q <= 32767)%Z.
Proof.
  intros [Hlo Hhi]. destruct (Qlt_le_dec q 0) as [Hneg|Hpos].
  - pose proof (int_of_negative q Hneg). pose proof (floor_le_int q).
    assert (-32768 <= Qfloor q)%Z; [|lia].
    change (-32768)%Z with (Qfloor (inject_Z (-32768))).
    by apply Qfloor_resp_le.
  - rewrite int_nonneg by done.
    assert (Qfloor 0 <= Qfloor q)%Z by (by apply Qfloor_resp_le).
    assert (Qfloor q <= Qfloor (inject_Z 32767))%Z by (by apply Qfloor_resp_le).
    change (Qfloor 0) with 0%Z in *. rewrite Qfloor_Z in *. lia.
Qed.

Lemma cast_int16_in_range q :
  -32768 <= q <= 32767 -> Np.cast_int16 q = Py.int q.
Proof.
  intros Hq. pose proof (int_in_range q Hq) as Hz. unfold Np.cast_int16.
  destruct (Z.leb_spec (-2147483648) (Py.int q)); [|lia].
  destruct (Z.leb_spec (Py.int q) 2147483647); [|lia].
  by apply wrap16_in_range.
Qed.

Lemma wrap16_congruent z : ((Np.wrap16 z - z) mod 65536 = 0)%Z.
Proof.
  unfold Np.wrap16. pose proof (Z.div_mod (z + 32768) 65536 ltac:(lia)) as H.
  replace ((z + 32768) mod 65536 - 32768 - z)%Z
    with (- ((z + 32768) / 65536) * 65536)%Z by lia.
  apply Z.mod_mul. lia.
Qed.

(** Every sample is stored as the corrected claim says. *)
Lemma cast_int16_stored x : stored_sample x (Np.cast_int16 (x * MAX_AMP)).
Proof.
  unfold stored_sample, Np.cast_int16, MAX_AMP.
  set (p := Py.int (x * 32767)).
  destruct (Z.leb_spec (-2147483648) p); destruct (Z.leb_spec p 2147483647);
    cbn [andb].
  - split; [apply wrap16_range |]. split; [by apply wrap16_in_range |].
    split; [intros _; apply wrap16_congruent | lia].
  - split; [lia |]. split; [lia |]. split; [lia | done].
  - split; [lia |]. split; [lia |]. split; [lia | done].
  - lia.
Qed.

Lemma length_tobytes zs : length (Np.tobytes zs) = (2 * length zs)%nat.
Proof. induction zs as [|z zs IH]; [done |]. simpl in *. lia. Qed.

Lemma length_saved w :
  Z.of_nat (length (Np.tobytes (Np.astype_int16 (map (fun x => x * MAX_AMP) w))))
  = (2 * Z.of_nat (length w))%Z.
Proof. unfold Np.astype_int16. rewrite length_tobytes, !length_map. lia. Qed.

Lemma round_ge_floor x : (Qfloor x <= Py.round x)%Z.
Proof.
  unfold Py.round. destruct (Qcompare _ _); [|lia | lia].
  destruct (Z.even (Qfloor x)); lia.
Qed.

Lemma floor_unit x : 0 <= x < 1 -> Qfloor x = 0%Z.
Proof.
  intros [H0 H1]. pose proof (Qfloor_le x) as Hle. pose proof (Qlt_floor x) as Hlt.
  assert (inject_Z (Qfloor x) < inject_Z 1) as Ha
    by (eapply Qle_lt_trans; [exact Hle | exact H1]).
  assert (inject_Z 0 < inject_Z (Qfloor x + 1)) as Hb
    by (eapply Qle_lt_trans; [exact H0 | exact Hlt]).
  rewrite <- Zlt_Qlt in Ha, Hb. lia.
Qed.


Lemma round_large x : 1 # 2 < x -> (1 <= Py.round x)%Z.
Proof.
  intros Hx. destruct (Qlt_le_dec x 1) as [H1|H1].
  - unfold Py.round. rewrite floor_unit by (split; lra).
    destruct (Qcompare (x - inject_Z 0) (1 # 2)) eqn:E; [| |done].
    + apply Qeq_alt in E. change (inject_Z 0) with 0 in E. lra.
    + apply Qlt_alt in E. change (inject_Z 0) with 0 in E. lra.
  - pose proof (round_ge_floor x).
    assert (Qfloor 1 <= Qfloor x)%Z by (by apply Qfloor_resp_le).
    change (Qfloor 1) with 1%Z in *. lia.
Qed.

(** The header of a mono file of 2-byte samples fits when the frame
    rate is below [2^31] and the form is shorter than [2^32] bytes. *)
Lemma header_fits_mono framerate data :
  header_fits 1 2 framerate data = true <->
  (framerate < 2147483648)%Z /\ (36 + Z.of_nat (length data) < 4294967296)%Z.
Proof.
  unfold header_fits. rewrite !andb_true_iff, !Z.ltb_lt. lia.
Qed.

(** What [wave] does with a mono file of 2-byte samples under a name
    that can be opened. *)
Lemma wave_write_run filename rate data m :
  Py.names_directory filename = false ->
  wave_write filename 1 2 rate data m =
    if Qle_bool rate 0 || (Py.round rate =? 0)%Z
    then (Raise WaveError, set_files m (delete filename (files m)))
    else if header_fits 1 2 (Py.round rate) data
         then (Ok tt,
               set_files m
                 (<[filename := {| nchannels := 1; sampwidth := 2;
                                   framerate := Py.round rate; frames := data |}]>
                    (files m)))
         else (Raise StructError, set_files m (delete filename (files m))).
Proof.
  intros Hname. unfold wave_write, open_wb. rewrite Hname.
  change (1 <? 1)%Z with false. change ((2 <? 1)%Z || (4 <? 2)%Z) with false.
  unfold bind, ret, raise. cbv beta iota zeta.
  destruct (Qle_bool rate 0); [done |].
  destruct (Py.round rate =? 0)%Z; [done |].
  destruct (header_fits 1 2 (Py.round rate) data); [|done].
  cbn [orb]. unfold set_files. cbn [files arrays rng_pos].
  by rewrite insert_delete_eq.
Qed.

Lemma save_wav_run r filename sample_rate m w :
  arrays m !! r = Some w ->
  Py.has_dirname filename = true ->
  Py.names_directory filename = false ->
  1 # 2 < sample_rate ->
  (Py.round sample_rate < 2147483648)%Z ->
  (2 * Z.of_nat (length w) + 36 < 4294967296)%Z ->
  save_wav r filename sample_rate m =
    (Ok tt,
     set_files m
       (<[filename :=
            {| nchannels := 1; sampwidth := 2; framerate := Py.round sample_rate;
               frames := Np.tobytes
                           (Np.astype_int16 (map (fun x => x * MAX_AMP) w)) |}]>
          (files m))).
Proof.
  intros Hr Hdir Hname Hrate Hround Hsize. unfold save_wav.
  rewrite (bind_ok _ _ _ _ _ (load_run _ _ _ Hr)).
  unfold makedirs_dirname. rewrite Hdir, bind_ret_unit.
  rewrite (wave_write_run _ _ _ _ Hname).
  assert (Qle_bool sample_rate 0 = false) as ->.
  { destruct (Qle_bool sample_rate 0) eqn:E; [|done].
    apply Qle_bool_iff in E. lra. }
  pose proof (round_large _ Hrate) as Hpos.
  destruct (Z.eqb_spec (Py.round sample_rate) 0) as [E|_]; [lia |]. cbn [orb].
  assert (header_fits 1 2 (Py.round sample_rate)
            (Np.tobytes (Np.astype_int16 (map (fun x => x * MAX_AMP) w))) = true)
    as ->; [|done].
  apply header_fits_mono. rewrite length_saved. lia.
Qed.

(** C2, as the code has it: under a name that can be written to, with
    a sample rate that rounds to a frame rate of [1, 2^31) and a buffer
    short enough for the header, [save_wav] writes a mono file of 2-byte
    samples, and a 16-bit PCM decoder reads back, for every sample [x],
    the product [x * 32767] with its fraction dropped (rounded toward
    zero, not to the nearest) when that fits a signed 16-bit integer.  A
    product that does not fit is not clipped: within 32 bits it wraps
    modulo [2^16], beyond it is stored as 0. *)
Theorem save_wav_roundtrip r filename sample_rate m w :
  arrays m !! r = Some w ->
  writable_name filename = true ->
  1 # 2 < sample_rate ->
  (Py.round sample_rate < 2147483648)%Z ->
  (2 * Z.of_nat (length w) + 36 < 4294967296)%Z ->
  exists f,
    save_wav r filename sample_rate m =
      (Ok tt, set_files m (<[filename := f]> (files m))) /\
    nchannels f = 1%Z /\ sampwidth f = 2%Z /\
    framerate f = Py.round sample_rate /\
    Forall2 stored_sample w (decode_int16 (frames f)) /\
    (Forall fits_int16 w ->
     decode_int16 (frames f) = map (fun x => Py.int (x * 32767)) w).
Proof.
  intros Hr Hname Hrate Hround Hsize. unfold writable_name in Hname.
  apply andb_prop in Hname as [Hname Hfile]. apply andb_prop in Hname as [_ Hdir].
  apply negb_true_iff in Hfile.
  eexists. split; [by apply save_wav_run |].
  split; [done |]. split; [done |]. split; [done |]. cbn [frames].
  rewrite decode_tobytes by apply astype_int16_range.
  unfold Np.astype_int16. rewrite map_map. split.
  - apply Forall2_fmap_r, Forall_Forall2_diag, Forall_forall. intros x _.
    apply cast_int16_stored.
  - intros Hfit. apply map_ext_Forall. eapply Forall_impl; [exact Hfit |].
    intros x Hx. by apply cast_int16_in_range.
Qed.

Lemma save_wav_roundtrip_witness :
  let m := fresh_machine [[1 # 4; - (1 # 4); 1; - (1)]] in
  exists f,
    save_wav 0%nat "loops/a.wav" 48000 m =
      (Ok tt, set_files m (<[("loops/a.wav")%string := f]> (files m))) /\
    nchannels f = 1%Z /\ sampwidth f = 2%Z /\ framerate f = 48000%Z /\
    decode_int16 (frames f) = [8191; -8191; 32767; -32767]%Z.
Proof.
  intros m.
  destruct (save_wav_roundtrip 0%nat "loops/a.wav" 48000 m
              [1 # 4; - (1 # 4); 1; - (1)])
    as (f & Hrun & Hc & Hw & Hr & _ & Hdec); [done | done | done | done | done |].
  exists f. split; [exact Hrun |]. split; [exact Hc |]. split; [exact Hw |].
  split; [exact Hr |]. apply Hdec.
  repeat constructor; vm_compute; discriminate.
Defined.

(** C2 fails as stated.  The sample [1/4] has the fixed-point value
    [8191.75]: the file holds [8191], and the claim says [8192].  The
    sample [2] has the value [65534]: the file holds [-2], and the claim
    says [32767].  The sample [70000] has a value beyond 32 bits: the file
    holds [0], and the claim says [32767]. *)
Lemma save_wav_truncates :
  let m := fresh_machine [[1 # 4; 2; 70000]] in
  exists f,
    files (snd (save_wav 0%nat "loops/a.wav" 48000 m)) !! ("loops/a.wav")%string
      = Some f /\
    decode_int16 (frames f) = [8191; -2; 0]%Z /\
    map (fun x => clip16 (Py.round (x * 32767))) [1 # 4; 2; 70000]
      = [8192; 32767; 32767]%Z.
Proof.
  intros m. eexists. split; [by vm_compute |]. by vm_compute.
Qed.

End Serialisation.

(** ** Oscillators *)

Section Oscillators.
Variables (np_sin np_arcsin : Q -> Q) (np_pi : Q).

Lemma generate_sine_wave_run freq duration sample_rate m :
  generate_sine_wave np_sin np_pi freq duration sample_rate m =
    match Np.linspace 0 duration (Py.int (sample_rate * duration)) false with
    | Ok t => (Ok (length (arrays m)),
               push_array m (map (fun x => np_sin (2 * np_pi * freq * x)) t))
    | Raise e => (Raise e, m)
    end.
Proof.
  unfold generate_sine_wave, bind, lift.
  by destruct (Np.linspace 0 duration _ false).
Qed.

Lemma generate_triangle_wave_run freq duration sample_rate m :
  generate_triangle_wave np_sin np_arcsin np_pi freq duration sample_rate m =
    match Np.linspace 0 duration (Py.int (sample_rate * duration)) false with
    | Ok t => (Ok (length (arrays m)),
               push_array m
                 (map (fun x => 2 * np_arcsin (np_sin (2 * np_pi * freq * x)) / np_pi) t))
    | Raise e => (Raise e, m)
    end.
Proof.
  unfold generate_triangle_wave, bind, lift.
  by destruct (Np.linspace 0 duration _ false).
Qed.

Lemma generate_sine_wave_ok freq duration sample_rate (N : nat) m :
  Py.int (sample_rate * duration) = Z.of_nat N ->
  generate_sine_wave np_sin np_pi freq duration sample_rate m =
    (Ok (length (arrays m)),
     push_array m (map (fun x => np_sin (2 * np_pi * freq * x))
                     (map (Np.linspace_at 0 duration N false) (seq 0 N)))).
Proof.
  intros H. rewrite generate_sine_wave_run, H, linspace_ok by lia.
  by rewrite Nat2Z.id.
Qed.

(** The time grid of a wave of [num] samples: sample [k] is at
    [k * duration / num], inside [0, duration). *)
Lemma grid_sample duration (num k : nat) :
  0 < duration -> (k < num)%nat ->
  Np.linspace_at 0 duration num false k
    == inject_Z (Z.of_nat k) * duration / inject_Z (Z.of_nat num) /\
  0 <= Np.linspace_at 0 duration num false k < duration.
Proof.
  intros Hd Hk.
  pose proof (inject_nat_pos num ltac:(lia)) as Hnum.
  assert (0 <= inject_Z (Z.of_nat k)) as Hk0
    by (rewrite <- (Zle_Qle 0); lia).
  assert (inject_Z (Z.of_nat k) < inject_Z (Z.of_nat num)) as Hkn
    by (rewrite <- Zlt_Qlt; lia).
  assert (Np.linspace_at 0 duration num false k
            == inject_Z (Z.of_nat k) * duration / inject_Z (Z.of_nat num)) as E.
  { rewrite linspace_at_open by lia. field. lra. }
  split; [exact E |]. rewrite E. split.
  - apply Qle_shift_div_l; [done |]. rewrite Qmult_0_l.
    apply Qmult_le_0_compat; lra.
  - apply Qlt_shift_div_r; [done |]. rewrite (Qmult_comm duration).
    apply Qmult_lt_compat_r; done.
Qed.

(** C3: for a positive duration (and a positive sample rate, such as
    the fixed one), [generate_sine_wave] and [generate_triangle_wave]
    return a new buffer of exactly [floor(duration * sample_rate)]
    samples, sample [k] being the wave at the time [k * duration / N] of
    the half-open interval [0, duration). *)
Theorem wave_length_and_grid freq duration sample_rate m :
  0 < duration -> 0 < sample_rate ->
  let N := Z.to_nat (Qfloor (duration * sample_rate)) in
  exists t,
    length t = N /\
    (forall k, (k < N)%nat ->
       exists tk, t !! k = Some tk /\
                  tk == inject_Z (Z.of_nat k) * duration / inject_Z (Z.of_nat N) /\
                  0 <= tk < duration) /\
    generate_sine_wave np_sin np_pi freq duration sample_rate m =
      (Ok (length (arrays m)),
       push_array m (map (fun x => np_sin (2 * np_pi * freq * x)) t)) /\
    generate_triangle_wave np_sin np_arcsin np_pi freq duration sample_rate m =
      (Ok (length (arrays m)),
       push_array m
         (map (fun x => 2 * np_arcsin (np_sin (2 * np_pi * freq * x)) / np_pi) t)).
Proof.
  intros Hd Hr N.
  assert (0 <= sample_rate * duration) as Hpos by (apply Qmult_le_0_compat; lra).
  assert (Py.int (sample_rate * duration) = Qfloor (duration * sample_rate)) as Hint.
  { rewrite int_nonneg by done. apply Qfloor_comp. ring. }
  assert (0 <= Qfloor (duration * sample_rate))%Z as HN.
  { change 0%Z with (Qfloor 0). apply Qfloor_resp_le. lra. }
  exists (map (Np.linspace_at 0 duration N false) (seq 0 N)).
  split; [by rewrite length_map, length_seq |]. split.
  - intros k Hk. eexists. split.
    + rewrite list_lookup_fmap, lookup_seq_lt by done. reflexivity.
    + by apply grid_sample.
  - rewrite generate_sine_wave_run, generate_triangle_wave_run, Hint.
    by rewrite linspace_ok by done.
Qed.

End Oscillators.

Lemma wave_length_and_grid_witness :
  let m := fresh_machine [] in
  exists t,
    length t = 4%nat /\
    (forall k, (k < 4)%nat ->
       exists tk, t !! k = Some tk /\
                  (tk == inject_Z (Z.of_nat k) * (1 # 12000) / 4)%Q /\
                  (0 <= tk < 1 # 12000)%Q) /\
    generate_sine_wave (fun x => x) 3 432 (1 # 12000) SAMPLE_RATE m =
      (Ok 0%nat, push_array m (map (fun x => 2 * 3 * 432 * x)%Q t)) /\
    generate_triangle_wave (fun x => x) (fun x => x) 3 432 (1 # 12000) SAMPLE_RATE m =
      (Ok 0%nat, push_array m (map (fun x => 2 * (2 * 3 * 432 * x) / 3)%Q t)).
Proof.
  intros m.
  apply (wave_length_and_grid (fun x => x) (fun x => x) 3 432 (1 # 12000) SAMPLE_RATE m);
    by vm_compute.
Defined.


(** ** The random generator *)

Create HintDb rng.

Lemma keeps_rng_ret {A} (a : A) : keeps_rng (ret a).
Proof. by intros m. Qed.

Lemma keeps_rng_raise {A} e : keeps_rng (@raise A e).
Proof. by intros m. Qed.

Lemma keeps_rng_lift {A} (o : outcome A) : keeps_rng (lift o).
Proof. by intros m. Qed.

Lemma keeps_rng_alloc v : keeps_rng (alloc v).
Proof. by intros m. Qed.

Lemma keeps_rng_load r : keeps_rng (load r).
Proof. intros m. unfold load. by destruct (arrays m !! r). Qed.

Lemma keeps_rng_store r v : keeps_rng (store r v).
Proof. by intros m. Qed.

Lemma keeps_rng_bind {A B} (c : M A) (k : A -> M B) :
  keeps_rng c -> (forall a, keeps_rng (k a)) -> keeps_rng (bind c k).
Proof.
  intros Hc Hk m. unfold bind. specialize (Hc m).
  destruct (c m) as [[a|e] m']; simpl in *; [|done].
  by rewrite Hk.
Qed.

Lemma keeps_rng_if {A} (b : bool) (c1 c2 : M A) :
  keeps_rng c1 -> keeps_rng c2 -> keeps_rng (if b then c1 else c2).
Proof. by destruct b. Qed.

#[local] Hint Resolve keeps_rng_ret keeps_rng_raise keeps_rng_lift keeps_rng_alloc
  keeps_rng_load keeps_rng_store keeps_rng_bind keeps_rng_if : rng.

Lemma keeps_rng_update r f : keeps_rng (update r f).
Proof. unfold update. auto with rng. Qed.

#[local] Hint Resolve keeps_rng_update : rng.

Lemma keeps_rng_generate_sine_wave np_sin np_pi freq duration sample_rate :
  keeps_rng (generate_sine_wave np_sin np_pi freq duration sample_rate).
Proof. unfold generate_sine_wave. auto with rng. Qed.

Lemma keeps_rng_apply_envelope r attack release sample_rate :
  keeps_rng (apply_envelope r attack release sample_rate).
Proof. unfold apply_envelope, assign_slice. auto 20 with rng. Qed.

Lemma keeps_rng_imul_scalar r c : keeps_rng (imul_scalar r c).
Proof. unfold imul_scalar. auto with rng. Qed.

#[local] Hint Resolve keeps_rng_generate_sine_wave keeps_rng_apply_envelope
  keeps_rng_imul_scalar : rng.

Lemma keeps_rng_run {A} (c : M A) m o m' :
  keeps_rng c -> c m = (o, m') -> rng_pos m' = rng_pos m.
Proof. intros Hc E. specialize (Hc m). by rewrite E in Hc. Qed.

Lemma advances_rng_keeps {A} (c : M A) : keeps_rng c -> advances_rng 0 c.
Proof. intros Hc m a m' E. specialize (Hc m). by rewrite E in Hc. Qed.

Lemma advances_rng_bind {A B} n k (c : M A) (f : A -> M B) :
  advances_rng n c -> (forall a, advances_rng k (f a)) ->
  advances_rng (n + k) (bind c f).
Proof.
  intros Hc Hf m b m''. unfold bind.
  destruct (c m) as [[a|e] m'] eqn:E; [|done].
  intros E'. rewrite (Hf _ _ _ _ E'), (Hc _ _ _ E). lia.
Qed.

Lemma advances_rng_uniform rng low high : advances_rng 1 (uniform rng low high).
Proof. intros m a m'. unfold uniform, random, bind, ret. by intros [= <- <-]. Qed.

Lemma bind_uniform {B} rng low high (k : Q -> M B) m :
  bind (uniform rng low high) k m =
    k (low + (high - low) * rng (rng_pos m)) (set_rng_pos m (S (rng_pos m))).
Proof. reflexivity. Qed.

(** Two continuations that agree on what the first computation returns. *)
Lemma bind_agree {A B} (c : M A) (k1 k2 : A -> M B) m :
  (forall a m', c m = (Ok a, m') -> k1 a m' = k2 a m') ->
  bind c k1 m = bind c k2 m.
Proof. intros H. unfold bind. destruct (c m) as [[a|e] m']; [by apply H | done]. Qed.

(** ** The texture *)

Section Texture.
Variables (np_sin : Q -> Q) (np_pi : Q).

Lemma texture_tone_advances rng duration tones :
  advances_rng 4 (texture_tone np_sin np_pi rng duration tones).
Proof.
  unfold texture_tone.
  apply (advances_rng_bind 1 3); [apply advances_rng_uniform | intros freq].
  apply (advances_rng_bind 1 2); [apply advances_rng_uniform | intros tone_duration].
  apply (advances_rng_bind 1 1); [apply advances_rng_uniform | intros tone_start].
  apply (advances_rng_bind 0 1); [apply advances_rng_keeps; auto with rng | intros tone].
  apply (advances_rng_bind 0 1); [apply advances_rng_keeps; auto with rng | intros tone'].
  apply (advances_rng_bind 1 0); [apply advances_rng_uniform | intros pan].
  apply advances_rng_keeps. auto with rng.
Qed.

(** One tone depends on two of its four variates only: the frequency
    (the first) and the pan (the fourth). *)
Lemma texture_tone_agree rng1 rng2 duration tones m :
  rng1 (rng_pos m) = rng2 (rng_pos m) ->
  rng1 (3 + rng_pos m)%nat = rng2 (3 + rng_pos m)%nat ->
  texture_tone np_sin np_pi rng1 duration tones m =
  texture_tone np_sin np_pi rng2 duration tones m.
Proof.
  intros Hfreq Hpan. unfold texture_tone.
  repeat (rewrite bind_uniform; cbv beta). cbn [rng_pos set_rng_pos].
  rewrite Hfreq.
  apply bind_agree. intros tone m4 E4.
  apply bind_agree. intros tone' m5 E5.
  repeat (rewrite bind_uniform; cbv beta).
  pose proof (keeps_rng_run _ _ _ _ (keeps_rng_generate_sine_wave _ _ _ _ _) E4) as K4.
  pose proof (keeps_rng_run _ _ _ _ (keeps_rng_apply_envelope _ _ _ _) E5) as K5.
  simpl in K4.
  replace (rng_pos m5) with (3 + rng_pos m)%nat by lia.
  by rewrite Hpan.
Qed.

Lemma texture_tones_agree rng1 rng2 duration (l : list nat) :
  forall tones m,
  (forall j, (j < length l)%nat ->
     rng1 (rng_pos m + 4 * j)%nat = rng2 (rng_pos m + 4 * j)%nat /\
     rng1 (rng_pos m + 4 * j + 3)%nat = rng2 (rng_pos m + 4 * j + 3)%nat) ->
  for_fold l (fun _ => texture_tone np_sin np_pi rng1 duration) tones m =
  for_fold l (fun _ => texture_tone np_sin np_pi rng2 duration) tones m.
Proof.
  induction l as [|x l IH]; intros tones m H; [done |].
  cbn [for_fold]. destruct (H 0%nat ltac:(simpl; lia)) as [H0 H3].
  assert (texture_tone np_sin np_pi rng1 duration tones m =
          texture_tone np_sin np_pi rng2 duration tones m) as Etone.
  { apply texture_tone_agree.
    - by replace (rng_pos m) with (rng_pos m + 4 * 0)%nat by lia.
    - by replace (3 + rng_pos m)%nat with (rng_pos m + 4 * 0 + 3)%nat by lia. }
  unfold bind. rewrite Etone.
  destruct (texture_tone np_sin np_pi rng2 duration tones m) as [[tones'|e] m'] eqn:E;
    [|done].
  apply texture_tone_advances in E. apply IH. intros j Hj.
  destruct (H (S j) ltac:(simpl; lia)) as [Hj0 Hj3]. rewrite E.
  split.
  - replace (4 + rng_pos m + 4 * j)%nat with (rng_pos m + 4 * S j)%nat by lia. done.
  - replace (4 + rng_pos m + 4 * j + 3)%nat with (rng_pos m + 4 * S j + 3)%nat by lia.
    done.
Qed.

(** One turn of the loop returns, with a new buffer of the full length
    for the tone; the arrays that existed are as they were. *)
Lemma texture_tone_returns rng duration (N : nat) tones m :
  Py.int (SAMPLE_RATE * duration) = Z.of_nat N ->
  (Z.to_nat 14400 <= N)%nat ->
  exists v m',
    texture_tone np_sin np_pi rng duration tones m =
      (Ok (tones ++ [S (S (length (arrays m)))]), m') /\
    arrays m' !! S (S (length (arrays m))) = Some v /\ length v = N /\
    (forall r0 v0, arrays m !! r0 = Some v0 -> arrays m' !! r0 = Some v0).
Proof.
  intros HN Hfit. unfold texture_tone.
  repeat (rewrite bind_uniform; cbv beta).
  set (m0 := set_rng_pos _ _).
  assert (arrays m0 = arrays m) as Hm0 by reflexivity.
  rewrite (bind_ok _ _ _ _ _ (generate_sine_wave_ok np_sin np_pi _ _ _ N _ HN)).
  set (sine := map _ (map _ (seq 0 N))).
  assert (length sine = N) as Hsine
    by (unfold sine; by rewrite !length_map, length_seq).
  assert (Py.int (0.3 * SAMPLE_RATE) = 14400%Z) as Hint by reflexivity.
  destruct (apply_envelope_ok (length (arrays m0)) 0.3 0.3 SAMPLE_RATE
              (push_array m0 sine) sine) as (e & He & Henv).
  { apply lookup_push. }
  1-2: rewrite Hint; lia.
  rewrite (bind_ok _ _ _ _ _ Henv). rewrite length_push.
  repeat (rewrite bind_uniform; cbv beta).
  set (m2 := set_rng_pos _ _).
  set (product := zip_with Qmult sine e).
  assert (arrays m2 = arrays m ++ [sine] ++ [e] ++ [product]) as Hm2.
  { unfold m2. simpl. by rewrite <- !app_assoc. }
  assert (arrays m2 !! S (S (length (arrays m))) = Some product) as Hlook.
  { rewrite Hm2, !app_assoc. rewrite lookup_app_r; rewrite !length_app; simpl; [|lia].
    by replace (S (S (length (arrays m))) - (length (arrays m) + 1 + 1))%nat
      with 0%nat by lia. }
  clearbody m2. unfold imul_scalar. rewrite Hm0.
  erewrite bind_update_ok; [|exact Hlook | reflexivity].
  eexists _, _. split; [reflexivity |]. split; [by eapply lookup_put_array |].
  split.
  - unfold product. rewrite length_map, length_zip_with. lia.
  - intros r0 v0 Hr0. pose proof (lookup_lt_Some _ _ _ Hr0).
    unfold put_array, set_arrays. cbn [arrays]. rewrite list_lookup_insert_ne by lia.
    rewrite Hm2. by apply lookup_app_l_Some.
Qed.

Lemma texture_tones_return rng duration (N : nat) (l : list nat) :
  Py.int (SAMPLE_RATE * duration) = Z.of_nat N ->
  (Z.to_nat 14400 <= N)%nat ->
  forall tones m,
  Forall (fun r => exists v, arrays m !! r = Some v /\ length v = N) tones ->
  exists tones' m',
    for_fold l (fun _ => texture_tone np_sin np_pi rng duration) tones m =
      (Ok tones', m') /\
    length tones' = (length tones + length l)%nat /\
    Forall (fun r => exists v, arrays m' !! r = Some v /\ length v = N) tones'.
Proof.
  intros HN Hfit. induction l as [|x l IH]; intros tones m Htones.
  - exists tones, m. split; [done |]. split; [simpl; lia | done].
  - cbn [for_fold].
    destruct (texture_tone_returns rng duration N tones m HN Hfit)
      as (v & m1 & Hrun & Hv & Hlen & Hold).
    rewrite (bind_ok _ _ _ _ _ Hrun).
    destruct (IH (tones ++ [S (S (length (arrays m)))]) m1) as (tones' & m' & H1 & H2 & H3).
    { apply Forall_app. split.
      - eapply Forall_impl; [exact Htones |].
        intros r (v0 & Hr & Hl). exists v0. split; [by apply Hold | done].
      - constructor; [|constructor]. by exists v. }
    exists tones', m'. split; [done |]. split; [|done].
    rewrite H2, length_app. simpl. lia.
Qed.

(** The texture generator returns a buffer of the full length when the
    ramps of 0.3 seconds fit in it. *)
Lemma generate_texture_loop_returns rng duration (N : nat) m :
  Py.int (SAMPLE_RATE * duration) = Z.of_nat N ->
  (Z.to_nat 14400 <= N)%nat ->
  exists r m' v,
    generate_texture_loop np_sin np_pi rng duration m = (Ok r, m') /\
    arrays m' !! r = Some v /\ length v = N.
Proof.
  intros HN Hfit. unfold generate_texture_loop.
  destruct (texture_tones_return rng duration N (seq 0 5) HN Hfit [] m)
    as (tones & m1 & Hloop & Hlen & Htones); [constructor |].
  rewrite (bind_ok _ _ _ _ _ Hloop).
  destruct (buffers_of_refs _ _ _ Htones) as (bufs & H2 & H1).
  assert (tones <> []) as Hne by (intros ->; simpl in Hlen; lia).
  rewrite (bind_ok _ _ _ _ _
             (mix_waveforms_run m1 tones bufs N None _ Hne H2 H1 eq_refl)).
  set (mixed := mix_value _ _).
  assert (length mixed = N) as Hmixed
    by (unfold mixed; rewrite length_mix_value; by rewrite length_replicate).
  assert (Py.int (0.3 * SAMPLE_RATE) = 14400%Z) as Hint by reflexivity.
  destruct (fade_in_step_ok 14400 mixed ltac:(lia) ltac:(lia)) as [a1 Ha1].
  pose proof (fade_in_step_length _ _ _ Ha1) as Hl1.
  destruct (fade_out_step_ok 14400 a1 ltac:(lia) ltac:(lia)) as [a2 Ha2].
  pose proof (fade_out_step_length _ _ _ Ha2) as Hl2.
  assert (apply_fade (length (arrays m1)) 0.3 SAMPLE_RATE (push_array m1 mixed) =
          (Ok (length (arrays m1)), push_array m1 a2)) as Hfade.
  { rewrite (apply_fade_run _ _ _ _ mixed) by apply lookup_push.
    by rewrite Hint, Ha1, Ha2, push_then_put. }
  rewrite (bind_ok _ _ _ _ _ Hfade).
  unfold bind at 1. rewrite (normalize_audio_run _ _ _ a2) by apply lookup_push.
  destruct (max_ok (Np.abs a2)) as [peak Hpeak].
  { unfold Np.abs. intros E. apply (f_equal length) in E.
    rewrite length_map in E. simpl in E. lia. }
  rewrite Hpeak. destruct (Qltb 0 peak).
  - eexists _, _, _. split; [reflexivity |]. split; [apply lookup_push |].
    rewrite length_map. lia.
  - eexists _, _, _. split; [reflexivity |]. split; [apply lookup_push | lia].
Qed.

(** C7: the texture generator ignores the start offset and the
    duration drawn for each tone.  The five tones draw four variates each
    (frequency, tone duration, tone start, pan); two runs from the same
    machine whose random sequences agree on the frequencies and the pans
    end in the same way: same outcome, same returned buffer, same store.
    Each tone has the full length, and the generator returns a buffer of
    that length when the ramps of 0.3 seconds fit in it. *)
Theorem texture_ignores_tone_timing rng1 rng2 duration m :
  (forall j, (j < 5)%nat ->
     rng1 (rng_pos m + 4 * j)%nat = rng2 (rng_pos m + 4 * j)%nat /\
     rng1 (rng_pos m + 4 * j + 3)%nat = rng2 (rng_pos m + 4 * j + 3)%nat) ->
  generate_texture_loop np_sin np_pi rng1 duration m =
  generate_texture_loop np_sin np_pi rng2 duration m /\
  (forall N : nat,
      Py.int (SAMPLE_RATE * duration) = Z.of_nat N ->
      (Z.to_nat 14400 <= N)%nat ->
      exists r m' v,
        generate_texture_loop np_sin np_pi rng1 duration m = (Ok r, m') /\
        arrays m' !! r = Some v /\ length v = N).
Proof.
  intros H. split.
  - unfold generate_texture_loop.
    unfold bind at 1 5. by rewrite (texture_tones_agree rng1 rng2).
  - intros N HN Hfit. by apply generate_texture_loop_returns.
Qed.

End Texture.

Lemma texture_ignores_tone_timing_witness :
  let rng1 := fun _ : nat => 0%Q in
  let rng2 := fun k : nat => if (k mod 4 =? 1)%nat || (k mod 4 =? 2)%nat
                             then (1 # 2)%Q else 0%Q in
  rng1 1%nat <> rng2 1%nat /\
  generate_texture_loop (fun x => x) 3 rng1 4 (fresh_machine []) =
  generate_texture_loop (fun x => x) 3 rng2 4 (fresh_machine []) /\
  exists r m' v,
    generate_texture_loop (fun x => x) 3 rng1 4 (fresh_machine []) = (Ok r, m') /\
    arrays m' !! r = Some v /\ length v = Z.to_nat 192000.
Proof.
  intros rng1 rng2. split; [by vm_compute |].
  destruct (texture_ignores_tone_timing (fun x => x) 3 rng1 rng2 4 (fresh_machine []))
    as [Heq Hret].
  { intros j Hj. do 5 (destruct j as [|j]; [by vm_compute |]). lia. }
  split; [exact Heq |]. apply Hret; [|lia].
  rewrite Z2Nat.id by lia. reflexivity.
Defined.


(** ** The breath *)

Section Masks.
Implicit Types (a vals : list Q) (mask : list bool) (i : nat).

Lemma length_mask_fill a mask vals : length (Np.mask_fill a mask vals) = length a.
Proof.
  revert mask vals. induction a as [|x a IH]; intros mask vals; [done |].
  destruct mask as [|[] mask]; [done | |]; simpl.
  - destruct vals; simpl; by rewrite IH.
  - by rewrite IH.
Qed.

(** Where the mask does not hold the array keeps its sample. *)
Lemma mask_fill_false a mask vals i :
  mask !! i = Some false -> Np.mask_fill a mask vals !! i = a !! i.
Proof.
  revert mask vals i. induction a as [|x a IH]; intros mask vals i Hi; [done |].
  destruct mask as [|b mask]; [done |].
  destruct i as [|i]; simpl in Hi.
  - injection Hi as ->. done.
  - destruct b; simpl; [destruct vals |]; simpl; by apply IH.
Qed.

Lemma mask_assign_ok a mask vals :
  length mask = length a ->
  length vals = Z.to_nat (Np.sum mask) ->
  Np.mask_assign mask vals a = Ok (Np.mask_fill a mask vals).
Proof.
  intros Hm Hv. unfold Np.mask_assign.
  rewrite Hm, Nat.eqb_refl. simpl. by rewrite broadcast_to_same.
Qed.

Lemma sum_nonneg mask : (0 <= Np.sum mask)%Z.
Proof. unfold Np.sum. lia. Qed.

End Masks.

Section Zero.
Implicit Types (a v : list Q) (i : nat).

Lemma is_zero_at_scaled a a' i x :
  a !! i = Some x -> x == 0 ->
  (a' !! i = Some x \/ exists c, a' !! i = Some (x * c)) ->
  is_zero_at a' i.
Proof.
  intros Hx H0 [H|[c H]].
  - by exists x.
  - exists (x * c). split; [done |]. rewrite H0. ring.
Qed.

Lemma fade_in_step_zero_at fs a a' i :
  fade_in_step fs a = Ok a' -> is_zero_at a i -> is_zero_at a' i.
Proof.
  intros Ha (x & Hx & H0).
  eapply is_zero_at_scaled; [done | done | by eapply fade_in_step_scaled].
Qed.

Lemma fade_out_step_zero_at fs a a' i :
  fade_out_step fs a = Ok a' -> is_zero_at a i -> is_zero_at a' i.
Proof.
  intros Ha (x & Hx & H0).
  eapply is_zero_at_scaled; [done | done | by eapply fade_out_step_scaled].
Qed.

(** The fade in silences the first sample. *)
Lemma fade_in_step_first fs a a' :
  fade_in_step fs a = Ok a' -> (0 < fs)%Z -> (Z.to_nat fs <= length a)%nat ->
  is_zero_at a' 0.
Proof.
  unfold fade_in_step. intros Ha Hfs Hlen. rewrite linspace_ok in Ha by lia.
  destruct (head_slice fs (length a) ltac:(lia)) as [Hlo Hcnt].
  destruct (lookup_lt_is_Some_2 a 0 ltac:(lia)) as [x Hx].
  exists (x * Np.linspace_at 0 1 (Z.to_nat fs) true 0). split.
  - eapply imul_slice_inside; [exact Ha | | lia | exact Hx |].
    + rewrite length_map, length_seq, Hcnt. lia.
    + rewrite Hlo, list_lookup_fmap, lookup_seq_lt by lia. done.
  - rewrite linspace_at_first. ring.
Qed.

Lemma scaled_zero_at a i (f : Q -> Q) :
  (forall x, x == 0 -> f x == 0) -> is_zero_at a i -> is_zero_at (map f a) i.
Proof.
  intros Hf (x & Hx & H0). exists (f x). split; [|by apply Hf].
  by rewrite list_lookup_fmap, Hx.
Qed.

End Zero.

Section Breath.
Variables (np_sin : Q -> Q) (np_pi : Q).

(** The samples of the breath loop that are silent whatever the
    carrier: the first one, and those of the pause ([10 <= t]). *)
Lemma generate_breath_loop_zero duration (N : nat) m :
  Py.int (SAMPLE_RATE * duration) = Z.of_nat N ->
  (Z.to_nat 48000 <= N)%nat ->
  exists r m' v,
    generate_breath_loop np_sin np_pi duration m = (Ok r, m') /\
    arrays m' !! r = Some v /\ length v = N /\
    is_zero_at v 0 /\
    forall i, (i < N)%nat -> 10 <= Np.linspace_at 0 duration N false i -> is_zero_at v i.
Proof.
  intros HN Hfs.
  unfold generate_breath_loop, breath_grid.
  rewrite HN, linspace_ok, Nat2Z.id by lia.
  set (t := map (Np.linspace_at 0 duration N false) (seq 0 N)).
  assert (length t = N) as Ht by (unfold t; by rewrite length_map, length_seq).
  rewrite bind_lift_ok, bind_alloc.
  set (b := length (arrays m)).
  (* inhale *)
  rewrite (linspace_ok 0 0.5) by apply sum_nonneg. rewrite bind_lift_ok.
  set (rise := map _ (seq 0 (Z.to_nat (Np.sum (inhale_mask t))))).
  unfold assign_mask at 1.
  rewrite (bind_update_ok b _ (Np.zeros_like t)
             (Np.mask_fill (Np.zeros_like t) (inhale_mask t) rise)).
  2: { apply lookup_push. }
  2: { apply mask_assign_ok.
       - unfold inhale_mask, Np.zeros_like. by rewrite length_map, length_replicate.
       - unfold rise. by rewrite length_map, length_seq. }
  unfold b at 1. rewrite push_then_put. fold b.
  set (s1 := Np.mask_fill (Np.zeros_like t) (inhale_mask t) rise).
  (* exhale *)
  rewrite (linspace_ok 0.5 0) by apply sum_nonneg. rewrite bind_lift_ok.
  set (fall := map _ (seq 0 (Z.to_nat (Np.sum (exhale_mask t))))).
  unfold assign_mask at 1.
  rewrite (bind_update_ok b _ s1 (Np.mask_fill s1 (exhale_mask t) fall)).
  2: { apply lookup_push. }
  2: { apply mask_assign_ok.
       - unfold exhale_mask, s1, Np.zeros_like.
         by rewrite length_map, length_mask_fill, length_replicate.
       - unfold fall. by rewrite length_map, length_seq. }
  unfold b at 1. rewrite push_then_put. fold b.
  set (shape := Np.mask_fill s1 (exhale_mask t) fall).
  assert (length shape = N) as Hshape.
  { unfold shape, s1, Np.zeros_like.
    by rewrite !length_mask_fill, length_replicate. }
  (* carrier and modulation *)
  rewrite (bind_ok _ _ _ _ _ (generate_sine_wave_ok np_sin np_pi 216 duration SAMPLE_RATE N _ HN)).
  fold t. set (carrier := map (fun x => np_sin (2 * np_pi * 216 * x)) t).
  assert (length carrier = N) as Hcarrier by (unfold carrier; by rewrite length_map).
  set (m2 := push_array m shape).
  rewrite (bind_load (length (arrays m2)) carrier) by apply lookup_push.
  rewrite (bind_load b shape) by apply lookup_push_old, lookup_push.
  rewrite broadcast2_same by lia. rewrite bind_lift_ok, bind_alloc.
  set (product := zip_with Qmult carrier shape).
  assert (length product = N) as Hproduct
    by (unfold product; rewrite length_zip_with; lia).
  set (m3 := push_array m2 carrier).
  (* fade *)
  assert (Py.int (1 * SAMPLE_RATE) = 48000%Z) as Hint by reflexivity.
  destruct (fade_in_step_ok 48000 product ltac:(lia) ltac:(lia)) as [a1 H1].
  pose proof (fade_in_step_length _ _ _ H1) as Hl1.
  destruct (fade_out_step_ok 48000 a1 ltac:(lia) ltac:(lia)) as [a2 H2].
  pose proof (fade_out_step_length _ _ _ H2) as Hl2.
  assert (apply_fade (length (arrays m3)) 1 SAMPLE_RATE (push_array m3 product) =
          (Ok (length (arrays m3)), push_array m3 a2)) as Hfade.
  { rewrite (apply_fade_run _ _ _ _ product) by apply lookup_push.
    by rewrite Hint, H1, H2, push_then_put. }
  rewrite (bind_ok _ _ _ _ _ Hfade).
  (* the silent samples before normalisation *)
  assert (is_zero_at a2 0) as Hfirst.
  { eapply fade_out_step_zero_at; [exact H2 |].
    eapply fade_in_step_first; [exact H1 | lia | lia]. }
  assert (forall i, (i < N)%nat -> 10 <= Np.linspace_at 0 duration N false i ->
                    is_zero_at a2 i) as Hpause.
  { intros i Hi Hti.
    eapply fade_out_step_zero_at; [exact H2 |].
    eapply fade_in_step_zero_at; [exact H1 |].
    assert (t !! i = Some (Np.linspace_at 0 duration N false i)) as Hlook
      by (unfold t; by rewrite list_lookup_fmap, lookup_seq_lt).
    assert (shape !! i = Some 0) as Hs.
    { unfold shape. rewrite mask_fill_false.
      - unfold s1. rewrite mask_fill_false.
        + unfold Np.zeros_like. apply lookup_replicate_2. lia.
        + unfold inhale_mask. rewrite list_lookup_fmap, Hlook. simpl.
          f_equal. apply Qltb_ge. lra.
      - unfold exhale_mask. rewrite list_lookup_fmap, Hlook. simpl.
        f_equal. apply andb_false_iff. right. by apply Qltb_ge. }
    destruct (lookup_lt_is_Some_2 carrier i ltac:(lia)) as [c Hc].
    exists (c * 0). split; [|ring].
    unfold product. by rewrite lookup_zip_with, Hc, Hs. }
  (* normalisation *)
  unfold bind at 1. rewrite (normalize_audio_run _ _ _ a2) by apply lookup_push.
  destruct (max_ok (Np.abs a2)) as [peak Hpeak].
  { unfold Np.abs. intros E. apply (f_equal length) in E.
    rewrite length_map in E. simpl in E. lia. }
  rewrite Hpeak.
  assert (forall x, x == 0 -> x / peak * 0.4 == 0) as Hscale.
  { intros x Hx. rewrite Hx. unfold Qdiv. ring. }
  destruct (Qltb 0 peak).
  - eexists _, _, _. split; [reflexivity |]. split; [apply lookup_push |].
    split; [rewrite length_map; lia |]. split.
    + by apply scaled_zero_at.
    + intros i Hi Hti. apply scaled_zero_at; [done | by apply Hpause].
  - eexists _, _, _. split; [reflexivity |]. split; [apply lookup_push |].
    split; [lia |]. split; [done | exact Hpause].
Qed.

(** C8: the breath loop of 11 seconds has 528000 samples; its first
    sample is zero, its sample at index [floor(10.5 * 48000)] is zero, and
    so is every sample of the pause (indices 480000 to 527999). *)
Theorem breath_loop_silent_samples m :
  exists r m' v,
    generate_breath_loop np_sin np_pi 11 m = (Ok r, m') /\
    arrays m' !! r = Some v /\
    length v = Z.to_nat 528000 /\
    is_zero_at v 0 /\
    is_zero_at v (Z.to_nat (Qfloor (10.5 * 48000))) /\
    forall i, (480000 <= Z.of_nat i < 528000)%Z -> is_zero_at v i.
Proof.
  destruct (generate_breath_loop_zero 11 (Z.to_nat 528000) m)
    as (r & m' & v & Hrun & Hr & Hlen & Hfirst & Hpause).
  { rewrite Z2Nat.id by lia. reflexivity. }
  { lia. }
  assert (forall i, (480000 <= Z.of_nat i < 528000)%Z -> is_zero_at v i) as Hall.
  { intros i Hi. apply Hpause; [lia |].
    destruct (grid_sample 11 (Z.to_nat 528000) i ltac:(done) ltac:(lia)) as [E _].
    rewrite E, Z2Nat.id by lia.
    apply Qle_shift_div_l; [done |].
    assert (inject_Z 480000 <= inject_Z (Z.of_nat i)) as Hq
      by (rewrite <- Zle_Qle; lia).
    change (inject_Z 480000) with 480000 in Hq.
    change (inject_Z 528000) with 528000. lra. }
  exists r, m', v. repeat split; try done.
  apply Hall. change (Qfloor (10.5 * 48000)) with 504000%Z. lia.
Qed.

End Breath.

(** * Further properties *)

(** ** Ramps *)

Section Ramps.

Lemma ramp_up_spec (n k : nat) :
  (k < n)%nat -> Np.linspace_at 0 1 n true k == ramp_up n k.
Proof.
  intros Hk. unfold Np.linspace_at, Np.linspace_step, Np.linspace_div, ramp_up.
  destruct n as [|[|n]]; [lia | |].
  - replace k with 0%nat by lia. simpl. ring.
  - cbn [andb Nat.ltb Nat.leb Nat.sub]. simpl (1 <=? S n)%nat.
    replace (S (S n) - 1)%nat with (S n) by lia.
    destruct (Nat.eqb_spec k (S n)) as [->|Hne].
    + simpl. field. apply inject_nat_nonzero. lia.
    + simpl. field. apply inject_nat_nonzero. lia.
Qed.

Lemma ramp_down_spec (n k : nat) :
  (k < n)%nat -> Np.linspace_at 1 0 n true k == ramp_down n k.
Proof.
  intros Hk.
  unfold Np.linspace_at, Np.linspace_step, Np.linspace_div, ramp_down, ramp_up.
  destruct n as [|[|n]]; [lia | |].
  - replace k with 0%nat by lia. simpl. ring.
  - cbn [andb Nat.ltb Nat.leb Nat.sub]. simpl (1 <=? S n)%nat.
    replace (S (S n) - 1)%nat with (S n) by lia.
    destruct (Nat.eqb_spec k (S n)) as [->|Hne].
    + simpl. field. apply inject_nat_nonzero. lia.
    + simpl. field. apply inject_nat_nonzero. lia.
Qed.

Lemma ramp_up_bounds (n k : nat) : (k < n)%nat -> 0 <= ramp_up n k <= 1.
Proof.
  intros Hk. unfold ramp_up. destruct (Nat.leb_spec n 1) as [|Hn]; [lra |].
  pose proof (inject_nat_pos (n - 1) ltac:(lia)) as Hpos.
  assert (0 <= inject_Z (Z.of_nat k)) by (rewrite <- (Zle_Qle 0); lia).
  assert (inject_Z (Z.of_nat k) <= inject_Z (Z.of_nat (n - 1)))
    by (rewrite <- Zle_Qle; lia).
  split.
  - apply Qle_shift_div_l; [done | lra].
  - apply Qle_shift_div_r; [done | lra].
Qed.

Lemma ramp_down_bounds (n k : nat) : (k < n)%nat -> 0 <= ramp_down n k <= 1.
Proof. intros Hk. unfold ramp_down. pose proof (ramp_up_bounds n k Hk). lra. Qed.

Lemma ramp_up_first (n : nat) : ramp_up n 0 == 0.
Proof.
  unfold ramp_up. destruct (n <=? 1)%nat; [reflexivity |].
  change (inject_Z (Z.of_nat 0)) with 0. unfold Qdiv. ring.
Qed.

Lemma ramp_up_last (n : nat) : (2 <= n)%nat -> ramp_up n (n - 1) == 1.
Proof.
  intros Hn. unfold ramp_up. destruct (Nat.leb_spec n 1); [lia |].
  field. apply inject_nat_nonzero. lia.
Qed.

Lemma ramp_up_one (k : nat) : ramp_up 1 k == 0.
Proof. reflexivity. Qed.

End Ramps.

(** ** More on the fade *)

Section FadeLaws.
Implicit Types (a b : list Q) (s : Py.slice) (i n : nat) (fs : Z).

Lemma slice_parts {A} s (l : list A) :
  l = take (Py.lo s (length l)) l ++ Py.getslice s l
      ++ drop (Py.lo s (length l) + Py.cnt s (length l)) l.
Proof.
  unfold Py.getslice.
  rewrite <- (drop_drop l), (take_drop (Py.cnt s (length l))).
  by rewrite take_drop.
Qed.

Lemma broadcast_to_Forall (P : Q -> Prop) n b b' :
  Np.broadcast_to n b = Ok b' -> Forall P b -> Forall P b'.
Proof.
  unfold Np.broadcast_to. destruct (length b =? n)%nat; [by intros [= <-] |].
  destruct b as [|x [|y b]]; try done. intros [= <-] Hx.
  apply Forall_replicate. by apply Forall_inv in Hx.
Qed.

Lemma broadcast_to_cases n b b' :
  Np.broadcast_to n b = Ok b' -> length b = n \/ length b = 1%nat.
Proof.
  unfold Np.broadcast_to. destruct (Nat.eqb_spec (length b) n); [by left |].
  destruct b as [|x [|y b]]; try done. by right.
Qed.

Lemma broadcast_to_refused n b :
  length b <> n -> length b <> 1%nat -> Np.broadcast_to n b = Raise ValueError.
Proof.
  intros H1 H2. unfold Np.broadcast_to. destruct (Nat.eqb_spec (length b) n); [done |].
  by destruct b as [|x [|y b]].
Qed.

Lemma Qabs_mult_le x c : Qabs c <= 1 -> Qabs (x * c) <= Qabs x.
Proof.
  intros Hc. rewrite Qabs_Qmult. pose proof (Qabs_nonneg x).
  assert (Qabs c * Qabs x <= 1 * Qabs x) by (by apply Qmult_le_compat_r). lra.
Qed.

Lemma Qabs_unit c : 0 <= c <= 1 -> Qabs c <= 1.
Proof. intros [H0 H1]. by rewrite Qabs_pos. Qed.

Lemma attenuates_refl (l : list Q) : Forall2 (fun x y => Qabs y <= Qabs x) l l.
Proof. induction l; constructor; [lra | done]. Qed.

(** Multiplying a slice by factors of [-1, 1] makes no sample larger. *)
Lemma imul_slice_attenuates s b a a' :
  Np.imul_slice s b a = Ok a' ->
  Forall (fun c => Qabs c <= 1) b ->
  Forall2 (fun x y => Qabs y <= Qabs x) a a'.
Proof.
  unfold Np.imul_slice.
  destruct (Np.broadcast_to _ b) as [b'|] eqn:Hb; [|done]. intros [= <-] Hall.
  pose proof (broadcast_to_Forall _ _ _ _ Hb Hall) as Hall'.
  apply broadcast_to_length in Hb.
  rewrite (slice_parts s a) at 1. unfold Py.putslice.
  apply Forall2_app; [apply attenuates_refl |].
  apply Forall2_app; [|apply attenuates_refl].
  revert Hb Hall'. generalize (Py.getslice s a). intros g. revert b'.
  induction g as [|x g IH]; intros [|c b'] Hlen Hall'; try done; try (by constructor).
  simpl in *. apply Forall_cons in Hall' as [Hc Hall'].
  constructor; [by apply Qabs_mult_le | apply IH; [lia | done]].
Qed.

Lemma ramp_up_values n :
  Forall (fun c => Qabs c <= 1) (map (Np.linspace_at 0 1 n true) (seq 0 n)).
Proof.
  apply Forall_forall. intros c Hc.
  apply list_elem_of_fmap in Hc as (k & -> & Hk). apply elem_of_seq in Hk.
  rewrite ramp_up_spec by lia. apply Qabs_unit, ramp_up_bounds. lia.
Qed.

Lemma ramp_down_values n :
  Forall (fun c => Qabs c <= 1) (map (Np.linspace_at 1 0 n true) (seq 0 n)).
Proof.
  apply Forall_forall. intros c Hc.
  apply list_elem_of_fmap in Hc as (k & -> & Hk). apply elem_of_seq in Hk.
  rewrite ramp_down_spec by lia. apply Qabs_unit, ramp_down_bounds. lia.
Qed.

Lemma fade_in_step_attenuates fs a a' :
  fade_in_step fs a = Ok a' -> Forall2 (fun x y => Qabs y <= Qabs x) a a'.
Proof.
  unfold fade_in_step. destruct (Np.linspace 0 1 fs true) as [b|] eqn:Hb; [|done].
  intros Ha. eapply imul_slice_attenuates; [exact Ha |].
  pose proof (linspace_nonneg _ _ _ _ _ Hb). rewrite linspace_ok in Hb by done.
  injection Hb as <-. apply ramp_up_values.
Qed.

Lemma fade_out_step_attenuates fs a a' :
  fade_out_step fs a = Ok a' -> Forall2 (fun x y => Qabs y <= Qabs x) a a'.
Proof.
  unfold fade_out_step. destruct (Np.linspace 1 0 fs true) as [b|] eqn:Hb; [|done].
  intros Ha. eapply imul_slice_attenuates; [exact Ha |].
  pose proof (linspace_nonneg _ _ _ _ _ Hb). rewrite linspace_ok in Hb by done.
  injection Hb as <-. apply ramp_down_values.
Qed.

Lemma attenuates_trans (a b c : list Q) :
  Forall2 (fun x y => Qabs y <= Qabs x) a b ->
  Forall2 (fun x y => Qabs y <= Qabs x) b c ->
  Forall2 (fun x y => Qabs y <= Qabs x) a c.
Proof.
  intros H1. revert c. induction H1 as [|x y a b Hxy _ IH]; intros c H2.
  - by apply Forall2_nil_inv_l in H2 as ->.
  - apply Forall2_cons_inv_l in H2 as (z & c' & Hyz & H2 & ->).
    constructor; [lra | by apply IH].
Qed.

(** The factor of the fade in and of the fade out on one sample. *)
Lemma fade_in_step_at fs a a' i x :
  fade_in_step fs a = Ok a' -> (0 < fs)%Z -> (Z.to_nat fs <= length a)%nat ->
  a !! i = Some x ->
  exists y, a' !! i = Some y /\
            y == x * (if (i <? Z.to_nat fs)%nat then ramp_up (Z.to_nat fs) i else 1).
Proof.
  intros Ha Hfs Hlen Hx. destruct (Nat.ltb_spec i (Z.to_nat fs)) as [Hi|Hi].
  - unfold fade_in_step in Ha. rewrite linspace_ok in Ha by lia.
    destruct (head_slice fs (length a) ltac:(lia)) as [Hlo Hcnt].
    exists (x * Np.linspace_at 0 1 (Z.to_nat fs) true i). split.
    + eapply imul_slice_inside; [exact Ha | | lia | exact Hx |].
      * rewrite length_map, length_seq, Hcnt. lia.
      * rewrite Hlo, Nat.sub_0_r, list_lookup_fmap, lookup_seq_lt by lia. done.
    + by rewrite ramp_up_spec.
  - exists x. split; [|ring].
    by rewrite (fade_in_step_frame _ _ _ _ Ha Hi).
Qed.

Lemma fade_out_step_at fs a a' i x :
  fade_out_step fs a = Ok a' -> (0 < fs)%Z -> (Z.to_nat fs <= length a)%nat ->
  a !! i = Some x ->
  exists y, a' !! i = Some y /\
            y == x * (if (length a - Z.to_nat fs <=? i)%nat
                      then ramp_down (Z.to_nat fs) (i - (length a - Z.to_nat fs))
                      else 1).
Proof.
  intros Ha Hfs Hlen Hx. pose proof (lookup_lt_Some _ _ _ Hx) as Hlt.
  destruct (Nat.leb_spec (length a - Z.to_nat fs) i) as [Hi|Hi].
  - unfold fade_out_step in Ha. rewrite linspace_ok in Ha by lia.
    destruct (tail_slice fs (length a) Hfs) as [Hlo Hcnt].
    rewrite Nat.min_l in Hlo, Hcnt by lia.
    exists (x * Np.linspace_at 1 0 (Z.to_nat fs) true (i - (length a - Z.to_nat fs))).
    split.
    + eapply imul_slice_inside; [exact Ha | | lia | exact Hx |].
      * rewrite length_map, length_seq, Hcnt. lia.
      * rewrite Hlo, list_lookup_fmap, lookup_seq_lt by lia. done.
    + rewrite ramp_down_spec by lia. reflexivity.
  - exists x. split; [|ring].
    rewrite (fade_out_step_frame _ _ _ _ Ha) by lia. done.
Qed.

(** A fade of more samples than the buffer holds is refused, unless it
    is the fade of one sample on the empty buffer. *)
Lemma fade_in_step_too_long fs a :
  (length a < Z.to_nat fs)%nat -> fs <> 1%Z ->
  fade_in_step fs a = Raise ValueError.
Proof.
  intros Hlen Hne. unfold fade_in_step, Np.imul_slice. rewrite linspace_ok by lia.
  rewrite broadcast_to_refused; [done | |];
    rewrite length_map, length_seq, ?length_getslice.
  - destruct (head_slice fs (length a) ltac:(lia)) as [_ ->]. lia.
  - lia.
Qed.

(** What [apply_fade] does when it returns: both steps succeeded. *)
Lemma apply_fade_inv r fade_duration sample_rate m w r' m' :
  arrays m !! r = Some w ->
  apply_fade r fade_duration sample_rate m = (Ok r', m') ->
  exists a1 a2,
    fade_in_step (Py.int (fade_duration * sample_rate)) w = Ok a1 /\
    fade_out_step (Py.int (fade_duration * sample_rate)) a1 = Ok a2 /\
    r' = r /\ m' = put_array m r a2.
Proof.
  intros Hr. rewrite (apply_fade_run _ _ _ _ _ Hr).
  destruct (fade_in_step _ w) as [a1|] eqn:H1; [|done].
  destruct (fade_out_step _ a1) as [a2|] eqn:H2; [|done].
  intros [= <- <-]. by exists a1, a2.
Qed.

(** On a buffer that has a sample, [apply_fade] returns only with a
    positive count that fits in the buffer. *)
Lemma apply_fade_inv_count r fade_duration sample_rate m w r' m' :
  arrays m !! r = Some w -> w <> [] ->
  apply_fade r fade_duration sample_rate m = (Ok r', m') ->
  (0 < Py.int (fade_duration * sample_rate))%Z /\
  (Z.to_nat (Py.int (fade_duration * sample_rate)) <= length w)%nat.
Proof.
  intros Hr Hw Hrun. set (fs := Py.int (fade_duration * sample_rate)) in *.
  destruct (Z.lt_trichotomy fs 0) as [Hneg|[Hz|Hpos]].
  - rewrite (apply_fade_run _ _ _ _ _ Hr) in Hrun. fold fs in Hrun.
    unfold fade_in_step in Hrun. by rewrite linspace_negative in Hrun.
  - by rewrite (apply_fade_int_zero _ _ _ _ _ Hr Hw Hz) in Hrun.
  - split; [done |].
    destruct (Nat.le_gt_cases (Z.to_nat fs) (length w)) as [|Hlong]; [done |].
    rewrite (apply_fade_run _ _ _ _ _ Hr) in Hrun. fold fs in Hrun.
    destruct (decide (fs = 1%Z)) as [E|E].
    + destruct w; [done | simpl in Hlong; lia].
    + by rewrite fade_in_step_too_long in Hrun.
Qed.

End FadeLaws.

Section FadeExtras.

(** X1: when the count [n] of faded samples is positive and at most
    the length of the buffer, [apply_fade] returns the buffer, and every
    sample [i] has been multiplied by the value of the rising ramp at [i]
    (if [i < n]) and by the value of the falling ramp at [i - (len - n)]
    (if [len - n <= i]): linear ramps [k / (n - 1)] and [1 - k / (n - 1)],
    which multiply where the two regions overlap. *)
Theorem apply_fade_gain r fade_duration sample_rate m w :
  arrays m !! r = Some w ->
  let n := Z.to_nat (Py.int (fade_duration * sample_rate)) in
  (0 < n)%nat -> (n <= length w)%nat ->
  exists w',
    apply_fade r fade_duration sample_rate m = (Ok r, put_array m r w') /\
    length w' = length w /\
    forall i x, w !! i = Some x ->
                exists y, w' !! i = Some y /\ y == x * fade_gain n (length w) i.
Proof.
  intros Hr n Hn Hlen. set (fs := Py.int (fade_duration * sample_rate)) in *.
  destruct (fade_in_step_ok fs w ltac:(lia) Hlen) as [a1 H1].
  pose proof (fade_in_step_length _ _ _ H1) as Hl1.
  destruct (fade_out_step_ok fs a1 ltac:(lia) ltac:(lia)) as [a2 H2].
  pose proof (fade_out_step_length _ _ _ H2) as Hl2.
  exists a2. split; [|split; [lia |]].
  - rewrite (apply_fade_run _ _ _ _ _ Hr). fold fs. by rewrite H1, H2.
  - intros i x Hx.
    destruct (fade_in_step_at _ _ _ _ _ H1 ltac:(lia) Hlen Hx) as (y1 & Hy1 & E1).
    destruct (fade_out_step_at _ _ _ _ _ H2 ltac:(lia) ltac:(lia) Hy1) as (y2 & Hy2 & E2).
    exists y2. split; [done |]. rewrite E2, E1, Hl1. unfold fade_gain. fold n. ring.
Qed.

Lemma apply_fade_gain_witness :
  let m := fresh_machine [[1; 1; 1]] in
  exists w',
    apply_fade 0%nat (1 # 2) 4 m = (Ok 0%nat, put_array m 0%nat w') /\
    length w' = 3%nat /\
    forall i x, [1; 1; 1] !! i = Some x ->
                exists y, w' !! i = Some y /\ y == x * fade_gain 2 3 i.
Proof.
  intros m.
  apply (apply_fade_gain 0%nat (1 # 2) 4 m [1; 1; 1] eq_refl); vm_compute; lia.
Defined.

(** X2: a fade never makes a sample larger: whenever [apply_fade]
    returns, every sample of the buffer is in absolute value at most what
    it was. *)
Theorem apply_fade_attenuates r fade_duration sample_rate m w r' m' :
  arrays m !! r = Some w ->
  apply_fade r fade_duration sample_rate m = (Ok r', m') ->
  exists w',
    arrays m' !! r = Some w' /\ Forall2 (fun x y => Qabs y <= Qabs x) w w'.
Proof.
  intros Hr Hrun.
  destruct (apply_fade_inv _ _ _ _ _ _ _ Hr Hrun) as (a1 & a2 & H1 & H2 & -> & ->).
  exists a2. split; [by eapply lookup_put_array |].
  eapply attenuates_trans;
    [by eapply fade_in_step_attenuates | by eapply fade_out_step_attenuates].
Qed.

Lemma apply_fade_attenuates_witness :
  let m := fresh_machine [[1; - (2); 3; 4]] in
  exists w',
    arrays (snd (apply_fade 0%nat (1 # 2) 4 m)) !! 0%nat = Some w' /\
    Forall2 (fun x y => Qabs y <= Qabs x) [1; - (2); 3; 4] w'.
Proof.
  intros m.
  apply (apply_fade_attenuates 0%nat (1 # 2) 4 m [1; - (2); 3; 4] 0%nat
           (snd (apply_fade 0%nat (1 # 2) 4 m)) eq_refl).
  reflexivity.
Defined.

(** X3: the ends of a faded buffer.  Whenever [apply_fade] returns on a
    buffer that has a sample, the first sample is zero; the last sample is
    zero when at least two samples are faded; with a fade of one sample
    the ramp [np.linspace(1, 0, 1)] is [1] and the last sample of a longer
    buffer is as it was. *)
Theorem apply_fade_ends r fade_duration sample_rate m w r' m' :
  arrays m !! r = Some w -> w <> [] ->
  apply_fade r fade_duration sample_rate m = (Ok r', m') ->
  exists w',
    arrays m' !! r = Some w' /\
    is_zero_at w' 0 /\
    ((2 <= Py.int (fade_duration * sample_rate))%Z ->
     is_zero_at w' (length w - 1)) /\
    (Py.int (fade_duration * sample_rate) = 1%Z -> (2 <= length w)%nat ->
     exists x y, w !! (length w - 1)%nat = Some x /\
                 w' !! (length w - 1)%nat = Some y /\ y == x).
Proof.
  intros Hr Hw Hrun.
  destruct (apply_fade_inv_count _ _ _ _ _ _ _ Hr Hw Hrun) as [Hfs Hlen].
  destruct (apply_fade_inv _ _ _ _ _ _ _ Hr Hrun) as (a1 & a2 & H1 & H2 & -> & ->).
  set (fs := Py.int (fade_duration * sample_rate)) in *.
  pose proof (fade_in_step_length _ _ _ H1) as Hl1.
  assert (0 < length w)%nat as Hpos by (destruct w; [done | simpl; lia]).
  assert (forall i x, w !! i = Some x ->
            exists y, a2 !! i = Some y /\
                      y == x * fade_gain (Z.to_nat fs) (length w) i) as Hgain.
  { intros i x Hx.
    destruct (fade_in_step_at _ _ _ _ _ H1 Hfs Hlen Hx) as (y1 & Hy1 & E1).
    destruct (fade_out_step_at _ _ _ _ _ H2 Hfs ltac:(lia) Hy1) as (y2 & Hy2 & E2).
    exists y2. split; [done |]. rewrite E2, E1, Hl1. unfold fade_gain. ring. }
  destruct (lookup_lt_is_Some_2 w 0 Hpos) as [x0 Hx0].
  destruct (lookup_lt_is_Some_2 w (length w - 1) ltac:(lia)) as [xl Hxl].
  exists a2. split; [by eapply lookup_put_array |]. split; [|split].
  - destruct (Hgain _ _ Hx0) as (y & Hy & E). exists y. split; [done |].
    rewrite E. unfold fade_gain.
    destruct (Nat.ltb_spec 0 (Z.to_nat fs)); [|lia]. rewrite ramp_up_first. ring.
  - intros H2'. destruct (Hgain _ _ Hxl) as (y & Hy & E). exists y. split; [done |].
    rewrite E. unfold fade_gain.
    destruct (Nat.leb_spec (length w - Z.to_nat fs) (length w - 1)); [|lia].
    replace (length w - 1 - (length w - Z.to_nat fs))%nat with (Z.to_nat fs - 1)%nat
      by lia.
    unfold ramp_down. rewrite ramp_up_last by lia. ring.
  - intros H1' Hlong. destruct (Hgain _ _ Hxl) as (y & Hy & E).
    exists xl, y. split; [done |]. split; [done |].
    rewrite E. unfold fade_gain. rewrite H1'. change (Z.to_nat 1) with 1%nat.
    destruct (Nat.ltb_spec (length w - 1) 1); [lia |].
    destruct (Nat.leb_spec (length w - 1) (length w - 1)); [|lia].
    unfold ramp_down. rewrite ramp_up_one. ring.
Qed.

Lemma apply_fade_ends_witness :
  let m := fresh_machine [[1; 2; 3; 4]] in
  (exists w',
     arrays (snd (apply_fade 0%nat (1 # 2) 4 m)) !! 0%nat = Some w' /\
     is_zero_at w' 0 /\ is_zero_at w' 3) /\
  (exists w' y,
     arrays (snd (apply_fade 0%nat (1 # 4) 4 m)) !! 0%nat = Some w' /\
     is_zero_at w' 0 /\ w' !! 3%nat = Some y /\ y == 4).
Proof.
  intros m. split.
  - destruct (apply_fade_ends 0%nat (1 # 2) 4 m [1; 2; 3; 4] 0%nat
                (snd (apply_fade 0%nat (1 # 2) 4 m)) eq_refl ltac:(done) eq_refl)
      as (w' & Hw' & H0 & Hl & _).
    exists w'. split; [done |]. split; [done |]. apply Hl. by vm_compute.
  - destruct (apply_fade_ends 0%nat (1 # 4) 4 m [1; 2; 3; 4] 0%nat
                (snd (apply_fade 0%nat (1 # 4) 4 m)) eq_refl ltac:(done) eq_refl)
      as (w' & Hw' & H0 & _ & Hone).
    destruct (Hone eq_refl ltac:(simpl; lia)) as (x & y & Hx & Hy & E).
    injection Hx as <-. by exists w', y.
Defined.

(** X4: when [apply_fade] returns and when it raises.  With
    [fade_samples = int(fade_duration * sample_rate)], the call returns
    the buffer exactly when [0 < fade_samples <= len], or when the buffer
    is empty and [fade_samples] is 0 or 1; in every other case (negative
    count, count of zero on a buffer with a sample, count above the
    length) it raises [ValueError] and the store is as it was. *)
Theorem apply_fade_outcomes r fade_duration sample_rate m w :
  arrays m !! r = Some w ->
  let fade_samples := Py.int (fade_duration * sample_rate) in
  let fits := ((0 < fade_samples)%Z /\ (fade_samples <= Z.of_nat (length w))%Z)
              \/ (w = [] /\ (0 <= fade_samples <= 1)%Z) in
  (fits -> fst (apply_fade r fade_duration sample_rate m) = Ok r) /\
  (~ fits -> apply_fade r fade_duration sample_rate m = (Raise ValueError, m)).
Proof.
  intros Hr fs fits. split.
  - intros [[Hpos Hlen]|[-> Hfs]].
    + apply (apply_fade_returns _ _ _ _ _ Hr); fold fs; lia.
    + rewrite (apply_fade_run _ _ _ _ _ Hr). fold fs.
      assert (fs = 0 \/ fs = 1)%Z as [->| ->] by lia; reflexivity.
  - intros Hno. destruct (Z.lt_trichotomy fs 0) as [Hneg|[Hz|Hpos]].
    + rewrite (apply_fade_run _ _ _ _ _ Hr). fold fs.
      unfold fade_in_step. by rewrite linspace_negative.
    + apply (apply_fade_int_zero _ _ _ _ _ Hr); [|done].
      intros ->. apply Hno. right. split; [done | lia].
    + rewrite (apply_fade_run _ _ _ _ _ Hr). fold fs.
      rewrite fade_in_step_too_long; [done | |].
      * destruct (Nat.le_gt_cases (Z.to_nat fs) (length w)); [|done].
        exfalso. apply Hno. left. lia.
      * intros E. apply Hno. destruct w as [|x w]; [right; split; [done | lia] |].
        left. simpl. lia.
Qed.

Lemma apply_fade_outcomes_witness :
  let m := fresh_machine [[1; 2; 3]; []] in
  fst (apply_fade 0%nat (1 # 2) 4 m) = Ok 0%nat /\
  fst (apply_fade 1%nat (1 # 4) 4 m) = Ok 1%nat /\
  apply_fade 0%nat 1 4 m = (Raise ValueError, m) /\
  apply_fade 0%nat (- (1)) 4 m = (Raise ValueError, m).
Proof.
  intros m.
  destruct (apply_fade_outcomes 0%nat (1 # 2) 4 m [1; 2; 3] eq_refl) as [H1 _].
  destruct (apply_fade_outcomes 1%nat (1 # 4) 4 m [] eq_refl) as [H2 _].
  destruct (apply_fade_outcomes 0%nat 1 4 m [1; 2; 3] eq_refl) as [_ H3].
  destruct (apply_fade_outcomes 0%nat (- (1)) 4 m [1; 2; 3] eq_refl) as [_ H4].
  split; [apply H1; left; by vm_compute |].
  split; [apply H2; right; by vm_compute |].
  split; [apply H3 | apply H4]; vm_compute; intros [[? ?]|[? ?]]; done.
Defined.

End FadeExtras.

(** ** More on the envelope *)

Section EnvelopeLaws.
Implicit Types (e w : list Q) (i : nat) (n : Z).

(** The value of the envelope after the attack ramp was written. *)
Lemma attack_step_at n e e' i x :
  attack_step n e = Ok e' -> (Z.to_nat n <= length e)%nat -> e !! i = Some x ->
  exists y, e' !! i = Some y /\
            y == (if (i <? Z.to_nat n)%nat then ramp_up (Z.to_nat n) i else x).
Proof.
  intros He Hlen Hx. unfold attack_step in He.
  destruct (Z.ltb_spec 0 n) as [Hn|Hn].
  - rewrite linspace_ok in He by lia.
    destruct (head_slice n (length e) ltac:(lia)) as [Hlo Hcnt].
    rewrite Nat.min_l in Hcnt by lia.
    rewrite assign_slice_same in He by (by rewrite length_map, length_seq, Hcnt).
    injection He as <-.
    destruct (Nat.ltb_spec i (Z.to_nat n)) as [Hi|Hi].
    + exists (Np.linspace_at 0 1 (Z.to_nat n) true i). split; [|by apply ramp_up_spec].
      rewrite lookup_putslice_inside by (rewrite length_map, length_seq, Hlo; lia).
      rewrite Hlo, Nat.sub_0_r, list_lookup_fmap, lookup_seq_lt by lia. done.
    + exists x. split; [|reflexivity].
      rewrite lookup_putslice_after; [done | by rewrite length_map, length_seq, Hcnt |].
      rewrite Hlo, Hcnt. lia.
  - injection He as <-. replace (Z.to_nat n) with 0%nat by lia.
    exists x. split; [done | reflexivity].
Qed.

(** The value of the envelope after the release ramp was written. *)
Lemma release_step_at n e e' i x :
  release_step n e = Ok e' -> (Z.to_nat n <= length e)%nat -> e !! i = Some x ->
  exists y, e' !! i = Some y /\
            y == (if (0 <? Z.to_nat n)%nat && (length e - Z.to_nat n <=? i)%nat
                  then ramp_down (Z.to_nat n) (i - (length e - Z.to_nat n))
                  else x).
Proof.
  intros He Hlen Hx. unfold release_step in He.
  pose proof (lookup_lt_Some _ _ _ Hx) as Hlt.
  destruct (Z.ltb_spec 0 n) as [Hn|Hn].
  - rewrite linspace_ok in He by lia.
    destruct (tail_slice n (length e) Hn) as [Hlo Hcnt].
    rewrite Nat.min_l in Hlo, Hcnt by lia.
    rewrite assign_slice_same in He by (by rewrite length_map, length_seq, Hcnt).
    injection He as <-.
    destruct (Nat.ltb_spec 0 (Z.to_nat n)) as [_|]; [|lia]. cbn [andb].
    destruct (Nat.leb_spec (length e - Z.to_nat n) i) as [Hi|Hi].
    + exists (Np.linspace_at 1 0 (Z.to_nat n) true (i - (length e - Z.to_nat n))).
      split; [|apply ramp_down_spec; lia].
      rewrite lookup_putslice_inside by (rewrite length_map, length_seq, Hlo; lia).
      rewrite Hlo, list_lookup_fmap, lookup_seq_lt by lia. done.
    + exists x. split; [|reflexivity]. by rewrite lookup_putslice_before by lia.
  - injection He as <-. replace (Z.to_nat n) with 0%nat by lia.
    exists x. split; [done | reflexivity].
Qed.

(** A ramp of more samples than the envelope holds is refused, unless it
    is the ramp of one sample on the empty envelope. *)
Lemma attack_step_too_long n e :
  (length e < Z.to_nat n)%nat -> n <> 1%Z -> attack_step n e = Raise ValueError.
Proof.
  intros Hlen Hne. unfold attack_step, Np.assign_slice.
  destruct (Z.ltb_spec 0 n); [|lia]. rewrite linspace_ok by lia.
  rewrite broadcast_to_refused; [done | |];
    rewrite length_map, length_seq, ?length_getslice.
  - destruct (head_slice n (length e) ltac:(lia)) as [_ ->]. lia.
  - lia.
Qed.

Lemma release_step_too_long n e :
  (length e < Z.to_nat n)%nat -> n <> 1%Z -> release_step n e = Raise ValueError.
Proof.
  intros Hlen Hne. unfold release_step, Np.assign_slice.
  destruct (Z.ltb_spec 0 n) as [Hn|]; [|lia]. rewrite linspace_ok by lia.
  rewrite broadcast_to_refused; [done | |];
    rewrite length_map, length_seq, ?length_getslice.
  - destruct (tail_slice n (length e) Hn) as [_ ->]. lia.
  - lia.
Qed.

Lemma envelope_gain_bounds (attack_n release_n len i : nat) :
  (attack_n <= len)%nat -> (release_n <= len)%nat -> (i < len)%nat ->
  0 <= envelope_gain attack_n release_n len i <= 1.
Proof.
  intros Ha Hr Hi. unfold envelope_gain.
  destruct (Nat.ltb_spec 0 release_n); cbn [andb].
  - destruct (Nat.leb_spec (len - release_n) i); cbn [andb].
    + apply ramp_down_bounds. lia.
    + destruct (Nat.ltb_spec 0 attack_n); cbn [andb]; [|lra].
      destruct (Nat.ltb_spec i attack_n); [by apply ramp_up_bounds | lra].
  - destruct (Nat.ltb_spec 0 attack_n); cbn [andb]; [|lra].
    destruct (Nat.ltb_spec i attack_n); [by apply ramp_up_bounds | lra].
Qed.

Lemma lookup_ones_like w i x : w !! i = Some x -> Np.ones_like w !! i = Some 1.
Proof.
  intros Hx. unfold Np.ones_like. apply lookup_replicate_2. by eapply lookup_lt_Some.
Qed.

Lemma length_ones_like w : length (Np.ones_like w) = length w.
Proof. unfold Np.ones_like. apply length_replicate. Qed.

End EnvelopeLaws.

Section EnvelopeExtras.

(** X5: when the attack and release counts (the integer parts of
    [attack * sample_rate] and [release * sample_rate], a count that is not
    positive standing for no ramp) are at most the length of the buffer,
    [apply_envelope] returns a new buffer of the same length whose sample
    [i] is the input sample times a factor of [0, 1]: the falling ramp on
    the last [release] samples, else the rising ramp on the first [attack]
    samples, else 1.  Where the two regions overlap the release ramp
    replaces the attack ramp; the two do not multiply as the ramps of
    [apply_fade] do. *)
Theorem apply_envelope_gain r attack release sample_rate m w :
  arrays m !! r = Some w ->
  let attack_n := Z.to_nat (Py.int (attack * sample_rate)) in
  let release_n := Z.to_nat (Py.int (release * sample_rate)) in
  (attack_n <= length w)%nat -> (release_n <= length w)%nat ->
  exists e v,
    apply_envelope r attack release sample_rate m =
      (Ok (S (length (arrays m))), push_array (push_array m e) v) /\
    length v = length w /\
    forall i x, w !! i = Some x ->
      exists y, v !! i = Some y /\
                y == x * envelope_gain attack_n release_n (length w) i /\
                0 <= envelope_gain attack_n release_n (length w) i <= 1.
Proof.
  intros Hr attack_n release_n Ha Hrl.
  rewrite (apply_envelope_run _ _ _ _ _ _ Hr).
  destruct (attack_step_ok (Py.int (attack * sample_rate)) (Np.ones_like w))
    as [e1 H1]; [by rewrite length_ones_like |].
  pose proof (attack_step_length _ _ _ H1) as Hl1. rewrite length_ones_like in Hl1.
  destruct (release_step_ok (Py.int (release * sample_rate)) e1 ltac:(lia))
    as [e2 H2].
  pose proof (release_step_length _ _ _ H2) as Hl2.
  rewrite H1, H2. exists e2, (zip_with Qmult w e2).
  split; [done |]. split; [rewrite length_zip_with; lia |].
  intros i x Hx. pose proof (lookup_lt_Some _ _ _ Hx) as Hi.
  destruct (attack_step_at _ _ _ _ _ H1 ltac:(by rewrite length_ones_like)
              (lookup_ones_like _ _ _ Hx)) as (y1 & Hy1 & E1).
  destruct (release_step_at _ _ _ _ _ H2 ltac:(lia) Hy1) as (y2 & Hy2 & E2).
  exists (x * y2). split; [by rewrite lookup_zip_with, Hx, Hy2 |].
  split; [|by apply envelope_gain_bounds].
  rewrite E2, Hl1. unfold envelope_gain. fold attack_n release_n.
  destruct ((0 <? release_n)%nat && (length w - release_n <=? i)%nat); [reflexivity |].
  rewrite E1. fold attack_n.
  destruct (Nat.ltb_spec 0 attack_n); cbn [andb]; [reflexivity |].
  destruct (Nat.ltb_spec i attack_n); [lia | reflexivity].
Qed.

Lemma apply_envelope_gain_witness :
  let m := fresh_machine [[2; 2; 2; 2]] in
  exists e v,
    apply_envelope 0%nat (3 # 4) (3 # 4) 4 m =
      (Ok 2%nat, push_array (push_array m e) v) /\
    length v = 4%nat /\
    forall i x, [2; 2; 2; 2] !! i = Some x ->
      exists y, v !! i = Some y /\ y == x * envelope_gain 3 3 4 i /\
                0 <= envelope_gain 3 3 4 i <= 1.
Proof.
  intros m.
  apply (apply_envelope_gain 0%nat (3 # 4) (3 # 4) 4 m [2; 2; 2; 2] eq_refl);
    vm_compute; lia.
Defined.

(** X6: when [apply_envelope] returns and when it raises.  A count
    fits when it is at most the length of the buffer, or is 1; a count
    that is zero or negative always fits, since its ramp is skipped.  The
    call returns a new buffer exactly when both counts fit, and raises
    [ValueError] otherwise. *)
Theorem apply_envelope_outcomes r attack release sample_rate m w :
  arrays m !! r = Some w ->
  let fits := fun n : Z => (n <= Z.of_nat (length w))%Z \/ n = 1%Z in
  let attack_samples := Py.int (attack * sample_rate) in
  let release_samples := Py.int (release * sample_rate) in
  (fits attack_samples /\ fits release_samples ->
   fst (apply_envelope r attack release sample_rate m) = Ok (S (length (arrays m)))) /\
  (~ (fits attack_samples /\ fits release_samples) ->
   fst (apply_envelope r attack release sample_rate m) = Raise ValueError).
Proof.
  intros Hr fits a rl. rewrite (apply_envelope_run _ _ _ _ _ _ Hr). fold a rl.
  split.
  - intros [Ha Hrl].
    assert (exists e1, attack_step a (Np.ones_like w) = Ok e1) as [e1 H1].
    { destruct Ha as [Ha|Ha].
      - apply attack_step_ok. rewrite length_ones_like. lia.
      - rewrite Ha. destruct w as [|x w]; [by exists [] |].
        apply attack_step_ok. rewrite length_ones_like. simpl. lia. }
    pose proof (attack_step_length _ _ _ H1) as Hl1. rewrite length_ones_like in Hl1.
    assert (exists e2, release_step rl e1 = Ok e2) as [e2 H2].
    { destruct Hrl as [Hrl|Hrl].
      - apply release_step_ok. lia.
      - rewrite Hrl. destruct e1 as [|x e1]; [by exists [] |].
        apply release_step_ok. simpl. lia. }
    by rewrite H1, H2.
  - intros Hno.
    assert (fits a \/ ~ fits a) as [Ha|Ha].
    { unfold fits. destruct (Z.le_gt_cases a (Z.of_nat (length w))); [by left; left |].
      destruct (decide (a = 1%Z)); [by left; right | right; intros [?|?]; lia]. }
    + assert (exists e1, attack_step a (Np.ones_like w) = Ok e1) as [e1 H1].
      { destruct Ha as [Ha|Ha].
        - apply attack_step_ok. rewrite length_ones_like. lia.
        - rewrite Ha. destruct w as [|x w]; [by exists [] |].
          apply attack_step_ok. rewrite length_ones_like. simpl. lia. }
      pose proof (attack_step_length _ _ _ H1) as Hl1. rewrite length_ones_like in Hl1.
      rewrite H1, release_step_too_long; [done | |].
      * destruct (Nat.le_gt_cases (Z.to_nat rl) (length e1)); [|done].
        exfalso. apply Hno. split; [done |]. left. lia.
      * intros E. apply Hno. split; [done |]. by right.
    + rewrite attack_step_too_long; [done | |].
      * rewrite length_ones_like.
        destruct (Nat.le_gt_cases (Z.to_nat a) (length w)); [|done].
        exfalso. apply Ha. left. lia.
      * intros E. apply Ha. by right.
Qed.

Lemma apply_envelope_outcomes_witness :
  let m := fresh_machine [[1; 2; 3]] in
  fst (apply_envelope 0%nat (1 # 2) (- (1)) 4 m) = Ok 2%nat /\
  fst (apply_envelope 0%nat 1 (1 # 2) 4 m) = Raise ValueError.
Proof.
  intros m.
  destruct (apply_envelope_outcomes 0%nat (1 # 2) (- (1)) 4 m [1; 2; 3] eq_refl)
    as [H1 _].
  destruct (apply_envelope_outcomes 0%nat 1 (1 # 2) 4 m [1; 2; 3] eq_refl)
    as [_ H2].
  split.
  - apply H1. split; left; by vm_compute.
  - apply H2. vm_compute. intros [[?|?] _]; done.
Defined.

End EnvelopeExtras.

(** ** More on the mix *)

Section MixLaws.
Implicit Types (acc w : list Q) (bufs : list (list Q)) (gains : list Q) (i n : nat).

Lemma weighted_sum_take gains bufs i :
  weighted_sum gains bufs i =
  weighted_sum (take (length bufs) gains) (take (length gains) bufs) i.
Proof.
  revert bufs. induction gains as [|g gains IH]; intros [|b bufs]; try done.
  simpl. by rewrite <- IH.
Qed.

Lemma zip_surplus {A B} (l : list A) (k more : list B) :
  length k = length l -> zip l (k ++ more) = zip l k.
Proof.
  revert k. induction l as [|x l IH]; intros [|y k] Hlen; try done.
  simpl. f_equal. apply IH. simpl in Hlen. lia.
Qed.









End MixLaws.

Section MixExtras.

(** X7: [mix_waveforms] pairs voices and gains with [zip], so a list
    of gains of another length than the list of voices is not an error.
    On voices of one length the sample [i] of the mix is the weighted sum
    over the pairs only: gains beyond the last voice change nothing, a
    voice beyond the last gain is left out of the mix, and with an empty
    list of gains the mix is silence. *)
Theorem mix_waveforms_zip m refs bufs n gains :
  refs <> [] ->
  Forall2 (fun r b => arrays m !! r = Some b) refs bufs ->
  Forall (fun b => length b = n) bufs ->
  exists v,
    mix_waveforms refs (Some gains) m = (Ok (length (arrays m)), push_array m v) /\
    length v = n /\
    (forall i, (i < n)%nat ->
       nth i v 0 == weighted_sum (take (length refs) gains)
                                 (take (length gains) bufs) i) /\
    (length refs <= length gains ->
     mix_waveforms refs (Some (take (length refs) gains)) m =
     mix_waveforms refs (Some gains) m)%nat /\
    (gains = [] -> v = replicate n 0).
Proof.
  intros Hne Hrefs Hall.
  exists (mix_value (replicate n 0) (zip bufs gains)).
  assert (Forall (fun b => length b = length (replicate n 0)) bufs) as Hall'
    by (by rewrite length_replicate).
  pose proof (Forall2_length _ _ _ Hrefs) as Hlen.
  split; [by apply (mix_waveforms_run m refs bufs n (Some gains) gains) |].
  split; [by rewrite length_mix_value, length_replicate |].
  split; [|split].
  - intros i Hi.
    rewrite mix_value_nth by (rewrite ?length_replicate; done).
    rewrite nth_zeros, Hlen, <- weighted_sum_take. ring.
  - intros Hlong.
    rewrite (mix_waveforms_run m refs bufs n (Some gains) gains) by done.
    rewrite (mix_waveforms_run m refs bufs n (Some (take (length refs) gains))
               (take (length refs) gains)) by done.
    rewrite <- (take_drop (length refs) gains) at 2.
    rewrite zip_surplus; [done |]. rewrite length_take. lia.
  - intros ->. by destruct bufs.
Qed.

Lemma mix_waveforms_zip_witness :
  let m := fresh_machine [[1; 2]; [3; 4]] in
  (exists v,
     mix_waveforms [0; 1]%nat (Some [2]) m = (Ok 2%nat, push_array m v) /\
     length v = 2%nat /\
     (forall i, (i < 2)%nat -> nth i v 0 == weighted_sum [2] [[1; 2]] i)) /\
  mix_waveforms [0; 1]%nat (Some [2; 3]) m =
  mix_waveforms [0; 1]%nat (Some [2; 3; 5]) m /\
  mix_waveforms [0; 1]%nat (Some []) m = (Ok 2%nat, push_array m [0; 0]).
Proof.
  intros m.
  assert (Forall2 (fun r b => arrays m !! r = Some b) [0; 1]%nat [[1; 2]; [3; 4]])
    as H2 by (by repeat constructor).
  assert (Forall (fun b : list Q => length b = 2%nat) [[1; 2]; [3; 4]]) as H1
    by (by repeat constructor).
  split; [|split].
  - destruct (mix_waveforms_zip m [0; 1]%nat [[1; 2]; [3; 4]] 2 [2] ltac:(done) H2 H1)
      as (v & Hrun & Hlen & Hsum & _).
    by exists v.
  - destruct (mix_waveforms_zip m [0; 1]%nat [[1; 2]; [3; 4]] 2 [2; 3; 5]
                ltac:(done) H2 H1) as (v & _ & _ & _ & Hsurplus & _).
    apply Hsurplus. simpl. lia.
  - destruct (mix_waveforms_zip m [0; 1]%nat [[1; 2]; [3; 4]] 2 [] ltac:(done) H2 H1)
      as (v & Hrun & _ & _ & _ & Hnone).
    by rewrite Hrun, (Hnone eq_refl).
Defined.





End MixExtras.

(** ** More on the normalisation *)

Section NormalizeLaws.
Implicit Types (w v : list Q) (x p : Q).

Lemma abs_nonempty w : w <> [] -> Np.abs w <> [].
Proof. by destruct w. Qed.

Lemma peak_upper w p x : Np.max (Np.abs w) = Ok p -> x ∈ w -> Qabs x <= p.
Proof.
  intros Hp Hx. apply (max_upper _ _ _ Hp). unfold Np.abs.
  apply in_map. by apply list_elem_of_In.
Qed.

Lemma Qabs_scaled x p headroom :
  0 < p -> Qabs (x / p * headroom) == Qabs x / p * Qabs headroom.
Proof.
  intros Hp. rewrite Qabs_Qmult. unfold Qdiv. rewrite Qabs_Qmult, Qabs_Qinv.
  by rewrite (Qabs_pos p) by lra.
Qed.

(** A buffer divided by its peak and multiplied by the headroom is
    within the headroom. *)
Lemma scaled_bounded w p headroom :
  Np.max (Np.abs w) = Ok p -> 0 < p ->
  bounded_by (Qabs headroom) (map (fun x => x / p * headroom) w).
Proof.
  intros Hp Hpos. apply Forall_fmap, Forall_forall. intros x Hx.
  change (Qabs (x / p * headroom) <= Qabs headroom).
  rewrite Qabs_scaled by done.
  pose proof (peak_upper _ _ _ Hp Hx) as Hle.
  pose proof (Qabs_nonneg headroom).
  assert (Qabs x / p <= 1) as H1 by (apply Qle_shift_div_r; [done | lra]).
  assert (Qabs x / p * Qabs headroom <= 1 * Qabs headroom) as H2
    by (by apply Qmult_le_compat_r).
  lra.
Qed.

(** A buffer whose peak is not positive is within any bound. *)
Lemma silent_bounded w p B :
  Np.max (Np.abs w) = Ok p -> p <= 0 -> 0 <= B -> bounded_by B w.
Proof.
  intros Hp Hle HB. apply Forall_forall. intros x Hx.
  pose proof (peak_upper _ _ _ Hp Hx). lra.
Qed.

Lemma bounded_fits_int16 B w : B <= 1 -> bounded_by B w -> Forall fits_int16 w.
Proof.
  intros HB Hb. eapply Forall_impl; [exact Hb |].
  intros x Hx. simpl in Hx. unfold fits_int16, MAX_AMP.
  assert (- (1) <= x <= 1) as [Hlo Hhi].
  { destruct (Qlt_le_dec x 0) as [Hn|Hn].
    - rewrite Qabs_neg in Hx by lra. lra.
    - rewrite Qabs_pos in Hx by lra. lra. }
  lra.
Qed.

(** What [normalize_audio] returns on a buffer that has a sample. *)
Lemma normalize_audio_cases r headroom m w :
  arrays m !! r = Some w -> w <> [] ->
  exists p,
    Np.max (Np.abs w) = Ok p /\
    ((0 < p /\
      normalize_audio r headroom m =
        (Ok (length (arrays m)),
         push_array m (map (fun x => x / p * headroom) w))) \/
     (p <= 0 /\ normalize_audio r headroom m = (Ok r, m))).
Proof.
  intros Hr Hw. destruct (max_ok (Np.abs w) (abs_nonempty _ Hw)) as [p Hp].
  exists p. split; [done |]. rewrite (normalize_audio_run _ _ _ _ Hr), Hp.
  destruct (Qltb 0 p) eqn:E.
  - left. by apply Qltb_lt in E.
  - right. by apply Qltb_ge in E.
Qed.

End NormalizeLaws.

Section NormalizeExtras.

(** X10: on a buffer that has a sample, [normalize_audio] returns a
    buffer of the same length that is within the headroom: every sample
    is at most [|headroom|] in absolute value.  With a headroom of at most
    1 in absolute value every sample of the result, once scaled by
    [MAX_AMP], fits a signed 16-bit integer.  The result is the input
    scaled by one factor, and the input buffer keeps its samples. *)
Theorem normalize_audio_bounded r headroom m w :
  arrays m !! r = Some w -> w <> [] ->
  exists r' m' v c,
    normalize_audio r headroom m = (Ok r', m') /\
    arrays m' !! r' = Some v /\
    arrays m' !! r = Some w /\
    length v = length w /\
    bounded_by (Qabs headroom) v /\
    (Qabs headroom <= 1 -> Forall fits_int16 v) /\
    Forall2 (fun x y => y == x * c) w v.
Proof.
  intros Hr Hw.
  destruct (normalize_audio_cases r headroom m w Hr Hw)
    as (p & Hp & [[Hpos Hrun]|[Hle Hrun]]).
  - exists (length (arrays m)), (push_array m (map (fun x => x / p * headroom) w)),
      (map (fun x => x / p * headroom) w), (headroom / p).
    pose proof (scaled_bounded _ _ headroom Hp Hpos) as Hb.
    split; [done |]. split; [apply lookup_push |].
    split; [by apply lookup_push_old |]. split; [by rewrite length_map |].
    split; [done |]. split; [intros H1; by eapply bounded_fits_int16 |].
    apply Forall2_fmap_r, Forall_Forall2_diag, Forall_forall. intros x _.
    unfold compose. cbv beta. field. lra.
  - exists r, m, w, 1.
    pose proof (silent_bounded _ _ _ Hp Hle (Qabs_nonneg headroom)) as Hb.
    split; [done |]. split; [done |]. split; [done |]. split; [done |].
    split; [done |]. split; [intros H1; by eapply bounded_fits_int16 |].
    apply Forall_Forall2_diag, Forall_forall. intros x _. ring.
Qed.

Lemma normalize_audio_bounded_witness :
  let m := fresh_machine [[1 # 4; - (2); 1]] in
  exists r' m' v c,
    normalize_audio 0%nat (7 # 10) m = (Ok r', m') /\
    arrays m' !! r' = Some v /\
    arrays m' !! 0%nat = Some [1 # 4; - (2); 1] /\
    length v = 3%nat /\
    bounded_by (Qabs (7 # 10)) v /\
    (Qabs (7 # 10) <= 1 -> Forall fits_int16 v) /\
    Forall2 (fun x y => y == x * c) [1 # 4; - (2); 1] v.
Proof.
  intros m.
  apply (normalize_audio_bounded 0%nat (7 # 10) m [1 # 4; - (2); 1] eq_refl).
  done.
Defined.



End NormalizeExtras.

(** ** More on the serialisation *)

Section SerialisationLaws.

Lemma int_opp q : Py.int (- q) = (- Py.int q)%Z.
Proof. destruct q as [n d]. unfold Py.int. simpl. apply Z.quot_opp_l. lia. Qed.

(** [int()] drops the fraction: it never moves away from zero. *)
Lemma int_abs_le q : inject_Z (Z.abs (Py.int q)) <= Qabs q.
Proof.
  assert (forall p, 0 <= p -> inject_Z (Z.abs (Py.int p)) <= p) as Hpos.
  { intros p Hp. rewrite int_nonneg by done.
    assert (Qfloor 0 <= Qfloor p)%Z as H0 by (by apply Qfloor_resp_le).
    change (Qfloor 0) with 0%Z in H0. rewrite Z.abs_eq by done. apply Qfloor_le. }
  destruct (Qlt_le_dec q 0) as [Hn|Hn].
  - rewrite Qabs_neg by lra. rewrite <- (Z.abs_opp (Py.int q)), <- int_opp.
    apply Hpos. lra.
  - rewrite Qabs_pos by done. by apply Hpos.
Qed.



(** What a decoder reads back from samples that fit 16 bits. *)
Lemma decode_saved v :
  Forall fits_int16 v ->
  decode_int16 (Np.tobytes (Np.astype_int16 (map (fun x => x * MAX_AMP) v))) =
  map (fun x => Py.int (x * 32767)) v.
Proof.
  intros Hfit. rewrite decode_tobytes by apply astype_int16_range.
  unfold Np.astype_int16. rewrite map_map.
  apply map_ext_Forall. eapply Forall_impl; [exact Hfit |].
  intros x Hx. by apply cast_int16_in_range.
Qed.


Lemma writable_name_parts filename :
  writable_name filename = true ->
  Py.has_dirname filename = true /\ Py.names_directory filename = false.
Proof.
  unfold writable_name. intros H.
  apply andb_prop in H as [H Hfile]. apply andb_prop in H as [_ Hdir].
  by apply negb_true_iff in Hfile.
Qed.

End SerialisationLaws.

Section SerialisationExtras.



(** X13: a normalised buffer is written without wrap-around.  For a
    buffer that has a sample (and is short enough for the header), a
    headroom of at most 1 in absolute value and a name that can be written
    to, [save_wav(normalize_audio(w, headroom), filename)] writes, at the
    rate of 48000, a file from which a 16-bit decoder reads, for every
    sample [x] of the normalised buffer, the integer part of [x * 32767];
    every such integer is at most [|headroom| * 32767] in absolute value,
    hence within [-32767, 32767]. *)
Theorem normalize_then_save r headroom filename m w :
  arrays m !! r = Some w -> w <> [] ->
  Qabs headroom <= 1 ->
  writable_name filename = true ->
  (2 * Z.of_nat (length w) + 36 < 4294967296)%Z ->
  exists m' f r' v,
    (r' <- normalize_audio r headroom ;; save_wav r' filename SAMPLE_RATE) m
      = (Ok tt, m') /\
    files m' !! filename = Some f /\
    fst (normalize_audio r headroom m) = Ok r' /\
    arrays m' !! r' = Some v /\
    decode_int16 (frames f) = map (fun x => Py.int (x * 32767)) v /\
    Forall (fun z => inject_Z (Z.abs z) <= Qabs headroom * 32767 /\
                     (-32767 <= z <= 32767)%Z)
      (decode_int16 (frames f)).
Proof.
  intros Hr Hw Hh Hname Hsize. apply writable_name_parts in Hname as [Hdir Hname].
  assert (exists r' m1 v,
            normalize_audio r headroom m = (Ok r', m1) /\
            arrays m1 !! r' = Some v /\ length v = length w /\
            bounded_by (Qabs headroom) v)
    as (r' & m1 & v & Hrun & Hv & Hlen & Hb).
  { destruct (normalize_audio_cases r headroom m w Hr Hw)
      as (p & Hp & [[Hpos Hrun]|[Hle Hrun]]).
    - eexists _, _, _. split; [exact Hrun |]. split; [apply lookup_push |].
      split; [by rewrite length_map | by apply scaled_bounded].
    - exists r, m, w. split; [done |]. split; [done |]. split; [done |].
      eapply silent_bounded; [exact Hp | done | apply Qabs_nonneg]. }
  rewrite (bind_ok _ _ _ _ _ Hrun), Hrun.
  rewrite (save_wav_run _ _ _ _ _ Hv Hdir Hname)
    by (done || (rewrite Hlen; exact Hsize)).
  eexists _, _, r', v. split; [reflexivity |].
  split; [apply lookup_insert_eq |]. split; [done |]. split; [done |].
  cbn [frames].
  rewrite decode_saved by (by eapply bounded_fits_int16).
  split; [done |]. apply Forall_fmap.
  eapply Forall_impl; [exact Hb |]. intros x Hx. unfold compose. cbv beta in *.
  assert (inject_Z (Z.abs (Py.int (x * 32767))) <= Qabs headroom * 32767) as Hz.
  { eapply Qle_trans; [apply int_abs_le |].
    rewrite Qabs_Qmult. change (Qabs 32767) with 32767.
    apply Qmult_le_compat_r; [done | lra]. }
  split; [done |].
  assert (inject_Z (Z.abs (Py.int (x * 32767))) <= inject_Z 32767) as Hz'.
  { change (inject_Z 32767) with 32767. lra. }
  rewrite <- Zle_Qle in Hz'. lia.
Qed.

Lemma normalize_then_save_witness :
  let m := fresh_machine [[1 # 4; - (2); 1]] in
  exists m' f r' v,
    (r' <- normalize_audio 0%nat (7 # 10) ;; save_wav r' "loops/a.wav" SAMPLE_RATE) m
      = (Ok tt, m') /\
    files m' !! ("loops/a.wav")%string = Some f /\
    fst (normalize_audio 0%nat (7 # 10) m) = Ok r' /\
    arrays m' !! r' = Some v /\
    decode_int16 (frames f) = map (fun x => Py.int (x * 32767)) v /\
    Forall (fun z => inject_Z (Z.abs z) <= Qabs (7 # 10) * 32767 /\
                     (-32767 <= z <= 32767)%Z)
      (decode_int16 (frames f)).
Proof.
  intros m.
  apply (normalize_then_save 0%nat (7 # 10) "loops/a.wav" m
           [1 # 4; - (2); 1] eq_refl); [done | | done | done]; by vm_compute.
Defined.

End SerialisationExtras.

(** ** More on the oscillators *)

Section OscillatorExtras.
Variables (np_sin np_arcsin : Q -> Q) (np_pi : Q).

Lemma int_small q : - (1) < q < 1 -> Py.int q = 0%Z.
Proof.
  assert (forall p, 0 <= p < 1 -> Py.int p = 0%Z) as Hpos.
  { intros p [H0 H1]. rewrite int_nonneg by done.
    assert (Qfloor 0 <= Qfloor p)%Z as Hlo by (by apply Qfloor_resp_le).
    change (Qfloor 0) with 0%Z in Hlo.
    assert (inject_Z (Qfloor p) < inject_Z 1) as Hhi.
    { eapply Qle_lt_trans; [apply Qfloor_le | done]. }
    rewrite <- Zlt_Qlt in Hhi. lia. }
  intros [Hlo Hhi]. destruct (Qlt_le_dec q 0) as [Hn|Hn].
  - assert (Py.int (- q) = 0%Z) as E by (apply Hpos; lra).
    rewrite int_opp in E. lia.
  - by apply Hpos.
Qed.

Lemma int_negative q : q <= - (1) -> (Py.int q < 0)%Z.
Proof.
  intros Hq. assert (1 <= Py.int (- q))%Z as H; [|rewrite int_opp in H; lia].
  rewrite int_nonneg by lra.
  assert (Qfloor 1 <= Qfloor (- q))%Z by (apply Qfloor_resp_le; lra).
  done.
Qed.

(** X14: the oscillators on a duration that gives no sample.  The
    count of samples is [int(sample_rate * duration)], the product with
    its fraction dropped.  When the product is -1 or less the count is
    negative: [np.linspace] raises [ValueError] and nothing is created.
    When the product is strictly between -1 and 1 the count is zero: both
    oscillators return a new, empty buffer and raise nothing. *)
Theorem oscillators_without_samples freq duration sample_rate m :
  (sample_rate * duration <= - (1) ->
   generate_sine_wave np_sin np_pi freq duration sample_rate m
     = (Raise ValueError, m) /\
   generate_triangle_wave np_sin np_arcsin np_pi freq duration sample_rate m
     = (Raise ValueError, m)) /\
  (- (1) < sample_rate * duration < 1 ->
   generate_sine_wave np_sin np_pi freq duration sample_rate m
     = (Ok (length (arrays m)), push_array m []) /\
   generate_triangle_wave np_sin np_arcsin np_pi freq duration sample_rate m
     = (Ok (length (arrays m)), push_array m [])).
Proof.
  rewrite generate_sine_wave_run, generate_triangle_wave_run. split.
  - intros H. apply int_negative in H. by rewrite linspace_negative.
  - intros H. apply int_small in H. by rewrite H.
Qed.

End OscillatorExtras.

Lemma oscillators_without_samples_witness :
  let m := fresh_machine [] in
  generate_sine_wave (fun x => x) 3 432 (- (1)) 48000 m = (Raise ValueError, m) /\
  generate_triangle_wave (fun x => x) (fun x => x) 3 432 (1 # 96000) 48000 m
    = (Ok 0%nat, push_array m []).
Proof.
  intros m.
  destruct (oscillators_without_samples (fun x => x) (fun x => x) 3 432 (- (1)) 48000 m)
    as [[H1 _] _]; [by vm_compute |].
  destruct (oscillators_without_samples (fun x => x) (fun x => x) 3 432 (1 # 96000)
              48000 m) as [_ [_ H2]]; [by vm_compute |].
  by split.
Defined.

(** ** What a computation leaves alone *)

Create HintDb files.

Lemma keeps_files_ret {A} (a : A) : keeps_files (ret a).
Proof. by intros m. Qed.

Lemma keeps_files_raise {A} e : keeps_files (@raise A e).
Proof. by intros m. Qed.

Lemma keeps_files_lift {A} (o : outcome A) : keeps_files (lift o).
Proof. by intros m. Qed.

Lemma keeps_files_alloc v : keeps_files (alloc v).
Proof. by intros m. Qed.

Lemma keeps_files_load r : keeps_files (load r).
Proof. intros m. unfold load. by destruct (arrays m !! r). Qed.

Lemma keeps_files_store r v : keeps_files (store r v).
Proof. by intros m. Qed.

Lemma keeps_files_random rng : keeps_files (random rng).
Proof. by intros m. Qed.

Lemma keeps_files_bind {A B} (c : M A) (k : A -> M B) :
  keeps_files c -> (forall a, keeps_files (k a)) -> keeps_files (bind c k).
Proof.
  intros Hc Hk m. unfold bind. specialize (Hc m).
  destruct (c m) as [[a|e] m']; simpl in *; [|done].
  by rewrite Hk.
Qed.

Lemma keeps_files_if {A} (b : bool) (c1 c2 : M A) :
  keeps_files c1 -> keeps_files c2 -> keeps_files (if b then c1 else c2).
Proof. by destruct b. Qed.

#[local] Hint Resolve keeps_files_ret keeps_files_raise keeps_files_lift
  keeps_files_alloc keeps_files_load keeps_files_store keeps_files_random
  keeps_files_bind keeps_files_if : files.

Lemma keeps_files_update r f : keeps_files (update r f).
Proof. unfold update. auto with files. Qed.

Lemma keeps_files_uniform rng low high : keeps_files (uniform rng low high).
Proof. unfold uniform. auto with files. Qed.

#[local] Hint Resolve keeps_files_update keeps_files_uniform : files.

Lemma keeps_files_for_each {A} (l : list A) (body : A -> M unit) :
  (forall x, keeps_files (body x)) -> keeps_files (for_each l body).
Proof. intros H. induction l; simpl; auto with files. Qed.

Lemma keeps_files_for_fold {A T} (l : list A) (body : A -> T -> M T) :
  (forall x acc, keeps_files (body x acc)) ->
  forall acc, keeps_files (for_fold l body acc).
Proof. intros H. induction l; intros acc; simpl; auto with files. Qed.

Lemma keeps_files_generate_sine_wave np_sin np_pi freq duration sample_rate :
  keeps_files (generate_sine_wave np_sin np_pi freq duration sample_rate).
Proof. unfold generate_sine_wave. auto with files. Qed.

Lemma keeps_files_generate_triangle_wave np_sin np_arcsin np_pi freq duration
    sample_rate :
  keeps_files (generate_triangle_wave np_sin np_arcsin np_pi freq duration sample_rate).
Proof. unfold generate_triangle_wave. auto with files. Qed.

Lemma keeps_files_apply_fade r fade_duration sample_rate :
  keeps_files (apply_fade r fade_duration sample_rate).
Proof. unfold apply_fade, imul_slice. auto 20 with files. Qed.

Lemma keeps_files_apply_envelope r attack release sample_rate :
  keeps_files (apply_envelope r attack release sample_rate).
Proof. unfold apply_envelope, assign_slice. auto 20 with files. Qed.

Lemma keeps_files_normalize_audio r headroom :
  keeps_files (normalize_audio r headroom).
Proof. unfold normalize_audio. auto 20 with files. Qed.

Lemma keeps_files_mix_waveforms refs gains : keeps_files (mix_waveforms refs gains).
Proof.
  unfold mix_waveforms.
  apply keeps_files_bind; [destruct gains; auto with files |]. intros g.
  apply keeps_files_bind; [destruct refs; auto with files |]. intros first.
  apply keeps_files_bind; [auto with files |]. intros mixed.
  apply keeps_files_bind; [|auto with files].
  apply keeps_files_for_each. intros [wave gain]. unfold iadd. auto with files.
Qed.

#[local] Hint Resolve keeps_files_generate_sine_wave keeps_files_generate_triangle_wave
  keeps_files_apply_fade keeps_files_apply_envelope keeps_files_normalize_audio
  keeps_files_mix_waveforms : files.

Lemma keeps_files_fade_and_normalize fade_duration headroom r :
  keeps_files (fade_and_normalize fade_duration headroom r).
Proof. unfold fade_and_normalize. auto with files. Qed.

Lemma keeps_files_run {A} (c : M A) m o m' :
  keeps_files c -> c m = (o, m') -> files m' = files m.
Proof. intros Hc E. specialize (Hc m). by rewrite E in Hc. Qed.

Lemma keeps_rng_for_each {A} (l : list A) (body : A -> M unit) :
  (forall x, keeps_rng (body x)) -> keeps_rng (for_each l body).
Proof. intros H. induction l; simpl; auto with rng. Qed.

Lemma keeps_rng_generate_triangle_wave np_sin np_arcsin np_pi freq duration
    sample_rate :
  keeps_rng (generate_triangle_wave np_sin np_arcsin np_pi freq duration sample_rate).
Proof. unfold generate_triangle_wave. auto with rng. Qed.

Lemma keeps_rng_apply_fade r fade_duration sample_rate :
  keeps_rng (apply_fade r fade_duration sample_rate).
Proof. unfold apply_fade, imul_slice. auto 20 with rng. Qed.

Lemma keeps_rng_normalize_audio r headroom : keeps_rng (normalize_audio r headroom).
Proof. unfold normalize_audio. auto 20 with rng. Qed.

Lemma keeps_rng_mix_waveforms refs gains : keeps_rng (mix_waveforms refs gains).
Proof.
  unfold mix_waveforms.
  apply keeps_rng_bind; [destruct gains; auto with rng |]. intros g.
  apply keeps_rng_bind; [destruct refs; auto with rng |]. intros first.
  apply keeps_rng_bind; [auto with rng |]. intros mixed.
  apply keeps_rng_bind; [|auto with rng].
  apply keeps_rng_for_each. intros [wave gain]. unfold iadd. auto with rng.
Qed.

#[local] Hint Resolve keeps_rng_generate_triangle_wave keeps_rng_apply_fade
  keeps_rng_normalize_audio keeps_rng_mix_waveforms : rng.

Lemma keeps_rng_fade_and_normalize fade_duration headroom r :
  keeps_rng (fade_and_normalize fade_duration headroom r).
Proof. unfold fade_and_normalize. auto with rng. Qed.

Lemma advances_rng_random rng : advances_rng 1 (random rng).
Proof. intros m a m'. unfold random. by intros [= <- <-]. Qed.

Lemma advances_rng_for_fold {A T} k (l : list A) (body : A -> T -> M T) :
  (forall x acc, advances_rng k (body x acc)) ->
  forall acc, advances_rng (length l * k) (for_fold l body acc).
Proof.
  intros H. induction l as [|x l IH]; intros acc.
  - apply advances_rng_keeps. simpl. auto with rng.
  - cbn [for_fold length Nat.mul]. apply advances_rng_bind; [apply H | apply IH].
Qed.

(** ** Running a loop *)

Section Loops.

Lemma bind_random {B} rng (k : Q -> M B) m :
  bind (random rng) k m = k (rng (rng_pos m)) (set_rng_pos m (S (rng_pos m))).
Proof. reflexivity. Qed.

Lemma bind_ret {A B} (a : A) (k : A -> M B) m : bind (ret a) k m = k a m.
Proof. reflexivity. Qed.

Lemma bind_assoc {A B C} (c : M A) (k1 : A -> M B) (k2 : B -> M C) m :
  bind (bind c k1) k2 m = bind c (fun a => bind (k1 a) k2) m.
Proof. unfold bind. by destruct (c m) as [[a|e] m']. Qed.

Lemma fst_bind_raise {A B} (c : M A) (k : A -> M B) m e :
  fst (c m) = Raise e -> fst (bind c k m) = Raise e.
Proof. unfold bind. destruct (c m) as [[a|e'] m']; simpl; [done | by intros [= ->]]. Qed.

(** A loop whose turns all return, with an invariant counted by turns. *)
Lemma for_fold_steps {A T} (I : nat -> T -> machine -> Prop) (body : A -> T -> M T)
    (l : list A) :
  (forall j x acc m, I j acc m ->
     exists acc' m', body x acc m = (Ok acc', m') /\ I (S j) acc' m') ->
  forall j acc m, I j acc m ->
    exists acc' m', for_fold l body acc m = (Ok acc', m') /\
                    I (j + length l)%nat acc' m'.
Proof.
  intros Hstep. induction l as [|x l IH]; intros j acc m HI.
  - exists acc, m. split; [done |]. by rewrite Nat.add_0_r.
  - destruct (Hstep j x acc m HI) as (acc1 & m1 & Hrun & HI1).
    destruct (IH (S j) acc1 m1 HI1) as (acc' & m' & Hrun' & HI').
    exists acc', m'. cbn [for_fold]. rewrite (bind_ok _ _ _ _ _ Hrun).
    split; [done |]. cbn [length]. by rewrite Nat.add_succ_r.
Qed.

Lemma for_fold_raises {A T} (body : A -> T -> M T) x (l : list A) acc m e :
  fst (body x acc m) = Raise e -> fst (for_fold (x :: l) body acc m) = Raise e.
Proof. intros H. cbn [for_fold]. by apply fst_bind_raise. Qed.

Lemma extends_refl m : extends m m.
Proof. by intros r v. Qed.

Lemma extends_trans m1 m2 m3 : extends m1 m2 -> extends m2 m3 -> extends m1 m3.
Proof. intros H1 H2 r v Hr. by apply H2, H1. Qed.

Lemma extends_push m v : extends m (push_array m v).
Proof. intros r w Hr. by apply lookup_push_old. Qed.

Lemma extends_rng m p : extends m (set_rng_pos m p).
Proof. by intros r v. Qed.

End Loops.

(** ** The end of a generator *)

Section Finish.
Implicit Types (w v : list Q) (fs : Z).

(** Both ends of a buffer are zero after the two steps of a fade of at
    least two samples. *)
Lemma fade_steps_ends fs w a1 a2 :
  fade_in_step fs w = Ok a1 -> fade_out_step fs a1 = Ok a2 ->
  (2 <= fs)%Z -> (Z.to_nat fs <= length w)%nat ->
  is_zero_at a2 0 /\ is_zero_at a2 (length w - 1).
Proof.
  intros H1 H2 Hfs Hlen. pose proof (fade_in_step_length _ _ _ H1) as Hl1. split.
  - eapply fade_out_step_zero_at; [exact H2 |].
    eapply fade_in_step_first; [exact H1 | lia | lia].
  - destruct (lookup_lt_is_Some_2 a1 (length w - 1) ltac:(lia)) as [x Hx].
    destruct (fade_out_step_at _ _ _ _ _ H2 ltac:(lia) ltac:(lia) Hx) as (y & Hy & E).
    exists y. split; [done |]. rewrite E, Hl1.
    destruct (Nat.leb_spec (length w - Z.to_nat fs) (length w - 1)); [|lia].
    replace (length w - 1 - (length w - Z.to_nat fs))%nat with (Z.to_nat fs - 1)%nat
      by lia.
    unfold ramp_down. rewrite ramp_up_last by lia. ring.
Qed.

(** The fade and the normalisation of a buffer that was just created,
    when the fade fits in it. *)
Lemma fade_and_normalize_returns fade_duration headroom m1 w :
  (2 <= Py.int (fade_duration * SAMPLE_RATE))%Z ->
  (Z.to_nat (Py.int (fade_duration * SAMPLE_RATE)) <= length w)%nat ->
  exists r' m' v,
    fade_and_normalize fade_duration headroom (length (arrays m1)) (push_array m1 w)
      = (Ok r', m') /\
    arrays m' !! r' = Some v /\ length v = length w /\
    bounded_by (Qabs headroom) v /\
    is_zero_at v 0 /\ is_zero_at v (length w - 1) /\
    (forall i, is_zero_at w i -> is_zero_at v i) /\
    extends m1 m'.
Proof.
  intros Hfs Hlen. set (fs := Py.int (fade_duration * SAMPLE_RATE)) in *.
  destruct (fade_in_step_ok fs w ltac:(lia) Hlen) as [a1 H1].
  pose proof (fade_in_step_length _ _ _ H1) as Hl1.
  destruct (fade_out_step_ok fs a1 ltac:(lia) ltac:(lia)) as [a2 H2].
  pose proof (fade_out_step_length _ _ _ H2) as Hl2.
  assert (apply_fade (length (arrays m1)) fade_duration SAMPLE_RATE (push_array m1 w) =
          (Ok (length (arrays m1)), push_array m1 a2)) as Hfade.
  { rewrite (apply_fade_run _ _ _ _ w) by apply lookup_push.
    fold fs. by rewrite H1, H2, push_then_put. }
  unfold fade_and_normalize. rewrite (bind_ok _ _ _ _ _ Hfade).
  destruct (fade_steps_ends _ _ _ _ H1 H2 Hfs Hlen) as [Hfirst Hlast].
  assert (forall i, is_zero_at w i -> is_zero_at a2 i) as Hzero.
  { intros i Hi. eapply fade_out_step_zero_at; [exact H2 |].
    by eapply fade_in_step_zero_at. }
  assert (a2 <> []) as Hne by (intros ->; simpl in *; lia).
  destruct (normalize_audio_cases (length (arrays m1)) headroom (push_array m1 a2) a2
              (lookup_push _ _) Hne) as (p & Hp & [[Hpos Hrun]|[Hle Hrun]]);
    rewrite (bind_ok _ _ _ _ _ Hrun).
  - assert (forall x, x == 0 -> x / p * headroom == 0) as Hscale.
    { intros x Hx. rewrite Hx. unfold Qdiv. ring. }
    eexists _, _, _. split; [reflexivity |]. split; [apply lookup_push |].
    split; [rewrite length_map; lia |].
    split; [by apply scaled_bounded |].
    split; [by apply scaled_zero_at |].
    split; [by apply scaled_zero_at |].
    split; [intros i Hi; apply scaled_zero_at; [done | by apply Hzero] |].
    eapply extends_trans; apply extends_push.
  - eexists _, _, _. split; [reflexivity |]. split; [apply lookup_push |].
    split; [lia |].
    split; [eapply silent_bounded; [exact Hp | done | apply Qabs_nonneg] |].
    split; [done |]. split; [done |]. split; [done |]. apply extends_push.
Qed.

(** The fade does not fit: the generator ends with [ValueError]. *)
Lemma fade_and_normalize_raises fade_duration headroom m1 w :
  (length w < Z.to_nat (Py.int (fade_duration * SAMPLE_RATE)))%nat ->
  Py.int (fade_duration * SAMPLE_RATE) <> 1%Z ->
  fst (fade_and_normalize fade_duration headroom (length (arrays m1)) (push_array m1 w))
    = Raise ValueError.
Proof.
  intros Hlen Hne. unfold fade_and_normalize. apply fst_bind_raise.
  rewrite (apply_fade_run _ _ _ _ w) by apply lookup_push.
  by rewrite fade_in_step_too_long.
Qed.

End Finish.

(** ** The four generators *)

Section Generators.
Variables (np_sin np_arcsin : Q -> Q) (np_pi : Q).

Lemma length_mixed (N : nat) bufs gains :
  Forall (fun b : list Q => length b = N) bufs ->
  length (mix_value (replicate N 0) (zip bufs gains)) = N.
Proof.
  intros H. rewrite length_mix_value; rewrite length_replicate; done.
Qed.

(** The harmonics of the drone: four turns, one variate and one new
    buffer of the full length each. *)
Lemma generate_drone_loop_run rng duration (N : nat) m :
  Py.int (SAMPLE_RATE * duration) = Z.of_nat N ->
  exists m1 mixed,
    generate_drone_loop np_sin np_pi rng duration m =
      fade_and_normalize 0.5 0.7 (length (arrays m1)) (push_array m1 mixed) /\
    length mixed = N /\ extends m m1 /\
    rng_pos m1 = (4 + rng_pos m)%nat /\ files m1 = files m.
Proof.
  intros HN. unfold generate_drone_loop.
  set (I := fun (j : nat) (hg : list nat * list Q) (m1 : machine) =>
              Forall (fun r => exists v, arrays m1 !! r = Some v /\ length v = N) hg.1 /\
              length hg.1 = j /\ extends m m1 /\
              rng_pos m1 = (j + rng_pos m)%nat /\ files m1 = files m).
  match goal with
  | |- context [for_fold ?l ?body ?a0] =>
      assert (exists acc' m', for_fold l body a0 m = (Ok acc', m') /\
                              I (0 + length l)%nat acc' m')
        as ([h g] & m1 & Hloop & Hall & Hlen & Hext & Hrng & Hfiles)
  end.
  { apply for_fold_steps.
    - intros j [i ratio] [h g] m0 (Hall & Hlen & Hext & Hrng & Hfiles). simpl in *.
      eexists _, _. split.
      + rewrite bind_random. cbv beta.
        rewrite (bind_ok _ _ _ _ _
                   (generate_sine_wave_ok np_sin np_pi _ duration SAMPLE_RATE N _ HN)).
        reflexivity.
      + unfold I. cbn [fst]. split; [|split; [|split; [|split]]].
        * apply Forall_app. split.
          -- eapply Forall_impl; [exact Hall |]. intros r (v & Hv & Hl).
             exists v. split; [by apply lookup_push_old | done].
          -- constructor; [|constructor]. eexists. split; [apply lookup_push |].
             by rewrite !length_map, length_seq.
        * rewrite length_app. simpl. lia.
        * eapply extends_trans; [exact Hext |].
          eapply extends_trans; [apply extends_rng | apply extends_push].
        * cbn. lia.
        * exact Hfiles.
    - unfold I. simpl. repeat split; [constructor | apply extends_refl]. }
  simpl in Hall, Hlen, Hrng. rewrite (bind_ok _ _ _ _ _ Hloop).
  destruct (buffers_of_refs _ _ _ Hall) as (bufs & H2 & H1).
  assert (h <> []) as Hne by (intros ->; simpl in Hlen; lia).
  rewrite (bind_ok _ _ _ _ _
             (mix_waveforms_run m1 h bufs N (Some g) g Hne H2 H1 eq_refl)).
  exists m1, (mix_value (replicate N 0) (zip bufs g)).
  split; [reflexivity |]. split; [by apply length_mixed |].
  split; [done |]. split; [lia | done].
Qed.

(** X15: the drone loop.  With [n = int(48000 * duration)] samples:
    when the fade of half a second fits ([24000 <= n]) the generator
    returns a buffer of [n] samples, all within [-0.7, 0.7], whose first
    and last samples are zero; it draws exactly four random variates,
    writes no file and leaves every array that existed as it was.  When
    the fade does not fit ([n < 24000], a duration under half a second or
    negative) it raises [ValueError]. *)
Theorem generate_drone_loop_spec rng duration m :
  let n := Py.int (SAMPLE_RATE * duration) in
  ((24000 <= n)%Z ->
   exists r m' v,
     generate_drone_loop np_sin np_pi rng duration m = (Ok r, m') /\
     arrays m' !! r = Some v /\ length v = Z.to_nat n /\
     bounded_by 0.7 v /\
     is_zero_at v 0 /\ is_zero_at v (Z.to_nat n - 1) /\
     rng_pos m' = (4 + rng_pos m)%nat /\ files m' = files m /\ extends m m') /\
  ((n < 24000)%Z ->
   fst (generate_drone_loop np_sin np_pi rng duration m) = Raise ValueError).
Proof.
  intros n. assert (Py.int (0.5 * SAMPLE_RATE) = 24000%Z) as Hint by reflexivity.
  split.
  - intros Hn.
    destruct (generate_drone_loop_run rng duration (Z.to_nat n) m)
      as (m1 & mixed & Hrun & Hlen & Hext & Hrng & Hfiles);
      [unfold n; lia |].
    destruct (fade_and_normalize_returns 0.5 0.7 m1 mixed)
      as (r & m' & v & Hfin & Hv & Hlv & Hb & H0 & Hl & _ & Hext');
      [rewrite Hint; lia | rewrite Hint; lia |].
    exists r, m', v. rewrite Hrun.
    pose proof (keeps_rng_run _ _ _ _ (keeps_rng_fade_and_normalize _ _ _) Hfin) as Kr.
    pose proof (keeps_files_run _ _ _ _ (keeps_files_fade_and_normalize _ _ _) Hfin)
      as Kf.
    simpl in Kr, Kf. rewrite Hlen in *.
    repeat (split; [done || congruence |]). by eapply extends_trans.
  - intros Hn. destruct (Z.lt_ge_cases n 0) as [Hneg|Hpos].
    + unfold generate_drone_loop. apply fst_bind_raise, for_fold_raises.
      rewrite bind_random. cbv beta. apply fst_bind_raise.
      rewrite generate_sine_wave_run. fold n. by rewrite linspace_negative.
    + destruct (generate_drone_loop_run rng duration (Z.to_nat n) m)
        as (m1 & mixed & Hrun & Hlen & _); [unfold n; lia |].
      rewrite Hrun. apply fade_and_normalize_raises; rewrite Hint; lia.
Qed.

End Generators.

Lemma generate_drone_loop_spec_witness :
  let m := fresh_machine [] in
  (exists r m' v,
     generate_drone_loop (fun x => x) 3 (fun _ => 0) 6 m = (Ok r, m') /\
     arrays m' !! r = Some v /\ length v = Z.to_nat 288000 /\
     bounded_by 0.7 v /\ is_zero_at v 0 /\ rng_pos m' = 4%nat) /\
  fst (generate_drone_loop (fun x => x) 3 (fun _ => 0) (1 # 4) m) = Raise ValueError.
Proof.
  intros m.
  destruct (generate_drone_loop_spec (fun x => x) 3 (fun _ => 0) 6 m) as [H1 _].
  destruct (generate_drone_loop_spec (fun x => x) 3 (fun _ => 0) (1 # 4) m) as [_ H2].
  split; [|apply H2; by vm_compute].
  destruct H1 as (r & m' & v & Hrun & Hv & Hlen & Hb & H0 & _ & Hrng & _);
    [by vm_compute |].
  change (Py.int (SAMPLE_RATE * 6)) with 288000%Z in Hlen.
  exists r, m', v.
  split; [exact Hrun |]. split; [exact Hv |]. split; [exact Hlen |].
  split; [exact Hb |]. split; [exact H0 | exact Hrng].
Defined.

Section Pad.
Variables (np_sin np_arcsin : Q -> Q) (np_pi : Q).

Lemma generate_triangle_wave_ok freq duration sample_rate (N : nat) m :
  Py.int (sample_rate * duration) = Z.of_nat N ->
  generate_triangle_wave np_sin np_arcsin np_pi freq duration sample_rate m =
    (Ok (length (arrays m)),
     push_array m (map (fun x => 2 * np_arcsin (np_sin (2 * np_pi * freq * x)) / np_pi)
                     (map (Np.linspace_at 0 duration N false) (seq 0 N)))).
Proof.
  intros HN. rewrite generate_triangle_wave_run, HN, linspace_ok by lia.
  by rewrite Nat2Z.id.
Qed.

(** The three voices of the pad and their mix. *)
Lemma generate_pad_loop_run duration (N : nat) m :
  Py.int (SAMPLE_RATE * duration) = Z.of_nat N ->
  exists m1 mixed,
    generate_pad_loop np_sin np_arcsin np_pi duration m =
      fade_and_normalize 1.5 0.6 (length (arrays m1)) (push_array m1 mixed) /\
    length mixed = N /\ extends m m1 /\
    rng_pos m1 = rng_pos m /\ files m1 = files m.
Proof.
  intros HN. unfold generate_pad_loop.
  rewrite (bind_ok _ _ _ _ _ (generate_triangle_wave_ok _ _ _ N _ HN)).
  set (w1 := map _ (map _ (seq 0 N))).
  rewrite (bind_ok _ _ _ _ _
             (generate_sine_wave_ok np_sin np_pi _ duration SAMPLE_RATE N _ HN)).
  set (w2 := map _ (map _ (seq 0 N))).
  rewrite (bind_ok _ _ _ _ _
             (generate_sine_wave_ok np_sin np_pi _ duration SAMPLE_RATE N _ HN)).
  set (w3 := map _ (map _ (seq 0 N))).
  assert (length w1 = N /\ length w2 = N /\ length w3 = N) as (Hl1 & Hl2 & Hl3)
    by (unfold w1, w2, w3; by rewrite !length_map, !length_seq).
  set (m1 := push_array (push_array (push_array m w1) w2) w3).
  assert (Forall2 (fun r b => arrays m1 !! r = Some b)
            [length (arrays m); length (arrays (push_array m w1));
             length (arrays (push_array (push_array m w1) w2))]
            [w1; w2; w3]) as H2.
  { repeat constructor.
    - apply lookup_push_old, lookup_push_old, lookup_push.
    - apply lookup_push_old, lookup_push.
    - apply lookup_push. }
  assert (Forall (fun b : list Q => length b = N) [w1; w2; w3]) as H1
    by (by repeat constructor).
  assert (forall a b c : nat, [a; b; c] <> []) as Hne by done.
  rewrite (bind_ok _ _ _ _ _
             (mix_waveforms_run m1 _ _ N (Some [0.5; 0.3; 0.2]) _
                (Hne _ _ _) H2 H1 eq_refl)).
  eexists m1, _. split; [reflexivity |].
  split; [by apply length_mixed |].
  split; [|done].
  eapply extends_trans; [apply extends_push |].
  eapply extends_trans; apply extends_push.
Qed.

(** X16: the pad loop.  With [n = int(48000 * duration)] samples:
    when the fade of a second and a half fits ([72000 <= n]) the generator
    returns a buffer of [n] samples, all within [-0.6, 0.6], whose first
    and last samples are zero; it draws no random variate, writes no file
    and leaves every array that existed as it was.  When the fade does
    not fit ([n < 72000]) it raises [ValueError]. *)
Theorem generate_pad_loop_spec duration m :
  let n := Py.int (SAMPLE_RATE * duration) in
  ((72000 <= n)%Z ->
   exists r m' v,
     generate_pad_loop np_sin np_arcsin np_pi duration m = (Ok r, m') /\
     arrays m' !! r = Some v /\ length v = Z.to_nat n /\
     bounded_by 0.6 v /\
     is_zero_at v 0 /\ is_zero_at v (Z.to_nat n - 1) /\
     rng_pos m' = rng_pos m /\ files m' = files m /\ extends m m') /\
  ((n < 72000)%Z ->
   fst (generate_pad_loop np_sin np_arcsin np_pi duration m) = Raise ValueError).
Proof.
  intros n. assert (Py.int (1.5 * SAMPLE_RATE) = 72000%Z) as Hint by reflexivity.
  split.
  - intros Hn.
    destruct (generate_pad_loop_run duration (Z.to_nat n) m)
      as (m1 & mixed & Hrun & Hlen & Hext & Hrng & Hfiles);
      [unfold n; lia |].
    destruct (fade_and_normalize_returns 1.5 0.6 m1 mixed)
      as (r & m' & v & Hfin & Hv & Hlv & Hb & H0 & Hl & _ & Hext');
      [rewrite Hint; lia | rewrite Hint; lia |].
    exists r, m', v. rewrite Hrun.
    pose proof (keeps_rng_run _ _ _ _ (keeps_rng_fade_and_normalize _ _ _) Hfin) as Kr.
    pose proof (keeps_files_run _ _ _ _ (keeps_files_fade_and_normalize _ _ _) Hfin)
      as Kf.
    simpl in Kr, Kf. rewrite Hlen in *.
    repeat (split; [done || congruence |]). by eapply extends_trans.
  - intros Hn. destruct (Z.lt_ge_cases n 0) as [Hneg|Hpos].
    + unfold generate_pad_loop. apply fst_bind_raise.
      rewrite generate_triangle_wave_run. fold n. by rewrite linspace_negative.
    + destruct (generate_pad_loop_run duration (Z.to_nat n) m)
        as (m1 & mixed & Hrun & Hlen & _); [unfold n; lia |].
      rewrite Hrun. apply fade_and_normalize_raises; rewrite Hint; lia.
Qed.

End Pad.

Lemma generate_pad_loop_spec_witness :
  let m := fresh_machine [] in
  (exists r m' v,
     generate_pad_loop (fun x => x) (fun x => x) 3 8 m = (Ok r, m') /\
     arrays m' !! r = Some v /\ length v = Z.to_nat 384000 /\
     bounded_by 0.6 v /\ is_zero_at v 0) /\
  fst (generate_pad_loop (fun x => x) (fun x => x) 3 1 m) = Raise ValueError.
Proof.
  intros m.
  destruct (generate_pad_loop_spec (fun x => x) (fun x => x) 3 8 m) as [H1 _].
  destruct (generate_pad_loop_spec (fun x => x) (fun x => x) 3 1 m) as [_ H2].
  split; [|apply H2; by vm_compute].
  destruct H1 as (r & m' & v & Hrun & Hv & Hlen & Hb & H0 & _); [by vm_compute |].
  change (Py.int (SAMPLE_RATE * 8)) with 384000%Z in Hlen.
  exists r, m', v.
  split; [exact Hrun |]. split; [exact Hv |]. split; [exact Hlen |].
  split; [exact Hb | exact H0].
Defined.

Section BreathLoop.
Variables (np_sin : Q -> Q) (np_pi : Q).

(** The breath shape times the carrier: the buffer that is then faded
    and normalised.  It is zero wherever the time is in the pause. *)
Lemma generate_breath_loop_run duration (N : nat) m :
  Py.int (SAMPLE_RATE * duration) = Z.of_nat N ->
  exists m1 product,
    generate_breath_loop np_sin np_pi duration m =
      fade_and_normalize 1 0.4 (length (arrays m1)) (push_array m1 product) /\
    length product = N /\
    (forall i, (i < N)%nat -> 10 <= Np.linspace_at 0 duration N false i ->
               is_zero_at product i) /\
    extends m m1 /\ rng_pos m1 = rng_pos m /\ files m1 = files m.
Proof.
  intros HN.
  unfold generate_breath_loop, breath_grid.
  rewrite HN, linspace_ok, Nat2Z.id by lia.
  set (t := map (Np.linspace_at 0 duration N false) (seq 0 N)).
  assert (length t = N) as Ht by (unfold t; by rewrite length_map, length_seq).
  rewrite bind_lift_ok, bind_alloc.
  set (b := length (arrays m)).
  (* inhale *)
  rewrite (linspace_ok 0 0.5) by apply sum_nonneg. rewrite bind_lift_ok.
  set (rise := map _ (seq 0 (Z.to_nat (Np.sum (inhale_mask t))))).
  unfold assign_mask at 1.
  rewrite (bind_update_ok b _ (Np.zeros_like t)
             (Np.mask_fill (Np.zeros_like t) (inhale_mask t) rise)).
  2: { apply lookup_push. }
  2: { apply mask_assign_ok.
       - unfold inhale_mask, Np.zeros_like. by rewrite length_map, length_replicate.
       - unfold rise. by rewrite length_map, length_seq. }
  unfold b at 1. rewrite push_then_put. fold b.
  set (s1 := Np.mask_fill (Np.zeros_like t) (inhale_mask t) rise).
  (* exhale *)
  rewrite (linspace_ok 0.5 0) by apply sum_nonneg. rewrite bind_lift_ok.
  set (fall := map _ (seq 0 (Z.to_nat (Np.sum (exhale_mask t))))).
  unfold assign_mask at 1.
  rewrite (bind_update_ok b _ s1 (Np.mask_fill s1 (exhale_mask t) fall)).
  2: { apply lookup_push. }
  2: { apply mask_assign_ok.
       - unfold exhale_mask, s1, Np.zeros_like.
         by rewrite length_map, length_mask_fill, length_replicate.
       - unfold fall. by rewrite length_map, length_seq. }
  unfold b at 1. rewrite push_then_put. fold b.
  set (shape := Np.mask_fill s1 (exhale_mask t) fall).
  assert (length shape = N) as Hshape.
  { unfold shape, s1, Np.zeros_like.
    by rewrite !length_mask_fill, length_replicate. }
  (* carrier and modulation *)
  rewrite (bind_ok _ _ _ _ _
             (generate_sine_wave_ok np_sin np_pi 216 duration SAMPLE_RATE N _ HN)).
  fold t. set (carrier := map (fun x => np_sin (2 * np_pi * 216 * x)) t).
  assert (length carrier = N) as Hcarrier by (unfold carrier; by rewrite length_map).
  set (m2 := push_array m shape).
  rewrite (bind_load (length (arrays m2)) carrier) by apply lookup_push.
  rewrite (bind_load b shape) by apply lookup_push_old, lookup_push.
  rewrite broadcast2_same by lia. rewrite bind_lift_ok, bind_alloc.
  set (product := zip_with Qmult carrier shape).
  exists (push_array m2 carrier), product.
  split; [reflexivity |].
  split; [unfold product; rewrite length_zip_with; lia |].
  split; [|split; [|done]].
  - intros i Hi Hti.
    assert (t !! i = Some (Np.linspace_at 0 duration N false i)) as Hlook
      by (unfold t; by rewrite list_lookup_fmap, lookup_seq_lt).
    assert (shape !! i = Some 0) as Hs.
    { unfold shape. rewrite mask_fill_false.
      - unfold s1. rewrite mask_fill_false.
        + unfold Np.zeros_like. apply lookup_replicate_2. lia.
        + unfold inhale_mask. rewrite list_lookup_fmap, Hlook. simpl.
          f_equal. apply Qltb_ge. lra.
      - unfold exhale_mask. rewrite list_lookup_fmap, Hlook. simpl.
        f_equal. apply andb_false_iff. right. by apply Qltb_ge. }
    destruct (lookup_lt_is_Some_2 carrier i ltac:(lia)) as [c Hc].
    exists (c * 0). split; [|ring].
    unfold product. by rewrite lookup_zip_with, Hc, Hs.
  - eapply extends_trans; apply extends_push.
Qed.

(** X17: the breath loop of any duration.  With
    [n = int(48000 * duration)] samples: when the fade of one second fits
    ([48000 <= n]) the generator returns a buffer of [n] samples, all
    within [-0.4, 0.4]; its first and last samples are zero, and so is
    every sample whose time [i * duration / n] is 10 seconds or more (the
    pause); it draws no random variate, writes no file and leaves every
    array that existed as it was.  When the fade does not fit
    ([n < 48000]) it raises [ValueError]. *)
Theorem generate_breath_loop_spec duration m :
  let n := Py.int (SAMPLE_RATE * duration) in
  ((48000 <= n)%Z ->
   exists r m' v,
     generate_breath_loop np_sin np_pi duration m = (Ok r, m') /\
     arrays m' !! r = Some v /\ length v = Z.to_nat n /\
     bounded_by 0.4 v /\
     is_zero_at v 0 /\ is_zero_at v (Z.to_nat n - 1) /\
     (forall i, (Z.of_nat i < n)%Z ->
        10 * inject_Z n <= inject_Z (Z.of_nat i) * duration -> is_zero_at v i) /\
     rng_pos m' = rng_pos m /\ files m' = files m /\ extends m m') /\
  ((n < 48000)%Z ->
   fst (generate_breath_loop np_sin np_pi duration m) = Raise ValueError).
Proof.
  intros n. assert (Py.int (1 * SAMPLE_RATE) = 48000%Z) as Hint by reflexivity.
  split.
  - intros Hn.
    destruct (generate_breath_loop_run duration (Z.to_nat n) m)
      as (m1 & product & Hrun & Hlen & Hpause & Hext & Hrng & Hfiles);
      [unfold n; lia |].
    destruct (fade_and_normalize_returns 1 0.4 m1 product)
      as (r & m' & v & Hfin & Hv & Hlv & Hb & H0 & Hl & Hz & Hext');
      [rewrite Hint; lia | rewrite Hint; lia |].
    exists r, m', v. rewrite Hrun.
    pose proof (keeps_rng_run _ _ _ _ (keeps_rng_fade_and_normalize _ _ _) Hfin) as Kr.
    pose proof (keeps_files_run _ _ _ _ (keeps_files_fade_and_normalize _ _ _) Hfin)
      as Kf.
    simpl in Kr, Kf. rewrite Hlen in *.
    split; [done |]. split; [done |]. split; [done |]. split; [done |].
    split; [done |]. split; [done |].
    split; [|split; [congruence | split; [congruence | by eapply extends_trans]]].
    intros i Hi Hti. apply Hz, Hpause; [lia |].
    rewrite linspace_at_open by lia. rewrite Z2Nat.id by lia.
    assert (0 < inject_Z n) as Hpos by (rewrite <- (Zlt_Qlt 0); lia).
    set (qn := inject_Z n) in *. set (qi := inject_Z (Z.of_nat i)) in *.
    assert (0 + qi * (duration - 0) / qn == qi * duration / qn) as E
      by (field; lra).
    rewrite E. by apply Qle_shift_div_l.
  - intros Hn. destruct (Z.lt_ge_cases n 0) as [Hneg|Hpos].
    + unfold generate_breath_loop, breath_grid. apply fst_bind_raise.
      fold n. by rewrite linspace_negative.
    + destruct (generate_breath_loop_run duration (Z.to_nat n) m)
        as (m1 & product & Hrun & Hlen & _); [unfold n; lia |].
      rewrite Hrun. apply fade_and_normalize_raises; rewrite Hint; lia.
Qed.

End BreathLoop.

Lemma generate_breath_loop_spec_witness :
  let m := fresh_machine [] in
  (exists r m' v,
     generate_breath_loop (fun x => x) 3 12 m = (Ok r, m') /\
     arrays m' !! r = Some v /\ length v = Z.to_nat 576000 /\
     bounded_by 0.4 v /\ is_zero_at v 0 /\ is_zero_at v (Z.to_nat 500000)) /\
  fst (generate_breath_loop (fun x => x) 3 (1 # 2) m) = Raise ValueError.
Proof.
  intros m.
  destruct (generate_breath_loop_spec (fun x => x) 3 12 m) as [H1 _].
  destruct (generate_breath_loop_spec (fun x => x) 3 (1 # 2) m) as [_ H2].
  split; [|apply H2; by vm_compute].
  destruct H1 as (r & m' & v & Hrun & Hv & Hlen & Hb & H0 & _ & Hz & _);
    [by vm_compute |].
  change (Py.int (SAMPLE_RATE * 12)) with 576000%Z in Hlen, Hz.
  exists r, m', v.
  split; [exact Hrun |]. split; [exact Hv |]. split; [exact Hlen |].
  split; [exact Hb |]. split; [exact H0 |].
  apply Hz; [lia |]. rewrite Z2Nat.id by lia. by vm_compute.
Defined.

Section TextureLoop.
Variables (np_sin : Q -> Q) (np_pi : Q).

Lemma keeps_files_texture_tone rng duration tones :
  keeps_files (texture_tone np_sin np_pi rng duration tones).
Proof. unfold texture_tone, imul_scalar. auto 20 with files. Qed.

(** The five tones of the texture and their mix, when the ramps of the
    envelope fit. *)
Lemma generate_texture_loop_run rng duration (N : nat) m :
  Py.int (SAMPLE_RATE * duration) = Z.of_nat N ->
  (Z.to_nat 14400 <= N)%nat ->
  exists m1 mixed,
    generate_texture_loop np_sin np_pi rng duration m =
      fade_and_normalize 0.3 0.5 (length (arrays m1)) (push_array m1 mixed) /\
    length mixed = N /\ extends m m1 /\
    rng_pos m1 = (20 + rng_pos m)%nat /\ files m1 = files m.
Proof.
  intros HN Hfit. unfold generate_texture_loop.
  set (I := fun (j : nat) (tones : list nat) (m1 : machine) =>
              Forall (fun r => exists v, arrays m1 !! r = Some v /\ length v = N) tones /\
              length tones = j /\ extends m m1 /\
              rng_pos m1 = (4 * j + rng_pos m)%nat /\ files m1 = files m).
  match goal with
  | |- context [for_fold ?l ?body ?a0] =>
      assert (exists acc' m', for_fold l body a0 m = (Ok acc', m') /\
                              I (0 + length l)%nat acc' m')
        as (tones & m1 & Hloop & Hall & Hlen & Hext & Hrng & Hfiles)
  end.
  { apply for_fold_steps.
    - intros j _ tones m0 (Hall & Hlen & Hext & Hrng & Hfiles).
      destruct (texture_tone_returns np_sin np_pi rng duration N tones m0 HN Hfit)
        as (v & m' & Hrun & Hv & Hlv & Hold).
      eexists _, m'. split; [exact Hrun |].
      pose proof (texture_tone_advances _ _ _ _ _ _ _ _ Hrun) as Kr.
      pose proof (keeps_files_run _ _ _ _ (keeps_files_texture_tone _ _ _) Hrun) as Kf.
      split; [|split; [|split; [|split]]].
      + apply Forall_app. split.
        * eapply Forall_impl; [exact Hall |]. intros r (v0 & Hv0 & Hl0).
          exists v0. split; [by apply Hold | done].
        * constructor; [|constructor]. by exists v.
      + rewrite length_app. simpl. lia.
      + by eapply extends_trans.
      + lia.
      + congruence.
    - unfold I. simpl. repeat split; [constructor | apply extends_refl]. }
  simpl in Hlen, Hrng. rewrite (bind_ok _ _ _ _ _ Hloop).
  destruct (buffers_of_refs _ _ _ Hall) as (bufs & H2 & H1).
  assert (tones <> []) as Hne by (intros ->; simpl in Hlen; lia).
  rewrite (bind_ok _ _ _ _ _
             (mix_waveforms_run m1 tones bufs N None _ Hne H2 H1 eq_refl)).
  eexists m1, _.
  split; [reflexivity |]. split; [by apply length_mixed |].
  split; [done |]. split; [lia | done].
Qed.

(** X18: the texture loop.  With [n = int(48000 * duration)]
    samples: when the ramps of 0.3 seconds fit ([14400 <= n]) the
    generator returns a buffer of [n] samples, all within [-0.5, 0.5],
    whose first and last samples are zero; it draws exactly twenty random
    variates (four for each of the five tones), writes no file and leaves
    every array that existed as it was.  When the ramps do not fit
    ([n < 14400]) it raises [ValueError]. *)
Theorem generate_texture_loop_spec rng duration m :
  let n := Py.int (SAMPLE_RATE * duration) in
  ((14400 <= n)%Z ->
   exists r m' v,
     generate_texture_loop np_sin np_pi rng duration m = (Ok r, m') /\
     arrays m' !! r = Some v /\ length v = Z.to_nat n /\
     bounded_by 0.5 v /\
     is_zero_at v 0 /\ is_zero_at v (Z.to_nat n - 1) /\
     rng_pos m' = (20 + rng_pos m)%nat /\ files m' = files m /\ extends m m') /\
  ((n < 14400)%Z ->
   fst (generate_texture_loop np_sin np_pi rng duration m) = Raise ValueError).
Proof.
  intros n. assert (Py.int (0.3 * SAMPLE_RATE) = 14400%Z) as Hint by reflexivity.
  split.
  - intros Hn.
    destruct (generate_texture_loop_run rng duration (Z.to_nat n) m)
      as (m1 & mixed & Hrun & Hlen & Hext & Hrng & Hfiles);
      [unfold n; lia | lia |].
    destruct (fade_and_normalize_returns 0.3 0.5 m1 mixed)
      as (r & m' & v & Hfin & Hv & Hlv & Hb & H0 & Hl & _ & Hext');
      [rewrite Hint; lia | rewrite Hint; lia |].
    exists r, m', v. rewrite Hrun.
    pose proof (keeps_rng_run _ _ _ _ (keeps_rng_fade_and_normalize _ _ _) Hfin) as Kr.
    pose proof (keeps_files_run _ _ _ _ (keeps_files_fade_and_normalize _ _ _) Hfin)
      as Kf.
    simpl in Kr, Kf. rewrite Hlen in *.
    repeat (split; [done || congruence |]). by eapply extends_trans.
  - intros Hn. unfold generate_texture_loop.
    apply fst_bind_raise, for_fold_raises. unfold texture_tone.
    repeat (rewrite bind_uniform; cbv beta).
    destruct (Z.lt_ge_cases n 0) as [Hneg|Hpos].
    + apply fst_bind_raise.
      rewrite generate_sine_wave_run. fold n. by rewrite linspace_negative.
    + rewrite (bind_ok _ _ _ _ _
                 (generate_sine_wave_ok np_sin np_pi _ duration SAMPLE_RATE
                    (Z.to_nat n) _ ltac:(unfold n; lia))).
      apply fst_bind_raise.
      erewrite apply_envelope_run by apply lookup_push.
      rewrite Hint, attack_step_too_long; [done | | done].
      rewrite length_ones_like, !length_map, length_seq. lia.
Qed.

End TextureLoop.

Lemma generate_texture_loop_spec_witness :
  let m := fresh_machine [] in
  (exists r m' v,
     generate_texture_loop (fun x => x) 3 (fun _ => 0) 4 m = (Ok r, m') /\
     arrays m' !! r = Some v /\ length v = Z.to_nat 192000 /\
     bounded_by 0.5 v /\ is_zero_at v 0 /\ rng_pos m' = 20%nat) /\
  fst (generate_texture_loop (fun x => x) 3 (fun _ => 0) (1 # 4) m) = Raise ValueError.
Proof.
  intros m.
  destruct (generate_texture_loop_spec (fun x => x) 3 (fun _ => 0) 4 m) as [H1 _].
  destruct (generate_texture_loop_spec (fun x => x) 3 (fun _ => 0) (1 # 4) m)
    as [_ H2].
  split; [|apply H2; by vm_compute].
  destruct H1 as (r & m' & v & Hrun & Hv & Hlen & Hb & H0 & _ & Hrng & _);
    [by vm_compute |].
  change (Py.int (SAMPLE_RATE * 4)) with 192000%Z in Hlen.
  exists r, m', v.
  split; [exact Hrun |]. split; [exact Hv |]. split; [exact Hlen |].
  split; [exact Hb |]. split; [exact H0 | exact Hrng].
Defined.

(** ** The driver *)

Section Paths.

Lemma append_inj (p b1 b2 : string) :
  String.append p b1 = String.append p b2 -> b1 = b2.
Proof. induction p as [|c p IH]; simpl; [done |]. intros [= H]. by apply IH. Qed.

Lemma has_dirname_append_l (p b : string) :
  Py.has_dirname p = true -> Py.has_dirname (String.append p b) = true.
Proof.
  induction p as [|c p IH]; simpl; [done |].
  destruct (Ascii.eqb c "/"%char); [done | exact IH].
Qed.

Lemma has_dirname_append_sep (a b : string) :
  Py.has_dirname (String.append a (String "/"%char b)) = true.
Proof.
  induction a as [|c a IH]; simpl; [done |].
  by destruct (Ascii.eqb c "/"%char).
Qed.

Lemma ends_with_sep_has_dirname (a : string) :
  OsPath.ends_with_sep a = true -> Py.has_dirname a = true.
Proof.
  induction a as [|c a IH]; [done |]. cbn [OsPath.ends_with_sep Py.has_dirname].
  destruct a as [|c' a].
  - intros ->. done.
  - intros H. destruct (Ascii.eqb c "/"%char); [done | by apply IH].
Qed.

(** Joining a directory that is not empty and a relative name: the
    result has a directory part, and two names give two paths. *)
Lemma join_has_dirname (a b : string) :
  a <> EmptyString -> OsPath.starts_with_sep b = false ->
  Py.has_dirname (OsPath.join a b) = true.
Proof.
  intros Ha Hb. unfold OsPath.join. rewrite Hb. destruct a as [|c a]; [done |].
  destruct (OsPath.ends_with_sep (String c a)) eqn:E.
  - by apply has_dirname_append_l, ends_with_sep_has_dirname.
  - apply has_dirname_append_sep.
Qed.

Lemma join_inj (a b1 b2 : string) :
  a <> EmptyString ->
  OsPath.starts_with_sep b1 = false -> OsPath.starts_with_sep b2 = false ->
  OsPath.join a b1 = OsPath.join a b2 -> b1 = b2.
Proof.
  intros Ha H1 H2. unfold OsPath.join. rewrite H1, H2. destruct a as [|c a]; [done |].
  destruct (OsPath.ends_with_sep (String c a)).
  - apply append_inj.
  - intros H. apply append_inj in H. by injection H.
Qed.

Lemma basename_plain (b : string) : Py.has_dirname b = false -> Py.basename b = b.
Proof.
  destruct b as [|c b]; [done |]. cbn [Py.has_dirname Py.basename].
  destruct (Ascii.eqb c "/"%char); [done |]. by intros ->.
Qed.

Lemma basename_append_sep (a b : string) :
  Py.has_dirname b = false ->
  Py.basename (String.append a (String "/"%char b)) = b.
Proof.
  intros Hb. induction a as [|c a IH].
  - change (Py.basename (String "/"%char b) = b). cbn [Py.basename].
    by rewrite Hb.
  - change (Py.basename (String c (String.append a (String "/"%char b))) = b).
    cbn [Py.basename]. by rewrite has_dirname_append_sep.
Qed.

Lemma basename_append_ends (a b : string) :
  OsPath.ends_with_sep a = true -> Py.has_dirname b = false ->
  Py.basename (String.append a b) = b.
Proof.
  intros Ha Hb. induction a as [|c a IH]; [done |].
  change (Py.basename (String c (String.append a b)) = b).
  cbn [Py.basename]. destruct a as [|c' a].
  - cbn [OsPath.ends_with_sep] in Ha. change (String.append "" b) with b.
    by rewrite Hb, Ha.
  - rewrite has_dirname_append_l by (by apply ends_with_sep_has_dirname).
    by apply IH.
Qed.

(** Joining a directory that is not empty and a plain file name gives a
    path whose last component is that name. *)
Lemma join_basename (a b : string) :
  a <> EmptyString -> Py.has_dirname b = false ->
  Py.basename (OsPath.join a b) = b.
Proof.
  intros Ha Hb. unfold OsPath.join.
  assert (OsPath.starts_with_sep b = false) as ->.
  { destruct b as [|c b]; [done |]. cbn [Py.has_dirname] in Hb. simpl.
    by destruct (Ascii.eqb c "/"%char). }
  destruct a as [|c a]; [done |].
  destruct (OsPath.ends_with_sep (String c a)) eqn:E.
  - by apply basename_append_ends.
  - by apply basename_append_sep.
Qed.

Lemma join_names_file (a b : string) :
  a <> EmptyString -> Py.has_dirname b = false -> Py.names_directory b = false ->
  Py.names_directory (OsPath.join a b) = false.
Proof.
  intros Ha Hb Hfile. unfold Py.names_directory in *.
  rewrite join_basename by done. by rewrite basename_plain in Hfile.
Qed.

End Paths.

Section DriverLaws.
Variables (np_sin np_arcsin : Q -> Q) (np_pi : Q).

(** A generator that returns a finished loop, when its fade fits. *)
Lemma generator_returns (c : M ref) fade_duration headroom (N k : nat) m m1 mixed :
  c m = fade_and_normalize fade_duration headroom (length (arrays m1))
          (push_array m1 mixed) ->
  length mixed = N -> extends m m1 ->
  rng_pos m1 = (k + rng_pos m)%nat -> files m1 = files m ->
  (2 <= Py.int (fade_duration * SAMPLE_RATE))%Z ->
  (Z.to_nat (Py.int (fade_duration * SAMPLE_RATE)) <= N)%nat ->
  exists r m' v,
    c m = (Ok r, m') /\ arrays m' !! r = Some v /\
    loop_buffer (Qabs headroom) N v /\
    rng_pos m' = (k + rng_pos m)%nat /\ files m' = files m /\ extends m m'.
Proof.
  intros Hrun Hlen Hext Hrng Hfiles Hfs Hfit.
  destruct (fade_and_normalize_returns fade_duration headroom m1 mixed Hfs
              ltac:(lia)) as (r & m' & v & Hfin & Hv & Hlv & Hb & H0 & Hl & _ & Hext').
  pose proof (keeps_rng_run _ _ _ _ (keeps_rng_fade_and_normalize _ _ _) Hfin) as Kr.
  pose proof (keeps_files_run _ _ _ _ (keeps_files_fade_and_normalize _ _ _) Hfin)
    as Kf.
  simpl in Kr, Kf. exists r, m', v. rewrite Hrun, Hlen in *.
  split; [done |]. split; [done |]. split; [by repeat split |]. split; [lia |].
  split; [congruence | by eapply extends_trans].
Qed.

(** One loop of [main]: a generator that returns a finished loop, then
    [save_wav]. *)
Lemma generate_and_save (c : M ref) (name : string) headroom (N k : nat) m :
  (exists r m' v,
     c m = (Ok r, m') /\ arrays m' !! r = Some v /\
     loop_buffer headroom N v /\
     rng_pos m' = (k + rng_pos m)%nat /\ files m' = files m /\ extends m m') ->
  headroom <= 1 ->
  (2 * Z.of_nat N + 36 < 4294967296)%Z ->
  Py.has_dirname name = true -> Py.names_directory name = false ->
  exists m' f,
    (forall rest : M unit,
       (r <- c ;; save_wav r name SAMPLE_RATE ;; rest) m = rest m') /\
    (r <- c ;; save_wav r name SAMPLE_RATE) m = (Ok tt, m') /\
    files m' = <[name := f]> (files m) /\
    loop_file headroom N f /\
    rng_pos m' = (k + rng_pos m)%nat /\ extends m m'.
Proof.
  intros (r & m1 & v & Hrun & Hv & Hloop & Hrng & Hfiles & Hext) Hh Hsize Hdir Hname.
  assert (length v = N) as HN by apply Hloop.
  pose proof (save_wav_run r name SAMPLE_RATE m1 v Hv Hdir Hname ltac:(done)
                ltac:(by vm_compute) ltac:(by rewrite HN)) as Hsave.
  eexists _, {| nchannels := 1; sampwidth := 2; framerate := Py.round SAMPLE_RATE;
                frames := Np.tobytes (Np.astype_int16 (map (fun x => x * MAX_AMP) v)) |}.
  split; [|split].
  - intros rest. rewrite (bind_ok _ _ _ _ _ Hrun), (bind_ok _ _ _ _ _ Hsave).
    reflexivity.
  - rewrite (bind_ok _ _ _ _ _ Hrun). exact Hsave.
  - cbn [files set_files rng_pos arrays].
    split; [by rewrite Hfiles |]. split; [|split; [done | exact Hext]].
    unfold loop_file. cbn [nchannels sampwidth framerate frames].
    split; [done |]. split; [done |]. split; [reflexivity |].
    destruct Hloop as (Hlen & Hb & H0 & Hl).
    split; [unfold Np.astype_int16; by rewrite length_tobytes, !length_map, Hlen |].
    exists v. split; [done |]. apply decode_saved. by eapply bounded_fits_int16.
Qed.

(** The whole run of [main]. *)
Lemma main_run rng output_dir m :
  output_dir <> EmptyString ->
  let path := OsPath.join output_dir in
  exists m' drone texture breath pad,
    main np_sin np_arcsin np_pi rng output_dir m = (Ok tt, m') /\
    files m' !! path "drone-base.wav" = Some drone /\
    files m' !! path "texture-grains.wav" = Some texture /\
    files m' !! path "breath-cycle.wav" = Some breath /\
    files m' !! path "pad-warm.wav" = Some pad /\
    loop_file 0.7 (Z.to_nat 288000) drone /\
    loop_file 0.5 (Z.to_nat 192000) texture /\
    loop_file 0.4 (Z.to_nat 528000) breath /\
    loop_file 0.6 (Z.to_nat 384000) pad /\
    (forall other,
        other <> path "drone-base.wav" -> other <> path "texture-grains.wav" ->
        other <> path "breath-cycle.wav" -> other <> path "pad-warm.wav" ->
        files m' !! other = files m !! other) /\
    rng_pos m' = (24 + rng_pos m)%nat /\
    extends m m'.
Proof.
  intros Hdir path. unfold main. fold path.
  assert (forall N : Z, (0 <= N)%Z -> N = Z.of_nat (Z.to_nat N)) as Hnat
    by (intros; lia).
  (* drone *)
  destruct (generate_and_save (generate_drone_loop np_sin np_pi rng 6)
              (path "drone-base.wav") (Qabs 0.7) (Z.to_nat 288000) 4 m)
    as (m1 & f1 & Hk1 & _ & Hf1 & Hc1 & Hrng1 & Hext1).
  { destruct (generate_drone_loop_run np_sin np_pi rng 6 (Z.to_nat 288000) m)
      as (m0 & mixed & Hrun & Hlen & Hext & Hrng & Hfiles); [by apply Hnat |].
    eapply generator_returns; try eassumption; [by vm_compute |].
    change (Py.int (0.5 * SAMPLE_RATE)) with 24000%Z. lia. }
  { by vm_compute. }
  { lia. }
  { by apply join_has_dirname. }
  { by apply join_names_file. }
  rewrite Hk1.
  (* texture *)
  destruct (generate_and_save (generate_texture_loop np_sin np_pi rng 4)
              (path "texture-grains.wav") (Qabs 0.5) (Z.to_nat 192000) 20 m1)
    as (m2 & f2 & Hk2 & _ & Hf2 & Hc2 & Hrng2 & Hext2).
  { destruct (generate_texture_loop_run np_sin np_pi rng 4 (Z.to_nat 192000) m1)
      as (m0 & mixed & Hrun & Hlen & Hext & Hrng & Hfiles); [by apply Hnat | lia |].
    eapply generator_returns; try eassumption; [by vm_compute |].
    change (Py.int (0.3 * SAMPLE_RATE)) with 14400%Z. lia. }
  { by vm_compute. }
  { lia. }
  { by apply join_has_dirname. }
  { by apply join_names_file. }
  rewrite Hk2.
  (* breath *)
  destruct (generate_and_save (generate_breath_loop np_sin np_pi 11)
              (path "breath-cycle.wav") (Qabs 0.4) (Z.to_nat 528000) 0 m2)
    as (m3 & f3 & Hk3 & _ & Hf3 & Hc3 & Hrng3 & Hext3).
  { destruct (generate_breath_loop_run np_sin np_pi 11 (Z.to_nat 528000) m2)
      as (m0 & product & Hrun & Hlen & _ & Hext & Hrng & Hfiles); [by apply Hnat |].
    eapply generator_returns; try eassumption; [by vm_compute |].
    change (Py.int (1 * SAMPLE_RATE)) with 48000%Z. lia. }
  { by vm_compute. }
  { lia. }
  { by apply join_has_dirname. }
  { by apply join_names_file. }
  rewrite Hk3.
  (* pad *)
  destruct (generate_and_save (generate_pad_loop np_sin np_arcsin np_pi 8)
              (path "pad-warm.wav") (Qabs 0.6) (Z.to_nat 384000) 0 m3)
    as (m4 & f4 & _ & Hk4 & Hf4 & Hc4 & Hrng4 & Hext4).
  { destruct (generate_pad_loop_run np_sin np_arcsin np_pi 8 (Z.to_nat 384000) m3)
      as (m0 & mixed & Hrun & Hlen & Hext & Hrng & Hfiles); [by apply Hnat |].
    eapply generator_returns; try eassumption; [by vm_compute |].
    change (Py.int (1.5 * SAMPLE_RATE)) with 72000%Z. lia. }
  { by vm_compute. }
  { lia. }
  { by apply join_has_dirname. }
  { by apply join_names_file. }
  rewrite Hk4.
  (* the four paths differ *)
  assert (forall b1 b2 : string,
            OsPath.starts_with_sep b1 = false -> OsPath.starts_with_sep b2 = false ->
            b1 <> b2 -> path b1 <> path b2) as Hpath.
  { intros b1 b2 H1 H2 Hne E. apply Hne. by eapply join_inj. }
  rewrite Hf1 in Hf2. rewrite Hf2 in Hf3. rewrite Hf3 in Hf4.
  exists m4, f1, f2, f3, f4. split; [done |]. rewrite Hf4.
  split; [|split; [|split; [|split]]].
  - rewrite !lookup_insert_ne by (by apply Hpath). apply lookup_insert_eq.
  - rewrite !lookup_insert_ne by (by apply Hpath). apply lookup_insert_eq.
  - rewrite !lookup_insert_ne by (by apply Hpath). apply lookup_insert_eq.
  - apply lookup_insert_eq.
  - split; [exact Hc1 |]. split; [exact Hc2 |]. split; [exact Hc3 |].
    split; [exact Hc4 |]. split; [|split; [lia |]].
    + intros other H1 H2 H3 H4. by rewrite !lookup_insert_ne.
    + eapply extends_trans; [exact Hext1 |].
      eapply extends_trans; [exact Hext2 |].
      eapply extends_trans; [exact Hext3 | exact Hext4].
Qed.

(** What a decoder reads from the file of a finished loop. *)
Lemma loop_file_samples h N (peak : Z) f :
  loop_file h N f -> (0 < N)%nat -> h * 32767 < inject_Z (peak + 1) ->
  let samples := decode_int16 (frames f) in
  length samples = N /\
  Forall (fun z => (Z.abs z <= peak)%Z) samples /\
  samples !! 0%nat = Some 0%Z /\ samples !! (N - 1)%nat = Some 0%Z.
Proof.
  intros (_ & _ & _ & _ & v & (Hlen & Hb & H0 & Hl) & Hdec) HN Hpeak samples.
  unfold samples. rewrite Hdec.
  assert (forall i, is_zero_at v i ->
            map (fun x => Py.int (x * 32767)) v !! i = Some 0%Z) as Hzero.
  { intros i (x & Hx & E). rewrite list_lookup_fmap, Hx. simpl. f_equal.
    destruct x as [n d]. unfold Qeq in E. simpl in E.
    assert (n = 0%Z) as -> by lia. reflexivity. }
  split; [by rewrite length_map |]. split; [|split; by apply Hzero].
  apply Forall_fmap. eapply Forall_impl; [exact Hb |].
  intros x Hx. unfold compose. cbv beta in *.
  assert (inject_Z (Z.abs (Py.int (x * 32767))) < inject_Z (peak + 1)) as Hlt.
  { eapply Qle_lt_trans; [apply int_abs_le |].
    rewrite Qabs_Qmult. change (Qabs 32767) with 32767.
    eapply Qle_lt_trans; [|exact Hpeak].
    apply Qmult_le_compat_r; [done | lra]. }
  rewrite <- Zlt_Qlt in Hlt. lia.
Qed.

End DriverLaws.

Section DriverExtras.
Variables (np_sin np_arcsin : Q -> Q) (np_pi : Q).

(** X19: what [main] leaves on disk.  From a directory name that is
    not empty, [main] returns and has written four files, under the four
    distinct paths [drone-base.wav], [texture-grains.wav],
    [breath-cycle.wav] and [pad-warm.wav] of that directory: each is
    mono, 2 bytes per sample, 48000 Hz, and holds two bytes for each of
    the 288000, 192000, 528000 and 384000 samples of the loops of 6, 4, 11
    and 8 seconds.  No other file is touched, 24 random variates are
    drawn (4 by the drone, 20 by the texture), and every array that
    existed is as it was. *)
Theorem main_writes_four_loops rng output_dir m :
  output_dir <> EmptyString ->
  let path := OsPath.join output_dir in
  exists m' drone texture breath pad,
    main np_sin np_arcsin np_pi rng output_dir m = (Ok tt, m') /\
    files m' !! path "drone-base.wav" = Some drone /\
    files m' !! path "texture-grains.wav" = Some texture /\
    files m' !! path "breath-cycle.wav" = Some breath /\
    files m' !! path "pad-warm.wav" = Some pad /\
    Forall (fun f => nchannels f = 1%Z /\ sampwidth f = 2%Z /\ framerate f = 48000%Z)
      [drone; texture; breath; pad] /\
    length (frames drone) = Z.to_nat 576000 /\
    length (frames texture) = Z.to_nat 384000 /\
    length (frames breath) = Z.to_nat 1056000 /\
    length (frames pad) = Z.to_nat 768000 /\
    (forall other,
        other <> path "drone-base.wav" -> other <> path "texture-grains.wav" ->
        other <> path "breath-cycle.wav" -> other <> path "pad-warm.wav" ->
        files m' !! other = files m !! other) /\
    rng_pos m' = (24 + rng_pos m)%nat /\
    extends m m'.
Proof.
  intros Hdir path.
  destruct (main_run np_sin np_arcsin np_pi rng output_dir m Hdir)
    as (m' & f1 & f2 & f3 & f4 & Hrun & H1 & H2 & H3 & H4
        & (Hc1 & Hw1 & Hr1 & Hl1 & _) & (Hc2 & Hw2 & Hr2 & Hl2 & _)
        & (Hc3 & Hw3 & Hr3 & Hl3 & _) & (Hc4 & Hw4 & Hr4 & Hl4 & _)
        & Hother & Hrng & Hext).
  exists m', f1, f2, f3, f4.
  split; [done |]. split; [done |]. split; [done |]. split; [done |].
  split; [done |]. split; [by repeat constructor |].
  split; [lia |]. split; [lia |]. split; [lia |]. split; [lia |].
  split; [exact Hother |]. split; [exact Hrng | exact Hext].
Qed.

(** X20: the loops that [main] writes are seamless and unclipped.
    From each of the four files a 16-bit decoder reads as many samples as
    the loop has; the first and the last sample are 0, so the end of the
    loop meets its start; and no sample exceeds the headroom of its
    generator on the 16-bit scale: 22936 for the drone (0.7), 16383 for
    the texture (0.5), 13106 for the breath (0.4), 19660 for the pad
    (0.6), in absolute value. *)
Theorem main_loops_seamless_unclipped rng output_dir m :
  output_dir <> EmptyString ->
  let path := OsPath.join output_dir in
  exists m',
    main np_sin np_arcsin np_pi rng output_dir m = (Ok tt, m') /\
    Forall (fun '(name, N, peak) =>
              exists f,
                files m' !! path name = Some f /\
                let samples := decode_int16 (frames f) in
                length samples = Z.to_nat N /\
                Forall (fun z => (Z.abs z <= peak)%Z) samples /\
                samples !! 0%nat = Some 0%Z /\
                samples !! (Z.to_nat N - 1)%nat = Some 0%Z)
      [("drone-base.wav"%string, 288000%Z, 22936%Z);
       ("texture-grains.wav"%string, 192000%Z, 16383%Z);
       ("breath-cycle.wav"%string, 528000%Z, 13106%Z);
       ("pad-warm.wav"%string, 384000%Z, 19660%Z)].
Proof.
  intros Hdir path.
  destruct (main_run np_sin np_arcsin np_pi rng output_dir m Hdir)
    as (m' & f1 & f2 & f3 & f4 & Hrun & H1 & H2 & H3 & H4
        & Hc1 & Hc2 & Hc3 & Hc4 & _).
  exists m'. split; [done |].
  repeat constructor.
  - exists f1. split; [done |]. apply (loop_file_samples 0.7); [done | lia | done].
  - exists f2. split; [done |]. apply (loop_file_samples 0.5); [done | lia | done].
  - exists f3. split; [done |]. apply (loop_file_samples 0.4); [done | lia | done].
  - exists f4. split; [done |]. apply (loop_file_samples 0.6); [done | lia | done].
Qed.

End DriverExtras.

Lemma main_writes_four_loops_witness :
  exists m' drone texture breath pad,
    main (fun x => x) (fun x => x) 3 (fun _ => 0) "/srv/loops" (fresh_machine [])
      = (Ok tt, m') /\
    files m' !! ("/srv/loops/drone-base.wav")%string = Some drone /\
    files m' !! ("/srv/loops/texture-grains.wav")%string = Some texture /\
    files m' !! ("/srv/loops/breath-cycle.wav")%string = Some breath /\
    files m' !! ("/srv/loops/pad-warm.wav")%string = Some pad /\
    length (frames drone) = Z.to_nat 576000 /\
    rng_pos m' = 24%nat.
Proof.
  destruct (main_writes_four_loops (fun x => x) (fun x => x) 3 (fun _ => 0)
              "/srv/loops" (fresh_machine []))
    as (m' & f1 & f2 & f3 & f4 & Hrun & H1 & H2 & H3 & H4 & _ & Hl & _ & _ & _ & _
        & Hrng & _); [done |].
  exists m', f1, f2, f3, f4.
  split; [exact Hrun |]. split; [exact H1 |]. split; [exact H2 |].
  split; [exact H3 |]. split; [exact H4 |]. split; [exact Hl | exact Hrng].
Defined.

Lemma main_loops_seamless_unclipped_witness :
  exists m' f,
    main (fun x => x) (fun x => x) 3 (fun _ => 0) "/srv/loops" (fresh_machine [])
      = (Ok tt, m') /\
    files m' !! ("/srv/loops/drone-base.wav")%string = Some f /\
    Forall (fun z => (Z.abs z <= 22936)%Z) (decode_int16 (frames f)) /\
    decode_int16 (frames f) !! 0%nat = Some 0%Z.
Proof.
  destruct (main_loops_seamless_unclipped (fun x => x) (fun x => x) 3 (fun _ => 0)
              "/srv/loops" (fresh_machine []))
    as (m' & Hrun & Hall); [done |].
  apply Forall_cons in Hall as [(f & Hf & _ & Hb & H0 & _) _].
  exists m', f. split; [exact Hrun |]. split; [exact Hf |]. split; [exact Hb | exact H0].
Defined.
